(** * Logcha: the time computation rules

    A shallow embedding of the rules that turn raw attendance entries into
    hours, pay and progress figures:

    - [supabase-migration.sql]: the generated columns [am_hours], [pm_hours]
      and [total_hours] of [time_records], the CHECK constraints
      [chk_am_times] and [chk_pm_times], and the functions
      [calculate_weekly_summary] and [get_ojt_progress];
    - [lib/validations.ts]: the Zod schemas [traineeSchema] and
      [timeRecordSchema] with their [superRefine] callbacks;
    - the key constraints of [time_records] ([unique_trainee_date],
      [fk_time_records_trainee]) and the cascades of a deleted trainee,
      [timeRecordSchema] on a host whose zone changes its offset, the
      route guard
      [ProtectedRoute] with the dashboard page that uses it, and the
      argument parser of [scripts/seed-admin.ts].

    SQL [numeric] values are decimals of arbitrary precision; they are
    modelled as rationals ([Q]) with every rounding that PostgreSQL
    performs written out: the coercion of a value into a [DECIMAL(p,s)]
    column, the call [ROUND(x, 2)], and the scale at which a division
    rounds its quotient.  PostgreSQL rounds [numeric] half away from zero.
    The numeric semantics is that of PostgreSQL 14 and later, where
    [EXTRACT] returns a numeric.

    The file has two parts: first the embedding (the SQL objects, the two
    schemas, the validation rules in the words of the specification, and
    the concrete records used as examples), then the properties. *)

From Stdlib Require Import ZArith QArith Qround Qabs Qminmax Lia Lqa.
From Stdlib Require Import List String Ascii Bool.
Import ListNotations.

Local Open Scope Z_scope.
Local Open Scope Q_scope.

(** ** Results of fallible SQL evaluation *)

(** The constraints declared on [time_records] that a row is checked
    against. *)
Inductive constraint_name : Set :=
| chk_am_times
| chk_pm_times.

Inductive sql_error : Set :=
| check_violation (c : constraint_name)
| numeric_field_overflow
| division_by_zero.

Definition result (A : Type) : Type := (sql_error + A)%type.

Definition ok {A : Type} (a : A) : result A := inr a.
Definition raise {A : Type} (e : sql_error) : result A := inl e.

Definition bind {A B : Type} (m : result A) (k : A -> result B) : result B :=
  match m with
  | inl e => inl e
  | inr a => k a
  end.

Notation "x <- m ;; k" := (bind m (fun x => k))
  (at level 61, m at next level, right associativity).

(** ** SQL numeric *)

Module Numeric.

(** [10^s] as a positive denominator. *)
Definition pow10 (s : nat) : positive := Z.to_pos (10 ^ Z.of_nat s).

(** Rounding of a numeric to [s] decimal places, half away from zero:
    what [ROUND(x, s)] does and what storing into a column of scale [s]
    does. *)
Definition round_numeric (x : Q) (s : nat) : Q :=
  let m := Qfloor (Qabs x * inject_Z (Zpos (pow10 s)) + (1 # 2)) in
  (if Qle_bool 0 x then m else (- m)%Z) # pow10 s.

(** Coercion into [DECIMAL(p, s)]: round to scale [s], then fail when the
    rounded value needs more than [p - s] integer digits. *)
Definition to_decimal (p s : nat) (x : Q) : result Q :=
  let y := round_numeric x s in
  if Qle_bool (inject_Z (Zpos (pow10 (p - s)))) (Qabs y)
  then raise numeric_field_overflow
  else ok y.

(** *** Division

    PostgreSQL stores a numeric in base 10000 and gives a quotient the
    scale that [select_div_scale] picks from the operands: enough decimals
    for at least 16 significant digits, and no fewer than either operand
    displays.  The quotient is rounded at that scale. *)

Definition NBASE : Z := 10000.
Definition DEC_DIGITS : Z := 4.
Definition NUMERIC_MIN_SIG_DIGITS : Z := 16.
Definition NUMERIC_MAX_DISPLAY_SCALE : Z := 1000.

(** Weight and first base-10000 digit of an integer [n >= 1]. *)
Fixpoint norm_up (fuel : nat) (n w : Z) : Z * Z :=
  match fuel with
  | O => (w, n)
  | S f => if (n <? NBASE)%Z then (w, n) else norm_up f (n / NBASE)%Z (w + 1)%Z
  end.

(** Weight and first base-10000 digit of a fraction [0 < x < 1]. *)
Fixpoint norm_down (fuel : nat) (x : Q) (w : Z) : Z * Z :=
  match fuel with
  | O => (w, Qfloor x)
  | S f =>
      if Qle_bool 1 x then (w, Qfloor x)
      else norm_down f (x * inject_Z NBASE) (w - 1)%Z
  end.

(** The normalized weight and the first non-zero digit of a numeric;
    [(0, 0)] for zero. *)
Definition weight_and_digit (x : Q) : Z * Z :=
  let a := Qabs x in
  if Qeq_bool a 0 then (0, 0)%Z
  else if Qle_bool 1 a
       then norm_up (Z.to_nat (Z.log2 (Qfloor a))) (Qfloor a) 0
       else norm_down (Pos.size_nat (Qden a)) a 0.

(** [select_div_scale]: [dx] and [dy] are the display scales of the
    operands. *)
Definition select_div_scale (x : Q) (dx : nat) (y : Q) (dy : nat) : nat :=
  let (weight1, firstdigit1) := weight_and_digit x in
  let (weight2, firstdigit2) := weight_and_digit y in
  let qweight :=
    (weight1 - weight2 - (if firstdigit1 <=? firstdigit2 then 1 else 0))%Z in
  let rscale := (NUMERIC_MIN_SIG_DIGITS - qweight * DEC_DIGITS)%Z in
  Z.to_nat
    (Z.min (Z.max (Z.max (Z.max rscale (Z.of_nat dx)) (Z.of_nat dy)) 0)
           NUMERIC_MAX_DISPLAY_SCALE).

(** The quotient of two numerics, the divisor not zero. *)
Definition quotient (x : Q) (dx : nat) (y : Q) (dy : nat) : Q :=
  round_numeric (x / y) (select_div_scale x dx y dy).

(** [x / y]; a zero divisor is an error. *)
Definition div (x : Q) (dx : nat) (y : Q) (dy : nat) : result Q :=
  if Qeq_bool y 0 then raise division_by_zero else ok (quotient x dx y dy).

(** [y] is [x] rounded half-up to [s] decimal places: [y] has at most [s]
    decimals and [x] lies in the half-open interval of width [10^-s]
    whose centre is [y], the lower end included. *)
Definition rounds_half_up (s : nat) (x y : Q) : Prop :=
  (exists k : Z, y == k # pow10 s) /\
  y - (1 # (2 * pow10 s)) <= x /\ x < y + (1 # (2 * pow10 s)).

(** A value with at most two decimals. *)
Definition whole_hundredths (x : Q) : Prop := exists k : Z, x == k # 100.

(** A number of hours that is a whole number of minutes. *)
Definition whole_minutes (x : Q) : Prop := exists m : Z, x == m # 60.

End Numeric.

(** ** Enumerated types of the schema *)

Inductive trainee_type : Set := paid_intern | unpaid_intern | ojt.
Inductive trainee_status : Set := active | completed | terminated.
Inductive time_record_status : Set :=
  present | half_day_am | half_day_pm | absent.

(** ** The table [time_records] *)

Module TimeRecords.
Import Numeric.

(** SQL [TIME]: microseconds since midnight, from [00:00:00] to
    [24:00:00]. *)
Definition time : Set := Z.
Definition valid_time (t : time) : Prop := (0 <= t <= 86400000000)%Z.

(** SQL [DATE] as a day number (days since 1970-01-01), [UUID] as a
    number. *)
Definition sql_date : Set := Z.
Definition uuid : Set := N.

(** A clock time [h:m:s]. *)
Definition hms (h m s : Z) : time := (((h * 60 + m) * 60 + s) * 1000000)%Z.

(** The columns a writer supplies. *)
Record time_record_input : Set := {
  in_trainee_id : uuid;
  in_date : sql_date;
  in_am_time_in : option time;
  in_am_time_out : option time;
  in_pm_time_in : option time;
  in_pm_time_out : option time;
  in_notes : option string;
  in_status : option time_record_status
}.

(** A stored row, generated columns included. *)
Record time_record : Set := {
  trainee_id : uuid;
  date : sql_date;
  am_time_in : option time;
  am_time_out : option time;
  am_hours : Q;
  pm_time_in : option time;
  pm_time_out : option time;
  pm_hours : Q;
  total_hours : Q;
  notes : option string;
  status : option time_record_status
}.

(** [EXTRACT(EPOCH FROM (t_out - t_in))]: the interval in seconds, a
    numeric with six decimals. *)
Definition extract_epoch (t_out t_in : time) : Q :=
  inject_Z (t_out - t_in) / 1000000.

(** [CASE WHEN t_in IS NOT NULL AND t_out IS NOT NULL
          THEN EXTRACT(EPOCH FROM (t_out - t_in)) / 3600.0 ELSE 0 END];
    the literal [3600.0] has one decimal. *)
Definition session_hours_expr (t_in t_out : option time) : Q :=
  match t_in, t_out with
  | Some i, Some o => quotient (extract_epoch o i) 6 3600 1
  | _, _ => 0
  end.

Definition am_hours_expr (r : time_record_input) : Q :=
  session_hours_expr (in_am_time_in r) (in_am_time_out r).

Definition pm_hours_expr (r : time_record_input) : Q :=
  session_hours_expr (in_pm_time_in r) (in_pm_time_out r).

(** The expression of [total_hours]: the two CASE expressions added,
    written from the time fields and not from the other generated
    columns. *)
Definition total_hours_expr (r : time_record_input) : Q :=
  am_hours_expr r + pm_hours_expr r.

(** [CHECK (t_out IS NULL OR t_in IS NULL OR t_out > t_in)] *)
Definition chk_times (t_in t_out : option time) : bool :=
  match t_out, t_in with
  | None, _ => true
  | _, None => true
  | Some o, Some i => (i <? o)%Z
  end.

Definition check (c : constraint_name) (b : bool) : result unit :=
  if b then ok tt else raise (check_violation c).

Definition make_row (r : time_record_input) (am pm total : Q) : time_record :=
  {| trainee_id := in_trainee_id r;
     date := in_date r;
     am_time_in := in_am_time_in r;
     am_time_out := in_am_time_out r;
     am_hours := am;
     pm_time_in := in_pm_time_in r;
     pm_time_out := in_pm_time_out r;
     pm_hours := pm;
     total_hours := total;
     notes := in_notes r;
     status := in_status r |}.

(** The row-level work of an INSERT or UPDATE on [time_records]: the
    three generated columns are computed and coerced to [DECIMAL(4,2)],
    then the CHECK constraints are tested, in the order of their
    names. *)
Definition store_time_record (r : time_record_input) : result time_record :=
  am <- to_decimal 4 2 (am_hours_expr r) ;;
  pm <- to_decimal 4 2 (pm_hours_expr r) ;;
  total <- to_decimal 4 2 (total_hours_expr r) ;;
  _ <- check chk_am_times
         (chk_times (in_am_time_in r) (in_am_time_out r)) ;;
  _ <- check chk_pm_times
         (chk_times (in_pm_time_in r) (in_pm_time_out r)) ;;
  ok (make_row r am pm total).

Definition opt_valid_time (t : option time) : Prop :=
  match t with
  | Some t => valid_time t
  | None => True
  end.

(** Every time field of the input is a value of type [TIME]. *)
Definition valid_times (r : time_record_input) : Prop :=
  opt_valid_time (in_am_time_in r) /\ opt_valid_time (in_am_time_out r) /\
  opt_valid_time (in_pm_time_in r) /\ opt_valid_time (in_pm_time_out r).

(** The raw duration of a session in hours, and 0 for a session with an
    absent endpoint. *)
Definition duration_hours (t_in t_out : time) : Q :=
  inject_Z (t_out - t_in) / 3600000000.

Definition raw_session_hours (t_in t_out : option time) : Q :=
  match t_in, t_out with
  | Some i, Some o => duration_hours i o
  | _, _ => 0
  end.

Definition raw_am_hours (r : time_record_input) : Q :=
  raw_session_hours (in_am_time_in r) (in_am_time_out r).

Definition raw_pm_hours (r : time_record_input) : Q :=
  raw_session_hours (in_pm_time_in r) (in_pm_time_out r).

End TimeRecords.

(** ** The tables [users] and [trainees], and the two functions *)

Module Payroll.
Import Numeric TimeRecords.

(** The columns of [users] that the queries read. *)
Record user : Set := {
  u_id : uuid;
  u_first_name : string;
  u_last_name : string
}.

(** The columns of [trainees] that the queries read.  [hourly_rate],
    [total_required_hours] and [status] are nullable;
    [max_weekly_hours] is [INTEGER NOT NULL]. *)
Record trainee : Set := {
  t_id : uuid;
  t_user_id : uuid;
  t_trainee_type : trainee_type;
  t_hourly_rate : option Q;
  t_max_weekly_hours : Z;
  t_total_required_hours : option Z;
  t_status : option trainee_status
}.

Record database : Set := {
  users : list user;
  trainees : list trainee;
  time_records : list time_record
}.

(** [SUM(tr.total_hours)] over a group: NULL when the group has no
    record. *)
Definition sum_total_hours (rows : list time_record) : option Q :=
  match rows with
  | [] => None
  | _ :: _ => Some (fold_right (fun tr acc => total_hours tr + acc) 0 rows)
  end.

(** [COALESCE(x, d)] *)
Definition coalesce (x : option Q) (d : Q) : Q :=
  match x with
  | Some v => v
  | None => d
  end.

(** [LEAST(x, y)] of two non-null numerics. *)
Definition least (x y : Q) : Q := if Qle_bool x y then x else y.

(** [tr.status IN ('present', 'half_day_am', 'half_day_pm')], NULL
    counted as not true. *)
Definition counts_as_present (st : option time_record_status) : bool :=
  match st with
  | Some present | Some half_day_am | Some half_day_pm => true
  | Some absent | None => false
  end.

(** The row that [RETURNS TABLE] describes.  The type modifiers of the
    declared columns are dropped by [CREATE FUNCTION], so no value is
    rounded on the way out. *)
Record weekly_summary : Set := {
  total_hours_worked : Q;
  billable_hours : Q;
  gross_pay : option Q;
  days_present : Z
}.

(** [WHERE tr.trainee_id = p_trainee_id
      AND tr.date BETWEEN p_week_start
                      AND (p_week_start + INTERVAL '6 days')::DATE] *)
Definition in_week (p_trainee_id : uuid) (p_week_start : sql_date)
    (tr : time_record) : bool :=
  (trainee_id tr =? p_trainee_id)%N &&
  ((p_week_start <=? date tr)%Z && (date tr <=? p_week_start + 6)%Z).

Definition calculate_weekly_summary (db : database)
    (p_trainee_id : uuid) (p_week_start : sql_date) : weekly_summary :=
  (* SELECT * INTO trainee_record FROM trainees WHERE id = p_trainee_id *)
  let trainee_record :=
    find (fun t => (t_id t =? p_trainee_id)%N) (trainees db) in
  let rows := filter (in_week p_trainee_id p_week_start) (time_records db) in
  let total := coalesce (sum_total_hours rows) 0 in
  {| total_hours_worked := total;
     billable_hours :=
       match trainee_record with
       | Some t =>
           match t_trainee_type t with
           | paid_intern | unpaid_intern =>
               least total (inject_Z (t_max_weekly_hours t))
           | ojt => total
           end
       | None => total
       end;
     gross_pay :=
       match trainee_record with
       | Some t =>
           match t_trainee_type t with
           | paid_intern =>
               match t_hourly_rate t with
               | Some rate =>
                   Some (least total (inject_Z (t_max_weekly_hours t)) * rate)
               | None => None
               end
           | unpaid_intern | ojt => Some 0
           end
       | None => Some 0
       end;
     days_present :=
       Z.of_nat
         (List.length (filter (fun tr => counts_as_present (status tr)) rows))
  |}.

(** A row of [get_ojt_progress]; the columns whose names are also
    column names of the tables carry the prefix [op_]. *)
Record ojt_progress : Set := {
  op_trainee_id : uuid;
  op_first_name : string;
  op_last_name : string;
  op_total_required_hours : option Z;
  hours_rendered : Q;
  remaining_hours : option Q;
  completion_percentage : option Q
}.

(** The display scale of [COALESCE(SUM(tr.total_hours), 0)]: that of the
    column for a sum, none for the integer 0. *)
Definition sum_dscale (rows : list time_record) : nat :=
  match rows with
  | [] => 0
  | _ :: _ => 2
  end.

(** [ROUND((hours / required) * 100, 2)]: NULL for a NULL divisor, an
    error for a zero one. *)
Definition completion_expr (hours : Q) (dscale : nat) (required : option Z)
  : result (option Q) :=
  match required with
  | None => ok None
  | Some n =>
      q <- div hours dscale (inject_Z n) 0 ;;
      ok (Some (round_numeric (q * 100) 2))
  end.

(** The select list, evaluated on the group of one trainee and its
    user. *)
Definition ojt_progress_row (db : database) (t : trainee) (u : user)
  : result ojt_progress :=
  let rows :=
    filter (fun tr => (trainee_id tr =? t_id t)%N) (time_records db) in
  let hours := coalesce (sum_total_hours rows) 0 in
  pct <- completion_expr hours (sum_dscale rows) (t_total_required_hours t) ;;
  ok {| op_trainee_id := t_id t;
        op_first_name := u_first_name u;
        op_last_name := u_last_name u;
        op_total_required_hours := t_total_required_hours t;
        hours_rendered := hours;
        remaining_hours :=
          match t_total_required_hours t with
          | Some n => Some (inject_Z n - hours)
          | None => None
          end;
        completion_percentage := pct |}.

(** [WHERE t.trainee_type = 'ojt' AND t.status = 'active'
      AND (p_trainee_id IS NULL OR t.id = p_trainee_id)] *)
Definition ojt_selected (p_trainee_id : option uuid) (t : trainee) : bool :=
  match t_trainee_type t, t_status t with
  | ojt, Some active =>
      match p_trainee_id with
      | None => true
      | Some p => (t_id t =? p)%N
      end
  | _, _ => false
  end.

Fixpoint collect {A B : Type} (f : A -> result B) (l : list A)
  : result (list B) :=
  match l with
  | [] => ok []
  | a :: l' =>
      b <- f a ;;
      bs <- collect f l' ;;
      ok (b :: bs)
  end.

(** [trainees t JOIN users u ON t.user_id = u.id], restricted by the
    WHERE clause. *)
Definition ojt_groups (db : database) (p_trainee_id : option uuid)
  : list (trainee * user) :=
  flat_map
    (fun t =>
       map (fun u => (t, u))
           (filter (fun u => (t_user_id t =? u_id u)%N) (users db)))
    (filter (ojt_selected p_trainee_id) (trainees db)).

(** [get_ojt_progress]: with [t.id] the primary key of [trainees], each
    joined pair of a selected trainee and its user is one group of the
    GROUP BY, holding that trainee's time records (none when the LEFT
    JOIN finds no record).  An error in one group fails the query. *)
Definition get_ojt_progress (db : database) (p_trainee_id : option uuid)
  : result (list ojt_progress) :=
  collect (fun g => ojt_progress_row db (fst g) (snd g))
          (ojt_groups db p_trainee_id).

(** The rows that a sequence of INSERTs leaves in [time_records]; a
    failing INSERT leaves none. *)
Definition stored_rows (inputs : list time_record_input) : list time_record :=
  flat_map (fun r => match store_time_record r with
                     | inr row => [row]
                     | inl _ => []
                     end) inputs.

(** The sum of [total_hours] over a set of records, 0 for none. *)
Definition hours_sum (rows : list time_record) : Q :=
  fold_right Qplus 0 (map total_hours rows).

(** The records of a trainee, and those that fall in a week. *)
Definition records_of (db : database) (p : uuid) : list time_record :=
  filter (fun tr => (trainee_id tr =? p)%N) (time_records db).

Definition week_records (db : database) (p : uuid) (w : sql_date)
  : list time_record :=
  filter (fun tr => (w <=? date tr)%Z && (date tr <=? w + 6)%Z)
         (records_of db p).

End Payroll.

(** ** [lib/validations.ts] *)

Module Validations.

(** *** JavaScript values *)

(** An optional string field: [undefined] or a string. *)
Definition opt_string : Set := option string.

(** Truthiness of an optional string: [undefined] and the empty string
    are falsy. *)
Definition truthy (s : opt_string) : bool :=
  match s with
  | Some (String _ _) => true
  | Some EmptyString | None => false
  end.

(** The numbers of a form are finite doubles; they are compared with 0
    and 1 only, so they are modelled as rationals.  ([z.number()]
    rejects NaN.)  An optional number is falsy when [undefined] or 0. *)
Definition number : Set := Q.

Definition truthy_number (x : option number) : bool :=
  match x with
  | Some v => negb (Qeq_bool v 0)
  | None => false
  end.

(** The time value of a [Date], in milliseconds since the epoch;
    [None] is the Invalid Date, whose time value is NaN. *)
Definition jsdate : Set := option Z.

(** Relational operators on two [Date]s: both are converted to their
    time values, and any comparison with NaN is false. *)
Definition date_le (a b : jsdate) : bool :=
  match a, b with
  | Some x, Some y => (x <=? y)%Z
  | _, _ => false
  end.

Definition date_gt (a b : jsdate) : bool :=
  match a, b with
  | Some x, Some y => (y <? x)%Z
  | _, _ => false
  end.

(** What the validation reads from its surroundings: the current
    instant and the local time zone, as minutes east of UTC.  The zone
    has one offset here, which is exact unless the clock changed between
    the last local midnight and now; [Zones] below covers such days. *)
Record env : Set := {
  now : Z;
  tz_offset : Z
}.

Definition msPerDay : Z := 86400000.
Definition msPerMinute : Z := 60000.

(** *** Parsing of date strings *)

Definition digit (c : ascii) : option Z :=
  let n := Z.of_N (N_of_ascii c) in
  if ((48 <=? n) && (n <=? 57))%Z then Some (n - 48)%Z else None.

(** The value of a field of decimal digits. *)
Fixpoint digits (acc : Z) (cs : list ascii) : option Z :=
  match cs with
  | [] => Some acc
  | c :: cs' =>
      match digit c with
      | Some d => digits (10 * acc + d) cs'
      | None => None
      end
  end.

Definition is_char (c : ascii) (n : N) : bool := (N_of_ascii c =? n)%N.

Definition is_leap (y : Z) : bool :=
  ((y mod 4 =? 0) && negb (y mod 100 =? 0) || (y mod 400 =? 0))%Z.

Definition days_in_month (y m : Z) : Z :=
  if (m =? 2)%Z then (if is_leap y then 29 else 28)
  else if ((m =? 4) || (m =? 6) || (m =? 9) || (m =? 11))%Z then 30
  else 31.

(** The day number of a civil date: days since 1970-01-01. *)
Definition days_from_civil (y m d : Z) : Z :=
  let y' := (if m <=? 2 then y - 1 else y)%Z in
  let era := (y' / 400)%Z in
  let yoe := (y' - era * 400)%Z in
  let doy := ((153 * (if 2 <? m then m - 3 else m + 9) + 2) / 5 + d - 1)%Z in
  let doe := (yoe * 365 + yoe / 4 - yoe / 100 + doy)%Z in
  (era * 146097 + doe - 719468)%Z.

(** [YYYY-MM-DD] *)
Definition parse_ymd (cs : list ascii) : option Z :=
  match cs with
  | [y1; y2; y3; y4; s1; m1; m2; s2; d1; d2] =>
      if is_char s1 45 && is_char s2 45 then
        match digits 0 [y1; y2; y3; y4], digits 0 [m1; m2],
              digits 0 [d1; d2] with
        | Some y, Some m, Some d =>
            if ((1 <=? m) && (m <=? 12) && (1 <=? d)
                && (d <=? days_in_month y m))%Z
            then Some (days_from_civil y m d)
            else None
        | _, _, _ => None
        end
      else None
  | _ => None
  end.

(** [HH:mm:ss], as milliseconds since midnight; [24:00:00] is the end
    of the day. *)
Definition parse_hms (cs : list ascii) : option Z :=
  match cs with
  | [h1; h2; s1; m1; m2; s2; c1; c2] =>
      if is_char s1 58 && is_char s2 58 then
        match digits 0 [h1; h2], digits 0 [m1; m2], digits 0 [c1; c2] with
        | Some h, Some m, Some s =>
            if ((h <=? 23) && (m <=? 59) && (s <=? 59)
                || (h =? 24) && (m =? 0) && (s =? 0))%Z
            then Some (((h * 60 + m) * 60 + s) * 1000)%Z
            else None
        | _, _, _ => None
        end
      else None
  | _ => None
  end.

(** [new Date(s)] for the two ISO shapes that the schemas build: the
    date-only form [YYYY-MM-DD], which denotes midnight UTC, and the
    date-time form [YYYY-MM-DDTHH:mm:ss] without offset, which denotes
    local time.  A string of another shape is taken to give the Invalid
    Date. *)
Definition new_Date (e : env) (s : string) : jsdate :=
  let cs := list_ascii_of_string s in
  match parse_ymd (firstn 10 cs), skipn 10 cs with
  | Some day, [] => Some (day * msPerDay)%Z
  | Some day, t :: rest =>
      if is_char t 84 then
        match parse_hms rest with
        | Some ms => Some (day * msPerDay + ms - tz_offset e * msPerMinute)%Z
        | None => None
        end
      else None
  | None, _ => None
  end.

(** [const today = new Date(); today.setHours(0, 0, 0, 0)]: the instant
    of the last local midnight. *)
Definition today_midnight (e : env) : jsdate :=
  let local := (now e + tz_offset e * msPerMinute)%Z in
  Some ((local / msPerDay) * msPerDay - tz_offset e * msPerMinute)%Z.

(** *** Issues *)

Inductive issue_code : Set := custom | too_small.

Record issue : Set := {
  code : issue_code;
  message : string;
  path : list string
}.

(** [ctx.addIssue({ code: z.ZodIssueCode.custom, message, path })] *)
Definition custom_issue (msg : string) (field : string) : issue :=
  {| code := custom; message := msg; path := [field] |}.

Definition small_issue (msg : string) (field : string) : issue :=
  {| code := too_small; message := msg; path := [field] |}.

(** One [if (cond) { ctx.addIssue(i) }] statement. *)
Definition add_if (cond : bool) (i : issue) : list issue :=
  if cond then [i] else [].

(** [z.string().min(1, msg)] *)
Definition min1 (s : string) (msg field : string) : list issue :=
  add_if (Nat.ltb (String.length s) 1) (small_issue msg field).

(** *** [traineeSchema] *)

Record trainee_data : Set := {
  user_id : string;
  company_id : string;
  employee_id : opt_string;
  trainee_type_ : trainee_type;
  hourly_rate : option number;
  max_weekly_hours : number;
  total_required_hours : option number;
  start_date : string;
  end_date : opt_string;
  school_name : opt_string;
  course : opt_string;
  year_level : opt_string
}.

(** [z.number().min(k, msg)] on an optional or required number. *)
Definition number_min (x : option number) (k : Q) (msg field : string)
  : list issue :=
  match x with
  | Some v => add_if (negb (Qle_bool k v)) (small_issue msg field)
  | None => []
  end.

(** The checks of the object schema itself. *)
Definition trainee_object_issues (data : trainee_data) : list issue :=
  min1 (user_id data) "User is required" "user_id"
  ++ min1 (company_id data) "Company is required" "company_id"
  ++ number_min (hourly_rate data) 0
       "Number must be greater than or equal to 0" "hourly_rate"
  ++ number_min (Some (max_weekly_hours data)) 1
       "Maximum weekly hours must be at least 1" "max_weekly_hours"
  ++ number_min (total_required_hours data) 1
       "Number must be greater than or equal to 1" "total_required_hours"
  ++ min1 (start_date data) "Start date is required" "start_date".

Definition hourly_rate_required : issue :=
  custom_issue "Hourly rate is required for paid interns" "hourly_rate".

Definition total_required_hours_required : issue :=
  custom_issue "Total required hours is required for OJT students"
               "total_required_hours".

Definition end_date_not_after_start : issue :=
  custom_issue "End date must be after start date" "end_date".

Definition is_paid_intern (ty : trainee_type) : bool :=
  match ty with paid_intern => true | _ => false end.

Definition is_ojt (ty : trainee_type) : bool :=
  match ty with ojt => true | _ => false end.

(** The callback of [traineeSchema.superRefine]. *)
Definition trainee_refine (e : env) (data : trainee_data) : list issue :=
  add_if (is_paid_intern (trainee_type_ data)
          && negb (truthy_number (hourly_rate data)))
         hourly_rate_required
  ++ add_if (is_ojt (trainee_type_ data)
             && negb (truthy_number (total_required_hours data)))
            total_required_hours_required
  ++ add_if (truthy (end_date data)
             && truthy (Some (start_date data))
             && date_le
                  (match end_date data with
                   | Some s => new_Date e s
                   | None => None
                   end)
                  (new_Date e (start_date data)))
            end_date_not_after_start.

(** [traineeSchema.safeParse(data)] on a well-typed object: the issues
    of the object schema, then those of the refinement, which runs
    whenever the object is well typed. *)
Definition traineeSchema (e : env) (data : trainee_data) : list issue :=
  trainee_object_issues data ++ trainee_refine e data.

(** *** [timeRecordSchema] *)

Record time_record_data : Set := {
  trainee_id : string;
  date : string;
  am_time_in : opt_string;
  am_time_out : opt_string;
  pm_time_in : opt_string;
  pm_time_out : opt_string;
  notes : opt_string;
  status : time_record_status
}.

Definition time_record_object_issues (data : time_record_data)
  : list issue :=
  min1 (trainee_id data) "Trainee is required" "trainee_id"
  ++ min1 (date data) "Date is required" "date".

(** [new Date(`2000-01-01T${t}:00`)] *)
Definition clock_date (e : env) (t : opt_string) : jsdate :=
  match t with
  | Some s => new_Date e ("2000-01-01T" ++ s ++ ":00")
  | None => None
  end.

Definition am_order_issue : issue :=
  custom_issue "AM time out must be after AM time in" "am_time_out".

Definition pm_order_issue : issue :=
  custom_issue "PM time out must be after PM time in" "pm_time_out".

Definition overlap_issue : issue :=
  custom_issue "PM time in should be after AM time out" "pm_time_in".

Definition incomplete_issue : issue :=
  custom_issue
    "At least one complete session (AM or PM) is required for present status"
    "status".

Definition future_date_issue : issue :=
  custom_issue "Cannot enter future dates" "date".

Definition is_present (st : time_record_status) : bool :=
  match st with present => true | _ => false end.

(** The callback of [timeRecordSchema.superRefine]: five [if]
    statements in a row, none of which returns early. *)
Definition time_record_refine (e : env) (data : time_record_data)
  : list issue :=
  add_if (truthy (am_time_in data) && truthy (am_time_out data)
          && date_le (clock_date e (am_time_out data))
                     (clock_date e (am_time_in data)))
         am_order_issue
  ++ add_if (truthy (pm_time_in data) && truthy (pm_time_out data)
             && date_le (clock_date e (pm_time_out data))
                        (clock_date e (pm_time_in data)))
            pm_order_issue
  ++ add_if (truthy (am_time_out data) && truthy (pm_time_in data)
             && date_le (clock_date e (pm_time_in data))
                        (clock_date e (am_time_out data)))
            overlap_issue
  ++ add_if (is_present (status data)
             && (negb (truthy (am_time_in data))
                 || negb (truthy (am_time_out data)))
             && (negb (truthy (pm_time_in data))
                 || negb (truthy (pm_time_out data))))
            incomplete_issue
  ++ add_if (date_gt (new_Date e (date data)) (today_midnight e))
            future_date_issue.

Definition timeRecordSchema (e : env) (data : time_record_data)
  : list issue :=
  time_record_object_issues data ++ time_record_refine e data.

End Validations.

(** ** The record-validation rules in the words of the specification *)

Module RecordRules.
Import Validations.

(** The five rule codes of the Record Validator. *)
Inductive rule : Set :=
| InvalidSessionOrder_am
| InvalidSessionOrder_pm
| SessionOverlap
| IncompleteSessionForPresent
| FutureDateNotAllowed.

(** A typed candidate record: clock times in minutes since midnight,
    the date as a day number. *)
Record candidate : Set := {
  c_am_in : option Z;
  c_am_out : option Z;
  c_pm_in : option Z;
  c_pm_out : option Z;
  c_status : time_record_status;
  c_date : Z
}.

(** Both values are set and the second is not after the first. *)
Definition not_after (first second : option Z) : bool :=
  match first, second with
  | Some a, Some b => (b <=? a)%Z
  | _, _ => false
  end.

Definition complete (t_in t_out : option Z) : bool :=
  match t_in, t_out with
  | Some _, Some _ => true
  | _, _ => false
  end.

(** Rule by rule, whether the candidate violates it; [today] is the
    business calendar date. *)
Definition violated (today : Z) (c : candidate) (r : rule) : bool :=
  match r with
  | InvalidSessionOrder_am => not_after (c_am_in c) (c_am_out c)
  | InvalidSessionOrder_pm => not_after (c_pm_in c) (c_pm_out c)
  | SessionOverlap => not_after (c_am_out c) (c_pm_in c)
  | IncompleteSessionForPresent =>
      is_present (c_status c)
      && negb (complete (c_am_in c) (c_am_out c)
               || complete (c_pm_in c) (c_pm_out c))
  | FutureDateNotAllowed => (today <? c_date c)%Z
  end.

Definition session_rules : list rule :=
  [InvalidSessionOrder_am; InvalidSessionOrder_pm; SessionOverlap;
   IncompleteSessionForPresent].

Definition all_rules : list rule := session_rules ++ [FutureDateNotAllowed].

Definition violated_rules (today : Z) (c : candidate) : list rule :=
  filter (violated today c) all_rules.

(** The issue by which the schema reports a rule. *)
Definition issue_of (r : rule) : issue :=
  match r with
  | InvalidSessionOrder_am => am_order_issue
  | InvalidSessionOrder_pm => pm_order_issue
  | SessionOverlap => overlap_issue
  | IncompleteSessionForPresent => incomplete_issue
  | FutureDateNotAllowed => future_date_issue
  end.

(** *** How the form layer writes a typed record *)

Definition digit_char (d : Z) : ascii := ascii_of_N (Z.to_N (48 + d)).

Definition two_digits (n : Z) (rest : string) : string :=
  String (digit_char (n / 10)) (String (digit_char (n mod 10)) rest).

(** [HH:MM], the value of a time input. *)
Definition hhmm (h m : Z) : string :=
  two_digits h (String ":" (two_digits m EmptyString)).

(** [YYYY-MM-DD], the value of a date input. *)
Definition iso_date (y m d : Z) : string :=
  two_digits (y / 100)
    (two_digits (y mod 100)
       (String "-" (two_digits m (String "-" (two_digits d EmptyString))))).

Inductive encodes_time : opt_string -> option Z -> Prop :=
| enc_undefined : encodes_time None None
| enc_empty : encodes_time (Some EmptyString) None
| enc_clock (h m : Z) :
    (0 <= h <= 23)%Z -> (0 <= m <= 59)%Z ->
    encodes_time (Some (hhmm h m)) (Some (h * 60 + m)%Z).

Inductive encodes_date : string -> Z -> Prop :=
| enc_date (y m d : Z) :
    (0 <= y <= 9999)%Z -> (1 <= m <= 12)%Z ->
    (1 <= d <= days_in_month y m)%Z ->
    encodes_date (iso_date y m d) (days_from_civil y m d).

Definition encodes (data : time_record_data) (c : candidate) : Prop :=
  encodes_time (am_time_in data) (c_am_in c) /\
  encodes_time (am_time_out data) (c_am_out c) /\
  encodes_time (pm_time_in data) (c_pm_in c) /\
  encodes_time (pm_time_out data) (c_pm_out c) /\
  status data = c_status c /\
  encodes_date (date data) (c_date c).

(** The business calendar date: the local date of the current
    instant. *)
Definition local_today (e : env) : Z :=
  ((now e + tz_offset e * msPerMinute) / msPerDay)%Z.

(** The instant of local midnight on 2000-01-01. *)
Definition clock_base (e : env) : Z :=
  (10957 * msPerDay - tz_offset e * msPerMinute)%Z.

(** The same trainee form with another hourly rate. *)
Definition with_hourly_rate (data : trainee_data) (x : option number)
  : trainee_data :=
  {| user_id := user_id data;
     company_id := company_id data;
     employee_id := employee_id data;
     trainee_type_ := trainee_type_ data;
     hourly_rate := x;
     max_weekly_hours := max_weekly_hours data;
     total_required_hours := total_required_hours data;
     start_date := start_date data;
     end_date := end_date data;
     school_name := school_name data;
     course := course data;
     year_level := year_level data |}.

End RecordRules.

(** ** Concrete records, tables and forms *)

Module Scenarios.
Import Numeric TimeRecords Payroll.

(** A day of 08:00-12:01 and 13:00-17:01. *)
Definition odd_minutes_record : time_record_input :=
  {| in_trainee_id := 1%N;
     in_date := 20103%Z;
     in_am_time_in := Some (hms 8 0 0);
     in_am_time_out := Some (hms 12 1 0);
     in_pm_time_in := Some (hms 13 0 0);
     in_pm_time_out := Some (hms 17 1 0);
     in_notes := None;
     in_status := Some present |}.

(** Scenario A: 08:00-12:00 and 13:00-17:00. *)
Definition scenario_a_record : time_record_input :=
  {| in_trainee_id := 1%N;
     in_date := 20103%Z;
     in_am_time_in := Some (hms 8 0 0);
     in_am_time_out := Some (hms 12 0 0);
     in_pm_time_in := Some (hms 13 0 0);
     in_pm_time_out := Some (hms 17 0 0);
     in_notes := None;
     in_status := Some present |}.

(** 08:00:00-09:00:04 and 13:00:00-13:00:14: 3618 seconds in all, which
    is 1.005 hours exactly. *)
Definition tie_record : time_record_input :=
  {| in_trainee_id := 1%N;
     in_date := 20103%Z;
     in_am_time_in := Some (hms 8 0 0);
     in_am_time_out := Some (hms 9 0 4);
     in_pm_time_in := Some (hms 13 0 0);
     in_pm_time_out := Some (hms 13 0 14);
     in_notes := None;
     in_status := Some present |}.

(** Scenario C: 08:00 in, 07:00 out. *)
Definition scenario_c_record : time_record_input :=
  {| in_trainee_id := 1%N;
     in_date := 20103%Z;
     in_am_time_in := Some (hms 8 0 0);
     in_am_time_out := Some (hms 7 0 0);
     in_pm_time_in := None;
     in_pm_time_out := None;
     in_notes := None;
     in_status := Some present |}.

(** Scenario D: a paid intern capped at 16 hours a week who works
    08:00-12:00 from Monday 2025-01-13 to Friday 2025-01-17. *)
Definition morning (tid : uuid) (d : sql_date) : time_record_input :=
  {| in_trainee_id := tid;
     in_date := d;
     in_am_time_in := Some (hms 8 0 0);
     in_am_time_out := Some (hms 12 0 0);
     in_pm_time_in := None;
     in_pm_time_out := None;
     in_notes := None;
     in_status := Some present |}.

Definition juancho : trainee :=
  {| t_id := 3%N;
     t_user_id := 30%N;
     t_trainee_type := paid_intern;
     t_hourly_rate := Some (15050 # 100);
     t_max_weekly_hours := 16;
     t_total_required_hours := None;
     t_status := Some active |}.

Definition scenario_d_db : database :=
  {| users := [ {| u_id := 30%N; u_first_name := "Juancho";
                   u_last_name := "Cruz" |} ];
     trainees := [juancho];
     time_records :=
       stored_rows (map (morning 3%N) [20101; 20102; 20103; 20104; 20105]%Z)
  |}.

(** Scenario E: an ojt trainee required to render 500 hours, with fifteen
    days of 08:00-12:00 and 13:00-17:00 and one morning of 08:00-13:00,
    125 hours in all. *)
Definition full_day (tid : uuid) (d : sql_date) : time_record_input :=
  {| in_trainee_id := tid;
     in_date := d;
     in_am_time_in := Some (hms 8 0 0);
     in_am_time_out := Some (hms 12 0 0);
     in_pm_time_in := Some (hms 13 0 0);
     in_pm_time_out := Some (hms 17 0 0);
     in_notes := None;
     in_status := Some present |}.

Definition long_morning (tid : uuid) (d : sql_date) : time_record_input :=
  {| in_trainee_id := tid;
     in_date := d;
     in_am_time_in := Some (hms 8 0 0);
     in_am_time_out := Some (hms 13 0 0);
     in_pm_time_in := None;
     in_pm_time_out := None;
     in_notes := None;
     in_status := Some half_day_am |}.

Definition maria (required : option Z) : trainee :=
  {| t_id := 5%N;
     t_user_id := 50%N;
     t_trainee_type := ojt;
     t_hourly_rate := None;
     t_max_weekly_hours := 40;
     t_total_required_hours := required;
     t_status := Some active |}.

Definition maria_user : user :=
  {| u_id := 50%N; u_first_name := "Maria"; u_last_name := "Santos" |}.

Definition maria_db (required : option Z) : database :=
  {| users := [ {| u_id := 30%N; u_first_name := "Juancho";
                   u_last_name := "Cruz" |}; maria_user ];
     trainees := [juancho; maria required];
     time_records :=
       stored_rows
         (map (full_day 5%N)
              [20101; 20102; 20103; 20104; 20105; 20108; 20109; 20110;
               20111; 20112; 20115; 20116; 20117; 20118; 20119]%Z
          ++ [long_morning 5%N 20122%Z; morning 3%N 20101%Z])
  |}.

(** 18:00 on 2025-01-15 in Manila (UTC+08:00), that is 10:00 UTC. *)
Definition manila_evening : Validations.env :=
  {| Validations.now := 1736935200000;
     Validations.tz_offset := 480 |}.

(** Scenario A, entered on the day itself. *)
Definition scenario_a_today : Validations.time_record_data :=
  {| Validations.trainee_id := "t-3";
     Validations.date := "2025-01-15";
     Validations.am_time_in := Some "08:00"%string;
     Validations.am_time_out := Some "12:00"%string;
     Validations.pm_time_in := Some "13:00"%string;
     Validations.pm_time_out := Some "17:00"%string;
     Validations.notes := None;
     Validations.status := present |}.

Definition scenario_a_candidate : RecordRules.candidate :=
  {| RecordRules.c_am_in := Some 480%Z;
     RecordRules.c_am_out := Some 720%Z;
     RecordRules.c_pm_in := Some 780%Z;
     RecordRules.c_pm_out := Some 1020%Z;
     RecordRules.c_status := present;
     RecordRules.c_date := 20103%Z |}.

(** A paid intern entered with an hourly rate of 0. *)
Definition zero_rate_intern : Validations.trainee_data :=
  {| Validations.user_id := "u-30";
     Validations.company_id := "c-1";
     Validations.employee_id := None;
     Validations.trainee_type_ := paid_intern;
     Validations.hourly_rate := Some 0;
     Validations.max_weekly_hours := 16;
     Validations.total_required_hours := None;
     Validations.start_date := "2025-01-13";
     Validations.end_date := None;
     Validations.school_name := None;
     Validations.course := None;
     Validations.year_level := None |}.

End Scenarios.

(** ** INSERT into [time_records] with the key constraints *)

Module Tables.
Import Numeric TimeRecords Payroll.

(** The key constraints of [time_records]. *)
Inductive table_constraint : Set :=
| unique_trainee_date
| fk_time_records_trainee.

Inductive insert_error : Set :=
| row_error (e : sql_error)
| key_violation (c : table_constraint).

(** The key of the unique index: [(trainee_id, date)]. *)
Definition row_key (tr : time_record) : uuid * sql_date :=
  (trainee_id tr, date tr).

Definition same_key (row tr : time_record) : bool :=
  (trainee_id tr =? trainee_id row)%N && (date tr =? date row)%Z.

Definition references_trainee (db : database) (row : time_record) : bool :=
  existsb (fun t => (t_id t =? trainee_id row)%N) (trainees db).

(** [INSERT INTO time_records]: the row is built and checked, the unique
    index [unique_trainee_date] is probed, and the foreign key
    [fk_time_records_trainee] is tested when the statement ends. *)
Definition insert_time_record (db : database) (r : time_record_input)
  : insert_error + database :=
  match store_time_record r with
  | inl e => inl (row_error e)
  | inr row =>
      if existsb (same_key row) (time_records db)
      then inl (key_violation unique_trainee_date)
      else if references_trainee db row
           then inr {| users := users db;
                       trainees := trainees db;
                       time_records := time_records db ++ [row] |}
           else inl (key_violation fk_time_records_trainee)
  end.

(** What the constraints keep true of the table: no two rows for one
    trainee and date, every row of a known trainee, and every row built
    from time fields that pass the CHECK constraints. *)
Definition unique_keys (db : database) : Prop :=
  NoDup (map row_key (time_records db)).

Definition rows_reference_trainees (db : database) : Prop :=
  Forall (fun tr => references_trainee db tr = true) (time_records db).

Definition row_stored (tr : time_record) : Prop :=
  exists r, valid_times r /\ store_time_record r = ok tr.

Definition rows_stored (db : database) : Prop :=
  Forall row_stored (time_records db).

(** The data columns of [weekly_summaries] and of [monthly_reports]; the
    figures have defaults and may be NULL. *)
Record weekly_summary_row : Set := {
  ws_trainee_id : uuid;
  ws_week_start_date : sql_date;
  ws_week_end_date : sql_date;
  ws_total_hours_worked : option Q;
  ws_billable_hours : option Q;
  ws_gross_pay : option Q;
  ws_days_present : option Z
}.

Record monthly_report_row : Set := {
  mr_trainee_id : uuid;
  mr_month : Z;
  mr_year : Z;
  mr_total_hours_worked : option Q;
  mr_total_billable_hours : option Q;
  mr_total_gross_pay : option Q;
  mr_days_present : option Z;
  mr_days_absent : option Z
}.

(** The tables that hold a trainee or refer to one. *)
Record tables : Set := {
  base : database;
  weekly_summaries : list weekly_summary_row;
  monthly_reports : list monthly_report_row
}.

(** [DELETE FROM trainees WHERE id = p]: the foreign keys
    [fk_time_records_trainee], [fk_weekly_summaries_trainee] and
    [fk_monthly_reports_trainee] are declared [ON DELETE CASCADE], so the
    trainee's rows of the three tables go with the row.  No foreign key
    leads from [trainees] to [users]. *)
Definition delete_trainee (s : tables) (p : uuid) : tables :=
  {| base :=
       {| users := users (base s);
          trainees :=
            filter (fun t => negb (t_id t =? p)%N) (trainees (base s));
          time_records :=
            filter (fun tr => negb (trainee_id tr =? p)%N)
                   (time_records (base s)) |};
     weekly_summaries :=
       filter (fun w => negb (ws_trainee_id w =? p)%N) (weekly_summaries s);
     monthly_reports :=
       filter (fun m => negb (mr_trainee_id m =? p)%N) (monthly_reports s) |}.

(** The seven dates of the week that starts on [w]. *)
Definition week_dates (w : sql_date) : list sql_date :=
  map (fun k => (w + Z.of_nat k)%Z) (seq 0 7).

End Tables.

(** ** The schemas on a host whose zone changes its offset

    [Validations] gives the host one offset, which is exact wherever the
    zone keeps its offset between the instants that are compared.  Here
    the two conversions of a [Date] are kept apart, so that days on which
    the clock is set forward or back are covered. *)

Module Zones.
Import Validations.

(** The local time zone, in minutes east of UTC: the offset in force at a
    UTC instant, and the offset by which a local time value is read back
    (at a repeated or skipped local time, the one that the engine
    picks). *)
Record zone : Set := {
  offset_at : Z -> Z;
  offset_of_local : Z -> Z
}.

Record host : Set := {
  now : Z;
  tz : zone
}.

(** [LocalTime(t)] and [UTC(t)] of the language. *)
Definition LocalTime (z : zone) (t : Z) : Z :=
  (t + offset_at z t * msPerMinute)%Z.

Definition UTC (z : zone) (t : Z) : Z :=
  (t - offset_of_local z t * msPerMinute)%Z.

(** [new Date(s)] for the two ISO shapes that the schemas build: the
    date-only form is midnight UTC, the date-time form without offset is
    a local time.  Engines read further shapes; the properties below use
    the function on these two only. *)
Definition new_Date (h : host) (s : string) : jsdate :=
  let cs := list_ascii_of_string s in
  match parse_ymd (firstn 10 cs), skipn 10 cs with
  | Some day, [] => Some (day * msPerDay)%Z
  | Some day, t :: rest =>
      if is_char t 84 then
        match parse_hms rest with
        | Some ms => Some (UTC (tz h) (day * msPerDay + ms))
        | None => None
        end
      else None
  | None, _ => None
  end.

(** The local calendar date of the current instant, as a day number. *)
Definition local_today (h : host) : Z :=
  (LocalTime (tz h) (now h) / msPerDay)%Z.

(** [const today = new Date(); today.setHours(0, 0, 0, 0)]: the local
    time of now, cut to the start of its day and read back with the
    offset that holds at that local midnight. *)
Definition today_midnight (h : host) : jsdate :=
  Some (UTC (tz h) (local_today h * msPerDay)).

(** [new Date(`2000-01-01T${t}:00`)] *)
Definition clock_date (h : host) (t : opt_string) : jsdate :=
  match t with
  | Some s => new_Date h ("2000-01-01T" ++ s ++ ":00")
  | None => None
  end.

(** The callback of [timeRecordSchema.superRefine]. *)
Definition time_record_refine (h : host) (data : time_record_data)
  : list issue :=
  add_if (truthy (am_time_in data) && truthy (am_time_out data)
          && date_le (clock_date h (am_time_out data))
                     (clock_date h (am_time_in data)))
         am_order_issue
  ++ add_if (truthy (pm_time_in data) && truthy (pm_time_out data)
             && date_le (clock_date h (pm_time_out data))
                        (clock_date h (pm_time_in data)))
            pm_order_issue
  ++ add_if (truthy (am_time_out data) && truthy (pm_time_in data)
             && date_le (clock_date h (pm_time_in data))
                        (clock_date h (am_time_out data)))
            overlap_issue
  ++ add_if (is_present (status data)
             && (negb (truthy (am_time_in data))
                 || negb (truthy (am_time_out data)))
             && (negb (truthy (pm_time_in data))
                 || negb (truthy (pm_time_out data))))
            incomplete_issue
  ++ add_if (date_gt (new_Date h (date data)) (today_midnight h))
            future_date_issue.

Definition timeRecordSchema (h : host) (data : time_record_data)
  : list issue :=
  time_record_object_issues data ++ time_record_refine h data.

(** A zone that keeps one offset, and the host that [Validations]
    describes. *)
Definition fixed (minutes : Z) : zone :=
  {| offset_at := fun _ => minutes; offset_of_local := fun _ => minutes |}.

Definition host_of (e : env) : host :=
  {| now := Validations.now e; tz := fixed (tz_offset e) |}.

(** The zone has one offset throughout the local day 2000-01-01, the day
    on which the schema places the clock times. *)
Definition steady_on_clock_day (z : zone) : Prop :=
  forall t, (10957 * msPerDay <= t < 10958 * msPerDay)%Z ->
            offset_of_local z t = offset_of_local z (10957 * msPerDay)%Z.

(** The offset by which today's local midnight is read back. *)
Definition midnight_offset (h : host) : Z :=
  offset_of_local (tz h) (local_today h * msPerDay)%Z.

(** London's clock in 2025: UTC, and UTC+1 from 2025-03-30T01:00Z to
    2025-10-26T01:00Z.  A local time that the change skips is read with
    the offset before the change, a repeated one as its first
    occurrence. *)
Definition london_2025 : zone :=
  {| offset_at := fun t =>
       if ((1743296400000 <=? t) && (t <? 1761440400000))%Z
       then 60%Z else 0%Z;
     offset_of_local := fun t =>
       if ((1743300000000 <=? t) && (t <? 1761444000000))%Z
       then 60%Z else 0%Z |}.

End Zones.

Module Examples.
Import TimeRecords Payroll Scenarios.

(** An ojt trainee on the first day: 500 hours to render, no record
    yet. *)
Definition newcomer_db : database :=
  {| users := [maria_user];
     trainees := [maria (Some 500%Z)];
     time_records := [] |}.

(** 10:00 in London on 2025-03-30, the day the clock went forward at
    01:00: that is 09:00 UTC, and the day began at 00:00 UTC. *)
Definition london_spring : Zones.host :=
  {| Zones.now := 1743325200000; Zones.tz := Zones.london_2025 |}.

(** 10:00 in London on 2025-10-26, the day the clock went back at 02:00:
    that is 10:00 UTC, and the day began at 23:00 UTC of the day
    before. *)
Definition london_autumn : Zones.host :=
  {| Zones.now := 1761472800000; Zones.tz := Zones.london_2025 |}.

(** A full day, 08:00 to 12:00 and 13:00 to 17:00, entered for a date. *)
Definition full_day_form (date : string) : Validations.time_record_data :=
  {| Validations.trainee_id := "t-3";
     Validations.date := date;
     Validations.am_time_in := Some "08:00"%string;
     Validations.am_time_out := Some "12:00"%string;
     Validations.pm_time_in := Some "13:00"%string;
     Validations.pm_time_out := Some "17:00"%string;
     Validations.notes := None;
     Validations.status := present |}.

Definition full_day_candidate (day : Z) : RecordRules.candidate :=
  {| RecordRules.c_am_in := Some 480%Z;
     RecordRules.c_am_out := Some 720%Z;
     RecordRules.c_pm_in := Some 780%Z;
     RecordRules.c_pm_out := Some 1020%Z;
     RecordRules.c_status := present;
     RecordRules.c_date := day |}.

(** The tables of scenario E with a weekly summary and a monthly report
    of each of the two trainees. *)
Definition maria_tables : Tables.tables :=
  {| Tables.base := maria_db (Some 500%Z);
     Tables.weekly_summaries :=
       [ {| Tables.ws_trainee_id := 5%N;
            Tables.ws_week_start_date := 20101%Z;
            Tables.ws_week_end_date := 20107%Z;
            Tables.ws_total_hours_worked := Some 40;
            Tables.ws_billable_hours := Some 40;
            Tables.ws_gross_pay := Some 0;
            Tables.ws_days_present := Some 5%Z |};
         {| Tables.ws_trainee_id := 3%N;
            Tables.ws_week_start_date := 20101%Z;
            Tables.ws_week_end_date := 20107%Z;
            Tables.ws_total_hours_worked := Some 20;
            Tables.ws_billable_hours := Some 16;
            Tables.ws_gross_pay := Some 2408;
            Tables.ws_days_present := Some 5%Z |} ];
     Tables.monthly_reports :=
       [ {| Tables.mr_trainee_id := 5%N;
            Tables.mr_month := 1%Z;
            Tables.mr_year := 2025%Z;
            Tables.mr_total_hours_worked := Some 120;
            Tables.mr_total_billable_hours := Some 120;
            Tables.mr_total_gross_pay := Some 0;
            Tables.mr_days_present := Some 15%Z;
            Tables.mr_days_absent := Some 0%Z |} ] |}.

(** The same trainee form with another number of required hours. *)
Definition with_total_required_hours (data : Validations.trainee_data)
    (x : option Validations.number) : Validations.trainee_data :=
  {| Validations.user_id := Validations.user_id data;
     Validations.company_id := Validations.company_id data;
     Validations.employee_id := Validations.employee_id data;
     Validations.trainee_type_ := Validations.trainee_type_ data;
     Validations.hourly_rate := Validations.hourly_rate data;
     Validations.max_weekly_hours := Validations.max_weekly_hours data;
     Validations.total_required_hours := x;
     Validations.start_date := Validations.start_date data;
     Validations.end_date := Validations.end_date data;
     Validations.school_name := Validations.school_name data;
     Validations.course := Validations.course data;
     Validations.year_level := Validations.year_level data |}.

(** The form of an ojt student, with an end date. *)
Definition ojt_student : Validations.trainee_data :=
  {| Validations.user_id := "u-50";
     Validations.company_id := "c-1";
     Validations.employee_id := None;
     Validations.trainee_type_ := ojt;
     Validations.hourly_rate := None;
     Validations.max_weekly_hours := 40;
     Validations.total_required_hours := Some 500;
     Validations.start_date := "2025-01-13";
     Validations.end_date := Some "2025-06-30"%string;
     Validations.school_name := None;
     Validations.course := None;
     Validations.year_level := None |}.

End Examples.

(** ** The route guard (components/protected-route.tsx) and the dashboard
    page *)

Module Routes.

(** [UserRole] *)
Inductive UserRole : Set := company_admin | trainee.

Definition role_eqb (a b : UserRole) : bool :=
  match a, b with
  | company_admin, company_admin | trainee, trainee => true
  | _, _ => false
  end.

(** The fields of the profile row that the pages read. *)
Record User : Set := {
  role : UserRole;
  first_name : string;
  last_name : string
}.

(** What [useAuth()] returns: the session user (its id), the profile, and
    the loading flag. *)
Record auth : Set := {
  user : option string;
  appUser : option User;
  loading : bool
}.

(** The props other than [children]; an absent prop takes its default. *)
Record ProtectedRouteProps : Set := {
  allowedRoles : option (list UserRole);
  redirectTo : option string
}.

Definition default {A : Type} (x : option A) (d : A) : A :=
  match x with
  | Some v => v
  | None => d
  end.

(** [roles.includes(r)] *)
Definition includes (roles : list UserRole) (r : UserRole) : bool :=
  existsb (role_eqb r) roles.

(** [allowedRoles.length > 0 && !allowedRoles.includes(appUser.role)] *)
Definition role_refused (roles : list UserRole) (u : User) : bool :=
  Nat.ltb 0 (List.length roles) && negb (includes roles (role u)).

(** What the component returns. *)
Inductive element (A : Type) : Type :=
| spinner
| null
| fragment (children : A).

Arguments spinner {A}.
Arguments null {A}.
Arguments fragment {A} children.

(** The body of the [useEffect] callback: the calls of [router.push].
    The last branch of the [match] is [!user || !appUser]. *)
Definition redirects (props : ProtectedRouteProps) (a : auth) : list string :=
  if negb (loading a) then
    match user a, appUser a with
    | Some _, Some u =>
        if role_refused (default (allowedRoles props) []) u
        then ["/unauthorized"%string]
        else []
    | _, _ => [default (redirectTo props) "/auth/login"%string]
    end
  else [].

Definition ProtectedRoute {A : Type} (props : ProtectedRouteProps)
    (a : auth) (children : A) : element A :=
  if loading a then spinner
  else
    match user a, appUser a with
    | Some _, Some u =>
        if role_refused (default (allowedRoles props) []) u
        then null
        else fragment children
    | _, _ => null
    end.

Inductive dashboard : Set := AdminDashboard | TraineeDashboard.

(** [DashboardPage]: [<ProtectedRoute>] without props around the
    dashboard chosen by [appUser?.role === 'company_admin']. *)
Definition DashboardPage (a : auth) : element dashboard :=
  ProtectedRoute {| allowedRoles := None; redirectTo := None |} a
    (match appUser a with
     | Some u =>
         if role_eqb (role u) company_admin then AdminDashboard
         else TraineeDashboard
     | None => TraineeDashboard
     end).

End Routes.

(** ** The arguments of the seeding script (scripts/seed-admin.ts) *)

Module SeedAdmin.

(** [AdminUserConfig]; a field holds [undefined] once an option was given
    without a value. *)
Record AdminUserConfig : Set := {
  email : option string;
  password : option string;
  firstName : option string;
  lastName : option string;
  phone : option string
}.

Definition DEFAULT_ADMIN : AdminUserConfig :=
  {| email := Some "admin@logcha.com"%string;
     password := Some "admin123456"%string;
     firstName := Some "System"%string;
     lastName := Some "Administrator"%string;
     phone := Some "+1234567890"%string |}.

(** How the function ends: it returns the configuration, or the process
    exits with a code. *)
Inductive outcome : Set :=
| returned (config : AdminUserConfig)
| exited (code : Z).

(** One turn of the [switch]: the configuration to go on with, or the
    exit code. *)
Definition switch (key : string) (value : option string)
    (config : AdminUserConfig) : Z + AdminUserConfig :=
  if (key =? "--email")%string then
    inr {| email := value; password := password config;
           firstName := firstName config; lastName := lastName config;
           phone := phone config |}
  else if (key =? "--password")%string then
    inr {| email := email config; password := value;
           firstName := firstName config; lastName := lastName config;
           phone := phone config |}
  else if (key =? "--first-name")%string then
    inr {| email := email config; password := password config;
           firstName := value; lastName := lastName config;
           phone := phone config |}
  else if (key =? "--last-name")%string then
    inr {| email := email config; password := password config;
           firstName := firstName config; lastName := value;
           phone := phone config |}
  else if (key =? "--phone")%string then
    inr {| email := email config; password := password config;
           firstName := firstName config; lastName := lastName config;
           phone := value |}
  else if (key =? "--help")%string then inl 0%Z
  else if Validations.truthy (Some key) && negb (Validations.truthy value)
       then inl 1%Z
       else inr config.

(** [for (let i = 0; i < args.length; i += 2)]: [key] is [args[i]] and
    [value] is [args[i + 1]], [undefined] past the end. *)
Fixpoint loop (args : list string) (config : AdminUserConfig) : outcome :=
  match args with
  | [] => returned config
  | key :: rest =>
      match rest with
      | [] =>
          match switch key None config with
          | inr config' => returned config'
          | inl code => exited code
          end
      | value :: rest' =>
          match switch key (Some value) config with
          | inr config' => loop rest' config'
          | inl code => exited code
          end
      end
  end.

(** [parseArguments()], on [process.argv]. *)
Definition parseArguments (argv : list string) : outcome :=
  loop (skipn 2 argv) DEFAULT_ADMIN.

(** The five options that take a value, and the field each one sets. *)
Inductive option_name : Set :=
| opt_email | opt_password | opt_first_name | opt_last_name | opt_phone.

Definition flag (o : option_name) : string :=
  match o with
  | opt_email => "--email"
  | opt_password => "--password"
  | opt_first_name => "--first-name"
  | opt_last_name => "--last-name"
  | opt_phone => "--phone"
  end.

Definition field (o : option_name) (config : AdminUserConfig)
  : option string :=
  match o with
  | opt_email => email config
  | opt_password => password config
  | opt_first_name => firstName config
  | opt_last_name => lastName config
  | opt_phone => phone config
  end.

(** The words of a command line made of options with their values. *)
Definition command_line (l : list (option_name * string)) : list string :=
  flat_map (fun ov => [flag (fst ov); snd ov]) l.

(** The value given for [o] by its last occurrence. *)
Fixpoint last_value (o : option_name) (l : list (option_name * string))
  : option string :=
  match l with
  | [] => None
  | (o', v) :: l' =>
      match last_value o l' with
      | Some v' => Some v'
      | None => if (flag o' =? flag o)%string then Some v else None
      end
  end.

End SeedAdmin.

(** * Properties *)

Import Numeric TimeRecords Payroll Scenarios.

(** ** Facts on numeric rounding *)

Section RoundingFacts.

Lemma pow10_Z (s : nat) : Zpos (pow10 s) = (10 ^ Z.of_nat s)%Z.
Proof.
  unfold pow10. rewrite Z2Pos.id; [reflexivity|].
  apply Z.pow_pos_nonneg; lia.
Qed.

Lemma half_unit (P : positive) : 1 # (2 * P) == (1 # 2) / inject_Z (Zpos P).
Proof.
  unfold Qeq, Qdiv, Qmult, Qinv, inject_Z; simpl. lia.
Qed.

Lemma round_numeric_nonneg (x : Q) (s : nat) :
  0 <= x ->
  round_numeric x s =
  (Qfloor (x * inject_Z (Zpos (pow10 s)) + (1 # 2)) # pow10 s).
Proof.
  intros Hx. unfold round_numeric.
  assert (Hle : Qle_bool 0 x = true) by (apply Qle_bool_iff; exact Hx).
  rewrite Hle. f_equal.
  apply Qfloor_comp. rewrite (Qabs_pos x Hx). reflexivity.
Qed.

Lemma scaled_floor_bounds (x c m : Q) :
  0 < c -> m <= x * c + (1 # 2) -> x * c + (1 # 2) < m + 1 ->
  m / c - (1 # 2) / c <= x /\ x < m / c + (1 # 2) / c.
Proof.
  intros Hc Hlo Hhi.
  assert (Hx : x == (x * c) / c) by (field; lra).
  assert (Hi : 0 < / c) by (apply Qinv_lt_0_compat, Hc).
  split.
  - apply Qle_trans with (x * c / c); [|rewrite <- Hx; apply Qle_refl].
    setoid_replace (m / c - (1 # 2) / c) with ((m - (1 # 2)) / c)
      by (field; lra).
    unfold Qdiv. apply Qmult_le_compat_r; lra.
  - apply Qle_lt_trans with (x * c / c); [rewrite <- Hx; apply Qle_refl|].
    setoid_replace (m / c + (1 # 2) / c) with ((m + (1 # 2)) / c)
      by (field; lra).
    unfold Qdiv. apply Qmult_lt_compat_r; lra.
Qed.

(** On non-negative values, rounding half away from zero is rounding
    half-up. *)
Lemma round_numeric_half_up (x : Q) (s : nat) :
  0 <= x -> rounds_half_up s x (round_numeric x s).
Proof.
  intros Hx. rewrite (round_numeric_nonneg x s Hx).
  pose proof (Qfloor_le (x * inject_Z (Zpos (pow10 s)) + (1 # 2))) as Hlo.
  pose proof (Qlt_floor (x * inject_Z (Zpos (pow10 s)) + (1 # 2))) as Hhi.
  rewrite inject_Z_plus in Hhi.
  split; [eexists; reflexivity|].
  rewrite half_unit, Qmake_Qdiv.
  apply scaled_floor_bounds; try assumption.
  unfold Qlt; simpl; lia.
Qed.

Lemma round_numeric_comp (x x' : Q) (s : nat) :
  x == x' -> round_numeric x s = round_numeric x' s.
Proof.
  intros E. unfold round_numeric.
  assert (Hb : Qle_bool 0 x = Qle_bool 0 x').
  { destruct (Qle_bool 0 x') eqn:Hx'.
    - apply Qle_bool_iff. rewrite E. apply Qle_bool_iff, Hx'.
    - destruct (Qle_bool 0 x) eqn:Hx; [|reflexivity].
      apply Qle_bool_iff in Hx. rewrite E in Hx.
      apply Qle_bool_iff in Hx. congruence. }
  rewrite Hb.
  assert (Hm : Qfloor (Qabs x * inject_Z (Zpos (pow10 s)) + (1 # 2)) =
               Qfloor (Qabs x' * inject_Z (Zpos (pow10 s)) + (1 # 2))).
  { apply Qfloor_comp. rewrite E. reflexivity. }
  rewrite Hm. reflexivity.
Qed.

Lemma rounds_half_up_comp (s : nat) (x x' y : Q) :
  x == x' -> rounds_half_up s x y -> rounds_half_up s x' y.
Proof.
  intros E [Hk [Hlo Hhi]]. split; [exact Hk|].
  rewrite <- E. split; assumption.
Qed.

Lemma round_numeric_nonneg_ge0 (x : Q) (s : nat) :
  0 <= x -> 0 <= round_numeric x s.
Proof.
  intros Hx. rewrite (round_numeric_nonneg x s Hx).
  assert (H0 : 0 <= x * inject_Z (Zpos (pow10 s))).
  { apply Qmult_le_0_compat; [exact Hx|]. unfold Qle; simpl; lia. }
  assert (Hf : (Qfloor 0 <= Qfloor (x * inject_Z (Zpos (pow10 s)) + (1 # 2)))%Z)
    by (apply Qfloor_resp_le; lra).
  change (Qfloor 0) with 0%Z in Hf.
  set (m := Qfloor _) in *. clearbody m.
  unfold Qle; simpl. lia.
Qed.

(** Rounding commutes with the absolute value. *)
Lemma round_numeric_abs (x : Q) (s : nat) :
  Qabs (round_numeric x s) == round_numeric (Qabs x) s.
Proof.
  destruct (Qle_bool 0 x) eqn:Hx.
  - apply Qle_bool_iff in Hx.
    rewrite (round_numeric_comp (Qabs x) x s (Qabs_pos x Hx)).
    apply Qabs_pos, round_numeric_nonneg_ge0, Hx.
  - pose proof (Qabs_nonneg x) as Ha.
    pose proof (round_numeric_nonneg_ge0 (Qabs x) s Ha) as Hr.
    rewrite (round_numeric_nonneg (Qabs x) s Ha) in Hr |- *.
    unfold round_numeric. rewrite Hx.
    set (m := Qfloor (Qabs x * inject_Z (Zpos (pow10 s)) + (1 # 2))) in *.
    clearbody m.
    assert (0 <= m)%Z by (unfold Qle in Hr; simpl in Hr; lia).
    unfold Qabs. rewrite Z.abs_opp, Z.abs_eq by lia. reflexivity.
Qed.

Lemma round_numeric_bound (x b : Q) (s : nat) :
  Qabs x <= b -> Qabs (round_numeric x s) <= b + (1 # (2 * pow10 s)).
Proof.
  intros Hb. rewrite round_numeric_abs.
  destruct (round_numeric_half_up (Qabs x) s (Qabs_nonneg x))
    as [_ [Hlo _]].
  lra.
Qed.

(** Values of at most 99 in absolute value fit [DECIMAL(4,2)]. *)
Lemma to_decimal_4_2_ok (x : Q) :
  Qabs x <= 99 -> to_decimal 4 2 x = ok (round_numeric x 2).
Proof.
  intros Hx. unfold to_decimal.
  pose proof (round_numeric_bound x 99 2 Hx) as Hb.
  destruct (Qle_bool _ _) eqn:Hov; [|reflexivity].
  apply Qle_bool_iff in Hov.
  change (inject_Z (Zpos (pow10 (4 - 2)))) with 100 in Hov.
  change (1 # 2 * pow10 2) with (1 # 200) in Hb.
  lra.
Qed.

(** Rounding of a non-negative fraction, on its numerator. *)
Lemma round_numeric_frac (n : Z) (d : positive) (s : nat) :
  (0 <= n)%Z ->
  round_numeric (n # d) s =
  ((2 * n * Zpos (pow10 s) + Zpos d) / (2 * Zpos d))%Z # pow10 s.
Proof.
  intros Hn. unfold round_numeric.
  assert (Hle : Qle_bool 0 (n # d) = true).
  { apply Qle_bool_iff. unfold Qle; simpl. lia. }
  rewrite Hle. f_equal.
  unfold Qabs, Qmult, Qplus, inject_Z, Qfloor; cbn [Qnum Qden].
  rewrite Z.abs_eq by lia. f_equal; lia.
Qed.

Lemma pow10_add (a b : nat) :
  Zpos (pow10 (a + b)) = (Zpos (pow10 a) * Zpos (pow10 b))%Z.
Proof.
  rewrite !pow10_Z, Nat2Z.inj_add, Z.pow_add_r by lia. reflexivity.
Qed.

(** An integer is its own rounding at every scale. *)
Lemma round_numeric_one (s : nat) : round_numeric 1 s == 1.
Proof.
  change 1 with (1 # 1). rewrite round_numeric_frac by lia.
  assert (E : ((2 * 1 * Zpos (pow10 s) + 1) / (2 * 1) = Zpos (pow10 s))%Z).
  { symmetry. apply Z.div_unique_pos with (r := 1%Z); lia. }
  rewrite E. unfold Qeq; simpl. lia.
Qed.

(** A value with two decimals is its own rounding at every scale of at
    least two. *)
Lemma round_numeric_hundredths (k : Z) (t : nat) :
  (0 <= k)%Z -> round_numeric (k # 100) (2 + t) == k # 100.
Proof.
  intros Hk. rewrite round_numeric_frac by exact Hk.
  rewrite pow10_add. change (Zpos (pow10 2)) with 100%Z.
  set (c := Zpos (pow10 t)).
  assert (E : ((2 * k * (100 * c) + 100) / (2 * 100) = k * c)%Z).
  { symmetry. apply Z.div_unique_pos with (r := 100%Z); lia. }
  rewrite E. unfold Qeq; cbn [Qnum Qden].
  change (Zpos (pow10 (2 + t))) with (Zpos (pow10 (2 + t))).
  rewrite pow10_add. change (Zpos (pow10 2)) with 100%Z. fold c. lia.
Qed.

(** The quotient of a whole number of microseconds by an hour is rounded
    by the division at ten decimals or more; rounding it again to two
    decimals gives what rounding the exact quotient gives. *)
Lemma requantize_hours (n : Z) (t : nat) :
  (0 <= n)%Z ->
  round_numeric (round_numeric (n # 3600000000) (10 + t)) 2
  = round_numeric (n # 3600000000) 2.
Proof.
  intros Hn.
  rewrite (round_numeric_frac n 3600000000 (10 + t) Hn).
  rewrite (round_numeric_frac n 3600000000 2 Hn).
  set (P := pow10 (10 + t)).
  assert (HP : Zpos P = (10000000000 * Zpos (pow10 t))%Z)
    by apply (pow10_add 10 t).
  set (c := Zpos (pow10 t)) in *.
  assert (Hc : (1 <= c)%Z) by (unfold c; lia).
  set (m := ((2 * n * Zpos P + 3600000000) / (2 * 3600000000))%Z).
  assert (Hm : (0 <= m)%Z) by (unfold m; apply Z.div_pos; lia).
  rewrite (round_numeric_frac m P 2 Hm).
  f_equal. change (Zpos (pow10 2)) with 100%Z.
  set (kz := ((2 * m * 100 + Zpos P) / (2 * Zpos P))%Z).
  assert (H1 : (2 * 3600000000 * m <= 2 * n * Zpos P + 3600000000
                < 2 * 3600000000 * m + 2 * 3600000000)%Z).
  { unfold m.
    pose proof (Z.div_mod (2 * n * Zpos P + 3600000000) (2 * 3600000000)
                  ltac:(lia)).
    pose proof (Z.mod_pos_bound (2 * n * Zpos P + 3600000000)
                  (2 * 3600000000) ltac:(lia)).
    lia. }
  assert (H2 : (2 * Zpos P * kz <= 2 * m * 100 + Zpos P
                < 2 * Zpos P * kz + 2 * Zpos P)%Z).
  { unfold kz.
    pose proof (Z.div_mod (2 * m * 100 + Zpos P) (2 * Zpos P) ltac:(lia)).
    pose proof (Z.mod_pos_bound (2 * m * 100 + Zpos P) (2 * Zpos P)
                  ltac:(lia)).
    lia. }
  apply Z.div_unique_pos with
    (r := (2 * n * 100 + 3600000000 - 2 * 3600000000 * kz)%Z); [|lia].
  clearbody m kz. rewrite HP in *. clearbody c. clear HP P.
  split.
  - destruct (Z_le_gt_dec (18000000 * (2 * kz - 1)) n) as [L|G]; [lia|].
    exfalso.
    assert (c * (18000000 * (2 * kz - 1) - n) >= c * 1)%Z by nia. nia.
  - destruct (Z_lt_ge_dec n (18000000 * (2 * kz + 1))) as [L|G]; [lia|].
    exfalso.
    assert (c * (n - 18000000 * (2 * kz + 1)) >= 0)%Z by nia. nia.
Qed.

(** *** The scale that the division selects *)

Lemma norm_down_weight (fuel : nat) (x : Q) (w : Z) :
  (fst (norm_down fuel x w) <= w)%Z.
Proof.
  revert x w. induction fuel as [|f IH]; intros x w; cbn [norm_down].
  - cbn [fst]. lia.
  - destruct (Qle_bool 1 x); [cbn [fst]; lia|].
    specialize (IH (x * inject_Z NBASE) (w - 1)%Z). lia.
Qed.

(** The weight and first digit of a number of seconds within a day. *)
Lemma weight_and_digit_day (x : Q) :
  Qabs x <= 86400 ->
  (fst (weight_and_digit x) <= 0)%Z \/
  (fst (weight_and_digit x) = 1%Z /\ (snd (weight_and_digit x) <= 8)%Z).
Proof.
  intros Hx. unfold weight_and_digit.
  destruct (Qeq_bool (Qabs x) 0); [left; cbn [fst]; lia|].
  destruct (Qle_bool 1 (Qabs x)) eqn:H1;
    [|left; apply norm_down_weight].
  apply Qle_bool_iff in H1.
  assert (Hlo : (1 <= Qfloor (Qabs x))%Z).
  { change 1%Z with (Qfloor 1). apply Qfloor_resp_le, H1. }
  assert (Hhi : (Qfloor (Qabs x) <= 86400)%Z).
  { change 86400%Z with (Qfloor 86400). apply Qfloor_resp_le, Hx. }
  set (n := Qfloor (Qabs x)) in *. clearbody n.
  destruct (Z_lt_ge_dec n 10000) as [Hs|Hb].
  - left. assert (Hlt : (n <? NBASE)%Z = true) by (apply Z.ltb_lt; exact Hs).
    destruct (Z.to_nat (Z.log2 n)); cbn [norm_up]; [|rewrite Hlt];
      cbn [fst]; lia.
  - right.
    assert (Hlog : (13 <= Z.log2 n)%Z).
    { change 13%Z with (Z.log2 10000). apply Z.log2_le_mono. lia. }
    assert (Hge : (n <? NBASE)%Z = false) by (apply Z.ltb_ge; unfold NBASE; lia).
    assert (Hq : (n / NBASE <= 8)%Z).
    { unfold NBASE. Z.div_mod_to_equations. lia. }
    assert (Hq0 : (0 <= n / NBASE)%Z) by (apply Z.div_pos; unfold NBASE; lia).
    assert (Hqlt : (n / NBASE <? NBASE)%Z = true)
      by (apply Z.ltb_lt; unfold NBASE at 2; lia).
    destruct (Z.to_nat (Z.log2 n)) as [|f] eqn:Ef; [lia|].
    cbn [norm_up]. rewrite Hge.
    destruct f; cbn [norm_up]; [|rewrite Hqlt]; cbn [fst snd]; lia.
Qed.

(** Dividing a number of seconds within a day by [3600.0] keeps sixteen
    decimals or more. *)
Lemma select_div_scale_hours (x : Q) :
  Qabs x <= 86400 ->
  exists t : nat, select_div_scale x 6 3600 1 = (16 + t)%nat.
Proof.
  intros Hx. unfold select_div_scale.
  change (weight_and_digit 3600) with (0, 3600)%Z.
  pose proof (weight_and_digit_day x Hx) as Hw.
  destruct (weight_and_digit x) as [w1 f1]. cbn [fst snd] in Hw.
  set (q := (w1 - 0 - (if (f1 <=? 3600)%Z then 1 else 0))%Z).
  assert (Hq : (q <= 0)%Z).
  { unfold q. destruct Hw as [Hw|[Hw Hf]].
    - destruct (f1 <=? 3600)%Z; lia.
    - assert (E : (f1 <=? 3600)%Z = true) by (apply Z.leb_le; lia).
      rewrite E. lia. }
  clearbody q.
  unfold NUMERIC_MIN_SIG_DIGITS, DEC_DIGITS, NUMERIC_MAX_DISPLAY_SCALE.
  match goal with
  | |- exists t, Z.to_nat ?z = _ => exists (Z.to_nat z - 16)%nat
  end.
  lia.
Qed.

(** *** The scale of a quotient below 10000 *)

Lemma norm_up_spec (fuel : nat) (n w : Z) :
  (1 <= n < 2 ^ (Z.of_nat fuel + 1))%Z ->
  (w <= fst (norm_up fuel n w))%Z /\
  (1 <= snd (norm_up fuel n w) < NBASE)%Z /\
  (snd (norm_up fuel n w) * NBASE ^ (fst (norm_up fuel n w) - w) <= n
   < (snd (norm_up fuel n w) + 1) * NBASE ^ (fst (norm_up fuel n w) - w))%Z.
Proof.
  revert n w. induction fuel as [|f IH]; intros n w Hn.
  - cbn [norm_up fst snd]. change (2 ^ (Z.of_nat 0 + 1))%Z with 2%Z in Hn.
    rewrite Z.sub_diag, Z.pow_0_r. unfold NBASE. lia.
  - cbn [norm_up]. destruct (Z.ltb_spec n NBASE) as [Hs|Hb].
    + cbn [fst snd]. rewrite Z.sub_diag, Z.pow_0_r. lia.
    + assert (Hpow : (2 ^ (Z.of_nat (S f) + 1) = 2 * 2 ^ (Z.of_nat f + 1))%Z).
      { replace (Z.of_nat (S f) + 1)%Z with (Z.succ (Z.of_nat f + 1)) by lia.
        apply Z.pow_succ_r. lia. }
      assert (Hn' : (1 <= n / NBASE < 2 ^ (Z.of_nat f + 1))%Z).
      { unfold NBASE in *. split.
        - apply Z.div_le_lower_bound; lia.
        - apply Z.div_lt_upper_bound; lia. }
      specialize (IH (n / NBASE)%Z (w + 1)%Z Hn').
      destruct (norm_up f (n / NBASE) (w + 1)) as [w' d]. cbn [fst snd] in *.
      destruct IH as (Hw & Hd & Hlo & Hhi).
      split; [lia|]. split; [exact Hd|].
      replace (w' - w)%Z with (Z.succ (w' - (w + 1))) by lia.
      rewrite Z.pow_succ_r by lia.
      set (e := (NBASE ^ (w' - (w + 1)))%Z) in *.
      assert (He : (0 < e)%Z) by (apply Z.pow_pos_nonneg; unfold NBASE; lia).
      pose proof (Z.div_mod n NBASE ltac:(unfold NBASE; lia)) as Hdm.
      pose proof (Z.mod_pos_bound n NBASE ltac:(unfold NBASE; lia)) as Hmb.
      unfold NBASE in *. nia.
Qed.

(** The weight and first digit of an integer of at least 1. *)
Lemma weight_and_digit_int (n : Z) :
  (1 <= n)%Z ->
  weight_and_digit (inject_Z n) = norm_up (Z.to_nat (Z.log2 n)) n 0.
Proof.
  intros Hn. unfold weight_and_digit.
  assert (Ha : Qabs (inject_Z n) = inject_Z n).
  { unfold Qabs, inject_Z. rewrite Z.abs_eq by lia. reflexivity. }
  rewrite Ha.
  assert (E0 : Qeq_bool (inject_Z n) 0 = false).
  { unfold Qeq_bool, inject_Z; cbn [Qnum Qden]. apply Z.eqb_neq. lia. }
  assert (E1 : Qle_bool 1 (inject_Z n) = true).
  { apply Qle_bool_iff. change 1 with (inject_Z 1).
    rewrite <- Zle_Qle. exact Hn. }
  rewrite E0, E1, Qfloor_Z. reflexivity.
Qed.

Lemma norm_up_log2 (n : Z) :
  (1 <= n)%Z ->
  (1 <= n < 2 ^ (Z.of_nat (Z.to_nat (Z.log2 n)) + 1))%Z.
Proof.
  intros Hn. rewrite Z2Nat.id by apply Z.log2_nonneg.
  pose proof (Z.log2_spec n ltac:(lia)) as Hs.
  rewrite <- Z.add_1_r in Hs. lia.
Qed.

(** A quotient below 10000 has a weight estimate of at most 0. *)
Lemma qweight_nonpos (h n w1 d1 w2 d2 : Z) :
  (1 <= h < NBASE * n)%Z ->
  (0 <= w1)%Z -> (1 <= d1)%Z ->
  (d1 * NBASE ^ w1 <= h)%Z ->
  (0 <= w2)%Z ->
  (n < (d2 + 1) * NBASE ^ w2)%Z -> (d2 < NBASE)%Z ->
  (w1 - w2 - (if (d1 <=? d2)%Z then 1 else 0) <= 0)%Z.
Proof.
  intros Hh Hw1 Hd1 Hlo Hw2 Hhi Hd2.
  assert (Hp1 : (0 < NBASE ^ w1)%Z) by (apply Z.pow_pos_nonneg; unfold NBASE; lia).
  assert (Hp2 : (0 < NBASE ^ w2)%Z) by (apply Z.pow_pos_nonneg; unfold NBASE; lia).
  destruct (Z_le_gt_dec w1 w2) as [Hle|Hgt].
  - destruct (d1 <=? d2)%Z; lia.
  - assert (E : (NBASE ^ w1 = NBASE ^ (w1 - w2 - 1) * (NBASE * NBASE ^ w2))%Z).
    { rewrite <- Z.pow_succ_r, <- Z.pow_add_r by lia. f_equal. lia. }
    assert (Hp3 : (0 < NBASE ^ (w1 - w2 - 1))%Z)
      by (apply Z.pow_pos_nonneg; unfold NBASE; lia).
    set (e := (NBASE ^ (w1 - w2 - 1))%Z) in *.
    set (b := (NBASE ^ w2)%Z) in *.
    assert (Hw : (w1 - w2 - 1 = 0)%Z).
    { destruct (Z.eq_dec (w1 - w2 - 1) 0) as [Z0|NZ]; [exact Z0|]. exfalso.
      assert (Hbig : (NBASE <= e)%Z).
      { unfold e. replace (w1 - w2 - 1)%Z with (Z.succ (w1 - w2 - 2)) by lia.
        rewrite Z.pow_succ_r by lia.
        assert (0 < NBASE ^ (w1 - w2 - 2))%Z
          by (apply Z.pow_pos_nonneg; unfold NBASE; lia).
        unfold NBASE in *. nia. }
      unfold NBASE in *. nia. }
    assert (He1 : (e = 1)%Z) by (unfold e; rewrite Hw; reflexivity).
    assert (Hd : (d1 <=? d2)%Z = true).
    { apply Z.leb_le. rewrite E, He1 in Hlo. unfold NBASE in *. nia. }
    rewrite Hd. lia.
Qed.

(** Dividing a non-negative numeric by an integer of at least 1, with a
    quotient below 10000, keeps sixteen decimals or more. *)
Lemma select_div_scale_ratio (x : Q) (dx : nat) (n : Z) (dy : nat) :
  0 <= x -> (1 <= n)%Z -> x < inject_Z (NBASE * n) ->
  exists t : nat, select_div_scale x dx (inject_Z n) dy = (16 + t)%nat.
Proof.
  intros Hx Hn Hlt. unfold select_div_scale.
  rewrite (weight_and_digit_int n Hn).
  pose proof (norm_up_spec _ n 0 (norm_up_log2 n Hn)) as Hs2.
  destruct (norm_up (Z.to_nat (Z.log2 n)) n 0) as [w2 d2].
  cbn [fst snd] in Hs2. rewrite Z.sub_0_r in Hs2.
  destruct Hs2 as (Hw2 & Hd2 & Hlo2 & Hhi2).
  assert (Hq : forall w1 d1, weight_and_digit x = (w1, d1) ->
             (w1 - w2 - (if (d1 <=? d2)%Z then 1 else 0) <= 0)%Z).
  { intros w1 d1. unfold weight_and_digit. cbv zeta.
    assert (Hf : Qfloor (Qabs x) = Qfloor x)
      by (apply Qfloor_comp, Qabs_pos, Hx).
    assert (Hb1 : Qle_bool 1 (Qabs x) = Qle_bool 1 x).
    { destruct (Qle_bool 1 x) eqn:H1.
      - apply Qle_bool_iff. rewrite (Qabs_pos x Hx). apply Qle_bool_iff, H1.
      - destruct (Qle_bool 1 (Qabs x)) eqn:H2; [|reflexivity].
        apply Qle_bool_iff in H2. rewrite (Qabs_pos x Hx) in H2.
        apply Qle_bool_iff in H2. congruence. }
    assert (Hb0 : Qeq_bool (Qabs x) 0 = Qeq_bool x 0).
    { destruct (Qeq_bool x 0) eqn:H1.
      - apply Qeq_bool_iff. rewrite (Qabs_pos x Hx). apply Qeq_bool_iff, H1.
      - destruct (Qeq_bool (Qabs x) 0) eqn:H2; [|reflexivity].
        apply Qeq_bool_iff in H2. rewrite (Qabs_pos x Hx) in H2.
        apply Qeq_bool_iff in H2. congruence. }
    rewrite Hb0, Hb1, Hf.
    destruct (Qeq_bool x 0).
    { intros E. injection E as <- <-.
      assert (E : (0 <=? d2)%Z = true) by (apply Z.leb_le; lia).
      rewrite E. lia. }
    destruct (Qle_bool 1 x) eqn:H1.
    - apply Qle_bool_iff in H1.
      assert (Hh : (1 <= Qfloor x)%Z).
      { change 1%Z with (Qfloor 1). apply Qfloor_resp_le, H1. }
      assert (Hhn : (Qfloor x < NBASE * n)%Z).
      { rewrite Zlt_Qlt. eapply Qle_lt_trans; [apply Qfloor_le|exact Hlt]. }
      pose proof (norm_up_spec _ (Qfloor x) 0 (norm_up_log2 _ Hh)) as Hs1.
      intros E. rewrite E in Hs1. cbn [fst snd] in Hs1.
      rewrite Z.sub_0_r in Hs1. destruct Hs1 as (Hw1 & Hd1 & Hlo1 & Hhi1).
      apply (qweight_nonpos (Qfloor x) n); try lia.
    - intros E. pose proof (norm_down_weight (Pos.size_nat (Qden (Qabs x)))
                              (Qabs x) 0) as Hw.
      rewrite E in Hw. cbn [fst] in Hw.
      destruct (d1 <=? d2)%Z; lia. }
  destruct (weight_and_digit x) as [w1 d1].
  specialize (Hq w1 d1 eq_refl).
  set (q := (w1 - w2 - (if (d1 <=? d2)%Z then 1 else 0))%Z) in *.
  clearbody q.
  unfold NUMERIC_MIN_SIG_DIGITS, DEC_DIGITS, NUMERIC_MAX_DISPLAY_SCALE.
  match goal with
  | |- exists t, Z.to_nat ?z = _ => exists (Z.to_nat z - 16)%nat
  end.
  lia.
Qed.

(** The quotient of a number of hundredths by an integer below [10^12]
    is rounded by the division at sixteen decimals or more; a hundred
    times that, rounded to two decimals, is the rounding of the exact
    percentage. *)
Lemma requantize_percent (h : Z) (r : positive) (t : nat) :
  (0 <= h)%Z -> (Zpos r < 1000000000000)%Z ->
  round_numeric (round_numeric (h # (100 * r)) (16 + t) * 100) 2
  = round_numeric (h # r) 2.
Proof.
  intros Hh Hr.
  rewrite (round_numeric_frac h (100 * r) (16 + t) Hh).
  rewrite (round_numeric_frac h r 2 Hh).
  set (P := pow10 (16 + t)).
  assert (HP : Zpos P = (10000000000000000 * Zpos (pow10 t))%Z)
    by apply (pow10_add 16 t).
  set (c := Zpos (pow10 t)) in *.
  assert (Hc : (1 <= c)%Z) by (unfold c; lia).
  set (m := ((2 * h * Zpos P + Zpos (100 * r)) / (2 * Zpos (100 * r)))%Z).
  assert (Hm : (0 <= m)%Z) by (unfold m; apply Z.div_pos; lia).
  unfold Qmult; cbn [Qnum Qden].
  rewrite (round_numeric_frac (m * 100) (P * 1) 2) by lia.
  f_equal. change (Zpos (pow10 2)) with 100%Z.
  set (kz := ((2 * (m * 100) * 100 + Zpos (P * 1)) / (2 * Zpos (P * 1)))%Z).
  assert (H1 : (2 * Zpos (100 * r) * m <= 2 * h * Zpos P + Zpos (100 * r)
                < 2 * Zpos (100 * r) * m + 2 * Zpos (100 * r))%Z).
  { unfold m.
    pose proof (Z.div_mod (2 * h * Zpos P + Zpos (100 * r)) (2 * Zpos (100 * r))
                  ltac:(lia)).
    pose proof (Z.mod_pos_bound (2 * h * Zpos P + Zpos (100 * r))
                  (2 * Zpos (100 * r)) ltac:(lia)).
    lia. }
  assert (H2 : (2 * Zpos (P * 1) * kz <= 2 * (m * 100) * 100 + Zpos (P * 1)
                < 2 * Zpos (P * 1) * kz + 2 * Zpos (P * 1))%Z).
  { unfold kz.
    pose proof (Z.div_mod (2 * (m * 100) * 100 + Zpos (P * 1))
                  (2 * Zpos (P * 1)) ltac:(lia)).
    pose proof (Z.mod_pos_bound (2 * (m * 100) * 100 + Zpos (P * 1))
                  (2 * Zpos (P * 1)) ltac:(lia)).
    lia. }
  apply Z.div_unique_pos with
    (r := (2 * h * 100 + Zpos r - 2 * Zpos r * kz)%Z); [|lia].
  clearbody m kz.
  rewrite Pos2Z.inj_mul in H1, H2. rewrite HP in *.
  set (q := Zpos r) in *. clearbody q c. clear HP P r.
  change (Zpos 100) with 100%Z in *. change (Zpos 1) with 1%Z in *.
  assert (Hq : (1 <= q)%Z) by lia.
  split.
  - destruct (Z_le_gt_dec (2 * q * kz) (2 * h * 100 + q)) as [L|G]; [lia|].
    exfalso.
    assert (G1 : (100000000000000 * c * (q * (2 * kz - 1))
                  >= 100000000000000 * c * (200 * h + 1))%Z) by nia.
    assert (G2 : (2 * m >= 1000000000000 * c * (2 * kz - 1))%Z) by lia.
    assert (G3 : (100 * q * (2 * m)
                  >= 100 * q * (1000000000000 * c * (2 * kz - 1)))%Z) by nia.
    nia.
  - destruct (Z_lt_ge_dec (2 * h * 100 + q) (2 * q * kz + 2 * q)) as [L|G];
      [lia|].
    exfalso.
    assert (G1 : (100000000000000 * c * (200 * h)
                  >= 100000000000000 * c * (q * (2 * kz + 1)))%Z) by nia.
    assert (G2 : (2 * m <= 1000000000000 * c * (2 * kz + 1) - 2)%Z) by lia.
    assert (G3 : (100 * q * (2 * m)
                  <= 100 * q * (1000000000000 * c * (2 * kz + 1) - 2))%Z)
      by nia.
    nia.
Qed.

End RoundingFacts.

(** ** Facts on the generated columns *)

Section TimeRecordFacts.

Lemma duration_hours_frac (i o : time) :
  duration_hours i o == (o - i)%Z # 3600000000.
Proof.
  unfold duration_hours. rewrite (Qmake_Qdiv (o - i) 3600000000).
  reflexivity.
Qed.

Lemma extract_epoch_hours (i o : time) :
  extract_epoch o i / 3600 == (o - i)%Z # 3600000000.
Proof.
  unfold extract_epoch. rewrite (Qmake_Qdiv (o - i) 3600000000).
  change (inject_Z (Zpos 3600000000)) with 3600000000. field.
Qed.

Lemma extract_epoch_bound (i o : time) :
  valid_time i -> valid_time o -> Qabs (extract_epoch o i) <= 86400.
Proof.
  unfold valid_time, extract_epoch. intros Hi Ho.
  apply Qabs_Qle_condition.
  assert (H1 : inject_Z (-86400000000) <= inject_Z (o - i))
    by (rewrite <- Zle_Qle; lia).
  assert (H2 : inject_Z (o - i) <= inject_Z 86400000000)
    by (rewrite <- Zle_Qle; lia).
  unfold inject_Z at 1 in H1. unfold inject_Z at 2 in H2.
  generalize dependent (inject_Z (o - i)). intros q H1 H2.
  setoid_replace (q / 1000000) with (q * (1 # 1000000)) by field.
  split; lra.
Qed.

(** The quotient of a session is the exact one rounded at sixteen
    decimals or more. *)
Lemma session_quotient (i o : time) :
  valid_time i -> valid_time o ->
  exists t : nat,
    session_hours_expr (Some i) (Some o)
    = round_numeric ((o - i)%Z # 3600000000) (16 + t).
Proof.
  intros Hi Ho. cbn [session_hours_expr]. unfold quotient.
  destruct (select_div_scale_hours _ (extract_epoch_bound i o Hi Ho))
    as [t Ht].
  exists t. rewrite Ht. apply round_numeric_comp, extract_epoch_hours.
Qed.

Lemma half_unit_le_1 (s : nat) : 1 # (2 * pow10 s) <= 1.
Proof. unfold Qle; simpl. lia. Qed.

Lemma session_hours_expr_bound (ti to : option time) :
  opt_valid_time ti -> opt_valid_time to ->
  Qabs (session_hours_expr ti to) <= 25.
Proof.
  destruct ti as [i|], to as [o|];
    cbn [session_hours_expr opt_valid_time]; intros Hi Ho;
    try (unfold Qle; simpl; lia).
  destruct (session_quotient i o Hi Ho) as [t Ht].
  cbn [session_hours_expr] in Ht. rewrite Ht.
  assert (Hb : Qabs ((o - i)%Z # 3600000000) <= 24).
  { unfold valid_time in *. apply Qabs_Qle_condition.
    unfold Qle; simpl. lia. }
  pose proof (round_numeric_bound _ 24 (16 + t) Hb) as Hr.
  pose proof (half_unit_le_1 (16 + t)) as Hu. lra.
Qed.

Lemma session_hours_expr_nonneg (ti to : option time) :
  chk_times ti to = true -> 0 <= session_hours_expr ti to.
Proof.
  destruct ti as [i|], to as [o|];
    cbn [session_hours_expr chk_times]; intros Hc; try apply Qle_refl.
  apply Z.ltb_lt in Hc. unfold quotient.
  apply round_numeric_nonneg_ge0. rewrite extract_epoch_hours.
  unfold Qle; simpl. lia.
Qed.

(** With time fields of type [TIME], no generated column overflows
    [DECIMAL(4,2)]: the outcome is decided by the CHECK constraints. *)
Lemma store_time_record_checks (r : time_record_input) :
  valid_times r ->
  store_time_record r =
  (_ <- check chk_am_times
          (chk_times (in_am_time_in r) (in_am_time_out r)) ;;
   _ <- check chk_pm_times
          (chk_times (in_pm_time_in r) (in_pm_time_out r)) ;;
   ok (make_row r (round_numeric (am_hours_expr r) 2)
                  (round_numeric (pm_hours_expr r) 2)
                  (round_numeric (total_hours_expr r) 2))).
Proof.
  intros (Hai & Hao & Hpi & Hpo).
  pose proof (session_hours_expr_bound _ _ Hai Hao) as Ha.
  pose proof (session_hours_expr_bound _ _ Hpi Hpo) as Hp.
  fold (am_hours_expr r) in Ha. fold (pm_hours_expr r) in Hp.
  unfold store_time_record.
  rewrite (to_decimal_4_2_ok (am_hours_expr r)) by lra.
  rewrite (to_decimal_4_2_ok (pm_hours_expr r)) by lra.
  rewrite (to_decimal_4_2_ok (total_hours_expr r)).
  - reflexivity.
  - unfold total_hours_expr.
    eapply Qle_trans; [apply Qabs_triangle|]. lra.
Qed.

Lemma store_time_record_ok (r : time_record_input) :
  valid_times r ->
  chk_times (in_am_time_in r) (in_am_time_out r) = true ->
  chk_times (in_pm_time_in r) (in_pm_time_out r) = true ->
  store_time_record r =
  ok (make_row r (round_numeric (am_hours_expr r) 2)
                 (round_numeric (pm_hours_expr r) 2)
                 (round_numeric (total_hours_expr r) 2)).
Proof.
  intros Hv Ha Hp. rewrite (store_time_record_checks r Hv), Ha, Hp.
  reflexivity.
Qed.

End TimeRecordFacts.

(** ** The Hour Calculator *)

Section HourCalculator.

Lemma hundredth_gap (k : Z) :
  - (3 # 200) < (k # 100) -> (k # 100) < (3 # 200) ->
  Qabs (k # 100) <= 1 # 100.
Proof.
  unfold Qlt, Qle, Qabs; simpl. lia.
Qed.

Lemma hundredth_zero (k : Z) :
  - (1 # 100) < (k # 100) -> (k # 100) < (1 # 100) -> (k # 100) == 0.
Proof.
  unfold Qlt, Qeq; simpl. lia.
Qed.

Lemma hundredths_sub (a b c : Z) :
  (a # 100) - ((b # 100) + (c # 100)) == (a - (b + c))%Z # 100.
Proof.
  unfold Qeq, Qminus, Qplus, Qopp; simpl. lia.
Qed.

(** Three half-up roundings to two decimals, of [a], [b] and [a + b]:
    the rounded total is within one hundredth of the sum of the rounded
    parts. *)
Lemma rounded_sum_gap (a b ra rb rt : Q) :
  rounds_half_up 2 a ra -> rounds_half_up 2 b rb ->
  rounds_half_up 2 (a + b) rt ->
  Qabs (rt - (ra + rb)) <= 1 # 100.
Proof.
  intros [[ka Ea] [La Ha]] [[kb Eb] [Lb Hb]] [[kt Et] [Lt Ht]].
  change (2 * pow10 2)%positive with 200%positive in *.
  change (pow10 2) with 100%positive in *.
  assert (E : rt - (ra + rb) == (kt - (ka + kb))%Z # 100)
    by (rewrite Ea, Eb, Et; apply hundredths_sub).
  rewrite E. apply hundredth_gap; rewrite <- E; lra.
Qed.

(** A value that has two decimals already is its own rounding. *)
Lemma rounds_half_up_exact (x y : Q) :
  whole_hundredths x -> rounds_half_up 2 x y -> y == x.
Proof.
  intros [k Ex] [[ky Ey] [Lo Hi]].
  change (2 * pow10 2)%positive with 200%positive in *.
  change (pow10 2) with 100%positive in *.
  assert (E : y - ((k # 100) + (0 # 100)) == (ky - (k + 0))%Z # 100)
    by (rewrite Ey; apply hundredths_sub).
  assert (Z0 : y - ((k # 100) + (0 # 100)) == 0).
  { rewrite E. apply hundredth_zero; rewrite <- E; rewrite <- Ex; lra. }
  rewrite Ex. lra.
Qed.

(** One session column: the stored value is the half-up rounding of
    the raw duration when both endpoints are present, and 0 when one is
    absent. *)
Lemma session_column_rounded (ti to : option time) :
  opt_valid_time ti -> opt_valid_time to ->
  chk_times ti to = true ->
  (forall i o, ti = Some i -> to = Some o ->
     (i < o)%Z /\
     rounds_half_up 2 (duration_hours i o)
       (round_numeric (session_hours_expr ti to) 2)) /\
  (ti = None \/ to = None ->
   round_numeric (session_hours_expr ti to) 2 == 0).
Proof.
  intros Hi Ho Hc. split.
  - intros i o -> ->. cbn [opt_valid_time chk_times] in *.
    apply Z.ltb_lt in Hc. split; [exact Hc|].
    destruct (session_quotient i o Hi Ho) as [t Ht]. rewrite Ht.
    change (16 + t)%nat with (10 + (6 + t))%nat.
    rewrite requantize_hours by lia.
    apply (rounds_half_up_comp 2 ((o - i)%Z # 3600000000));
      [symmetry; apply duration_hours_frac|].
    apply round_numeric_half_up. unfold Qle; simpl. lia.
  - intros [->| ->]; [|destruct ti]; reflexivity.
Qed.

(** The quotient of a session is within half a unit of the sixteenth
    decimal of the raw duration. *)
Lemma session_hours_expr_close (ti to : option time) :
  opt_valid_time ti -> opt_valid_time to ->
  chk_times ti to = true ->
  Qabs (session_hours_expr ti to - raw_session_hours ti to)
  <= 1 # 20000000000000000.
Proof.
  intros Hi Ho Hc.
  destruct ti as [i|], to as [o|];
    cbn [session_hours_expr raw_session_hours opt_valid_time chk_times] in *;
    try (unfold Qle; simpl; lia).
  apply Z.ltb_lt in Hc.
  destruct (session_quotient i o Hi Ho) as [t Ht].
  cbn [session_hours_expr] in Ht. rewrite Ht, duration_hours_frac.
  assert (Hn : 0 <= (o - i)%Z # 3600000000) by (unfold Qle; simpl; lia).
  destruct (round_numeric_half_up _ (16 + t) Hn) as [_ [Lo Hi']].
  assert (Hu : 1 # (2 * pow10 (16 + t)) <= 1 # 20000000000000000).
  { unfold Qle; cbn [Qnum Qden]. rewrite Pos2Z.inj_mul, pow10_add.
    change (Zpos (pow10 16)) with 10000000000000000%Z. lia. }
  apply Qabs_Qle_condition. split; lra.
Qed.

(** A raw duration with two decimals is divided exactly. *)
Lemma session_hours_expr_exact (ti to : option time) :
  opt_valid_time ti -> opt_valid_time to ->
  chk_times ti to = true ->
  whole_hundredths (raw_session_hours ti to) ->
  session_hours_expr ti to == raw_session_hours ti to.
Proof.
  intros Hi Ho Hc [k Hk].
  destruct ti as [i|], to as [o|];
    cbn [session_hours_expr raw_session_hours opt_valid_time chk_times] in *;
    try reflexivity.
  apply Z.ltb_lt in Hc.
  destruct (session_quotient i o Hi Ho) as [t Ht].
  cbn [session_hours_expr] in Ht. rewrite Ht.
  rewrite duration_hours_frac in Hk. rewrite duration_hours_frac.
  assert (Hk0 : (0 <= k)%Z).
  { unfold Qeq in Hk; cbn [Qnum Qden] in Hk. lia. }
  rewrite (round_numeric_comp _ (k # 100) (16 + t) Hk), Hk.
  change (16 + t)%nat with (2 + (14 + t))%nat.
  apply round_numeric_hundredths, Hk0.
Qed.

Lemma minute_gap_below (m k : Z) :
  (m # 60) < (k # 100) - (1 # 200) ->
  (m # 60) <= (k # 100) - (1 # 200) - (1 # 600).
Proof.
  unfold Qlt, Qle, Qminus, Qplus, Qopp; cbn [Qnum Qden]. lia.
Qed.

Lemma minute_gap_above (m k : Z) :
  (k # 100) + (1 # 200) <= (m # 60) ->
  (k # 100) + (1 # 200) + (1 # 600) <= (m # 60).
Proof.
  unfold Qle, Qplus; cbn [Qnum Qden]. lia.
Qed.

Lemma minutes_add (m1 m2 : Z) : (m1 # 60) + (m2 # 60) == (m1 + m2)%Z # 60.
Proof.
  unfold Qeq, Qplus; cbn [Qnum Qden]. lia.
Qed.

(** A whole number of minutes is never at a tie of the second decimal,
    so a total rounded from two quotients that are close to whole
    minutes is the rounding of the exact total. *)
Lemma minutes_total_rounded (a b ra rb z : Q) :
  whole_minutes ra -> whole_minutes rb ->
  Qabs (a - ra) <= 1 # 20000000000000000 ->
  Qabs (b - rb) <= 1 # 20000000000000000 ->
  rounds_half_up 2 (a + b) z -> rounds_half_up 2 (ra + rb) z.
Proof.
  intros [ma Ea] [mb Eb] Ha Hb [[k Ez] [Lo Hi]].
  apply Qabs_Qle_condition in Ha. apply Qabs_Qle_condition in Hb.
  change (2 * pow10 2)%positive with 200%positive in *.
  change (pow10 2) with 100%positive in *.
  split; [exists k; exact Ez|].
  assert (Es : ra + rb == (ma + mb)%Z # 60)
    by (rewrite Ea, Eb; apply minutes_add).
  split.
  - destruct (Qlt_le_dec (ra + rb) (z - (1 # 200))) as [L|L]; [|exact L].
    exfalso. rewrite Es, Ez in L. apply minute_gap_below in L.
    rewrite <- Es, <- Ez in L. lra.
  - destruct (Qlt_le_dec (ra + rb) (z + (1 # 200))) as [L|L]; [exact L|].
    exfalso. rewrite Es, Ez in L. apply minute_gap_above in L.
    rewrite <- Es, <- Ez in L. lra.
Qed.

End HourCalculator.

(** C4. For a record with valid session ordering the row is stored, and
    its [am_hours] is the raw AM duration in hours rounded half-up to two
    decimals when both AM endpoints are present, and 0 when either is
    absent; the same holds for [pm_hours]. *)
Theorem session_hours_rounded_half_up (r : time_record_input) :
  valid_times r ->
  chk_times (in_am_time_in r) (in_am_time_out r) = true ->
  chk_times (in_pm_time_in r) (in_pm_time_out r) = true ->
  exists row,
    store_time_record r = ok row /\
    (forall i o, in_am_time_in r = Some i -> in_am_time_out r = Some o ->
                 (i < o)%Z /\
                 rounds_half_up 2 (duration_hours i o) (am_hours row)) /\
    (in_am_time_in r = None \/ in_am_time_out r = None ->
     am_hours row == 0) /\
    (forall i o, in_pm_time_in r = Some i -> in_pm_time_out r = Some o ->
                 (i < o)%Z /\
                 rounds_half_up 2 (duration_hours i o) (pm_hours row)) /\
    (in_pm_time_in r = None \/ in_pm_time_out r = None ->
     pm_hours row == 0).
Proof.
  intros Hv Ha Hp. eexists. split; [apply store_time_record_ok; assumption|].
  cbn [am_hours pm_hours make_row]. unfold am_hours_expr, pm_hours_expr.
  destruct Hv as (Vai & Vao & Vpi & Vpo).
  destruct (session_column_rounded _ _ Vai Vao Ha) as [Ha1 Ha2].
  destruct (session_column_rounded _ _ Vpi Vpo Hp) as [Hp1 Hp2].
  split; [exact Ha1|]. split; [exact Ha2|]. split; [exact Hp1|exact Hp2].
Qed.

(** Decides [valid_times] on a concrete record. *)
Ltac concrete_times :=
  repeat split; vm_compute; intros Hcmp; discriminate Hcmp.

(** C1, as stated, fails: 08:00-12:01 and 13:00-17:01 are stored with
    [am_hours = 4.02], [pm_hours = 4.02] and [total_hours = 8.03]. *)
Lemma total_hours_not_sum_of_rounded :
  valid_times odd_minutes_record /\
  chk_times (in_am_time_in odd_minutes_record)
            (in_am_time_out odd_minutes_record) = true /\
  chk_times (in_pm_time_in odd_minutes_record)
            (in_pm_time_out odd_minutes_record) = true /\
  exists row,
    store_time_record odd_minutes_record = ok row /\
    am_hours row == 402 # 100 /\
    pm_hours row == 402 # 100 /\
    total_hours row == 803 # 100 /\
    ~ total_hours row == am_hours row + pm_hours row.
Proof.
  split; [concrete_times|].
  split; [reflexivity|]. split; [reflexivity|].
  eexists. split; [vm_compute; reflexivity|].
  cbn [am_hours pm_hours total_hours].
  repeat split; try reflexivity.
  intros H. vm_compute in H. discriminate H.
Qed.

(** C1, amended. For a record with valid session ordering the row is
    stored and its [total_hours] is the sum of the two session quotients
    rounded half-up to two decimals, each quotient being the raw duration
    of the session in hours (0 for an incomplete session) carried to
    sixteen decimals or more.  The total is within 0.01 of
    [am_hours + pm_hours]; it equals that sum whenever both raw durations
    are whole hundredths of an hour; and it is the half-up rounding of the
    exact raw total whenever both raw durations are whole minutes. *)
Theorem total_hours_rounds_raw_sum (r : time_record_input) :
  valid_times r ->
  chk_times (in_am_time_in r) (in_am_time_out r) = true ->
  chk_times (in_pm_time_in r) (in_pm_time_out r) = true ->
  exists row,
    store_time_record r = ok row /\
    rounds_half_up 2 (am_hours_expr r + pm_hours_expr r) (total_hours row) /\
    Qabs (am_hours_expr r - raw_am_hours r) <= 1 # 20000000000000000 /\
    Qabs (pm_hours_expr r - raw_pm_hours r) <= 1 # 20000000000000000 /\
    Qabs (total_hours row - (am_hours row + pm_hours row)) <= 1 # 100 /\
    (whole_hundredths (raw_am_hours r) ->
     whole_hundredths (raw_pm_hours r) ->
     total_hours row == am_hours row + pm_hours row) /\
    (whole_minutes (raw_am_hours r) ->
     whole_minutes (raw_pm_hours r) ->
     rounds_half_up 2 (raw_am_hours r + raw_pm_hours r) (total_hours row)).
Proof.
  intros Hv Ha Hp. eexists. split; [apply store_time_record_ok; assumption|].
  cbn [am_hours pm_hours total_hours make_row].
  destruct Hv as (Vai & Vao & Vpi & Vpo).
  assert (Na : 0 <= am_hours_expr r)
    by apply (session_hours_expr_nonneg _ _ Ha).
  assert (Np : 0 <= pm_hours_expr r)
    by apply (session_hours_expr_nonneg _ _ Hp).
  assert (Nt : 0 <= total_hours_expr r) by (unfold total_hours_expr; lra).
  pose proof (round_numeric_half_up _ 2 Na) as Ra.
  pose proof (round_numeric_half_up _ 2 Np) as Rp.
  pose proof (round_numeric_half_up _ 2 Nt) as Rt.
  pose proof (session_hours_expr_close _ _ Vai Vao Ha) as Ca.
  pose proof (session_hours_expr_close _ _ Vpi Vpo Hp) as Cp.
  split; [exact Rt|]. split; [exact Ca|]. split; [exact Cp|]. split; [|split].
  - apply (rounded_sum_gap (am_hours_expr r) (pm_hours_expr r)); assumption.
  - intros Wa Wp.
    pose proof (session_hours_expr_exact _ _ Vai Vao Ha Wa) as Ea.
    pose proof (session_hours_expr_exact _ _ Vpi Vpo Hp Wp) as Ep.
    fold (am_hours_expr r) in Ea. fold (pm_hours_expr r) in Ep.
    fold (raw_am_hours r) in Ea. fold (raw_pm_hours r) in Ep.
    assert (Wa' : whole_hundredths (am_hours_expr r)).
    { destruct Wa as [k Hk]. exists k. rewrite Ea. exact Hk. }
    assert (Wp' : whole_hundredths (pm_hours_expr r)).
    { destruct Wp as [k Hk]. exists k. rewrite Ep. exact Hk. }
    rewrite (rounds_half_up_exact _ _ Wa' Ra).
    rewrite (rounds_half_up_exact _ _ Wp' Rp).
    apply rounds_half_up_exact; [|exact Rt].
    destruct Wa' as [ka Eka], Wp' as [kb Ekb]. exists (ka + kb)%Z.
    unfold total_hours_expr. rewrite Eka, Ekb.
    unfold Qeq, Qplus; simpl. lia.
  - intros Ma Mp.
    apply (minutes_total_rounded (am_hours_expr r) (pm_hours_expr r));
      assumption.
Qed.

Lemma scenario_a_valid_times : valid_times scenario_a_record.
Proof. concrete_times. Defined.

Lemma total_hours_rounds_raw_sum_witness :
  exists row,
    store_time_record scenario_a_record = ok row /\
    rounds_half_up 2 (am_hours_expr scenario_a_record
                      + pm_hours_expr scenario_a_record) (total_hours row) /\
    Qabs (am_hours_expr scenario_a_record - raw_am_hours scenario_a_record)
      <= 1 # 20000000000000000 /\
    Qabs (pm_hours_expr scenario_a_record - raw_pm_hours scenario_a_record)
      <= 1 # 20000000000000000 /\
    Qabs (total_hours row - (am_hours row + pm_hours row)) <= 1 # 100 /\
    (whole_hundredths (raw_am_hours scenario_a_record) ->
     whole_hundredths (raw_pm_hours scenario_a_record) ->
     total_hours row == am_hours row + pm_hours row) /\
    (whole_minutes (raw_am_hours scenario_a_record) ->
     whole_minutes (raw_pm_hours scenario_a_record) ->
     rounds_half_up 2 (raw_am_hours scenario_a_record
                       + raw_pm_hours scenario_a_record) (total_hours row)).
Proof.
  apply (total_hours_rounds_raw_sum scenario_a_record).
  - exact scenario_a_valid_times.
  - reflexivity.
  - reflexivity.
Defined.

Lemma session_hours_rounded_half_up_witness :
  exists row,
    store_time_record odd_minutes_record = ok row /\
    (forall i o, in_am_time_in odd_minutes_record = Some i ->
                 in_am_time_out odd_minutes_record = Some o ->
                 (i < o)%Z /\
                 rounds_half_up 2 (duration_hours i o) (am_hours row)) /\
    (in_am_time_in odd_minutes_record = None \/
     in_am_time_out odd_minutes_record = None ->
     am_hours row == 0) /\
    (forall i o, in_pm_time_in odd_minutes_record = Some i ->
                 in_pm_time_out odd_minutes_record = Some o ->
                 (i < o)%Z /\
                 rounds_half_up 2 (duration_hours i o) (pm_hours row)) /\
    (in_pm_time_in odd_minutes_record = None \/
     in_pm_time_out odd_minutes_record = None ->
     pm_hours row == 0).
Proof.
  apply (session_hours_rounded_half_up odd_minutes_record).
  - concrete_times.
  - reflexivity.
  - reflexivity.
Defined.

(** The total is rounded from the two quotients, not from the exact raw
    total: 3604 s and 14 s make 1.005 h exactly, yet the quotients
    1.0011111111111111 (sixteen decimals) and 0.00388888888888888889
    (twenty) add up to just below 1.005, and the stored total is 1.00. *)
Example total_hours_at_a_tie :
  raw_am_hours tie_record + raw_pm_hours tie_record == 1005 # 1000 /\
  am_hours_expr tie_record == 10011111111111111 # 10000000000000000 /\
  pm_hours_expr tie_record == 388888888888888889 # 100000000000000000000 /\
  exists row,
    store_time_record tie_record = ok row /\ total_hours row == 1.
Proof.
  split; [reflexivity|]. split; [reflexivity|]. split; [reflexivity|].
  eexists. split; [vm_compute; reflexivity|]. reflexivity.
Qed.

(** C6. A record in which a session has both endpoints and its time-out is
    not after its time-in is not stored: the statement fails on the CHECK
    constraint of that session ([chk_am_times] first), and no negative
    hours value is kept. *)
Theorem invalid_session_order_fails (r : time_record_input) :
  valid_times r ->
  (exists i o, in_am_time_in r = Some i /\ in_am_time_out r = Some o /\
               (o <= i)%Z) \/
  (exists i o, in_pm_time_in r = Some i /\ in_pm_time_out r = Some o /\
               (o <= i)%Z) ->
  store_time_record r =
  raise (check_violation
           (if chk_times (in_am_time_in r) (in_am_time_out r)
            then chk_pm_times else chk_am_times)).
Proof.
  intros Hv Hbad. rewrite (store_time_record_checks r Hv).
  destruct (chk_times (in_am_time_in r) (in_am_time_out r)) eqn:Ha;
    [|reflexivity].
  destruct Hbad as [(i & o & Ei & Eo & Hle)|(i & o & Ei & Eo & Hle)].
  - rewrite Ei, Eo in Ha. cbn [chk_times] in Ha.
    apply Z.ltb_lt in Ha. lia.
  - rewrite Ei, Eo. cbn [chk_times].
    assert (Hf : (i <? o)%Z = false) by (apply Z.ltb_ge; lia).
    rewrite Hf. reflexivity.
Qed.

Lemma invalid_session_order_fails_witness :
  store_time_record scenario_c_record = raise (check_violation chk_am_times).
Proof.
  apply (invalid_session_order_fails scenario_c_record).
  - concrete_times.
  - left. exists (hms 8 0 0), (hms 7 0 0).
    split; [reflexivity|]. split; [reflexivity|]. vm_compute. discriminate.
Defined.


(** ** The Weekly Aggregator *)

Section WeeklyFacts.

Lemma coalesce_sum_total_hours (rows : list time_record) :
  coalesce (sum_total_hours rows) 0 == hours_sum rows.
Proof.
  destruct rows as [|tr rows]; [reflexivity|].
  unfold sum_total_hours, coalesce, hours_sum.
  generalize (tr :: rows). intros l.
  induction l as [|x l IH]; simpl; [reflexivity|].
  rewrite IH. reflexivity.
Qed.

Lemma in_week_filter (db : database) (p : uuid) (w : sql_date) :
  filter (in_week p w) (time_records db) = week_records db p w.
Proof.
  unfold week_records, records_of.
  induction (time_records db) as [|tr l IH]; simpl; [reflexivity|].
  unfold in_week at 1.
  destruct (trainee_id tr =? p)%N; simpl; rewrite IH; reflexivity.
Qed.

Lemma week_records_spec (db : database) (p : uuid) (w : sql_date)
    (tr : time_record) :
  In tr (week_records db p w) <->
  In tr (time_records db) /\ trainee_id tr = p /\
  (w <= date tr <= w + 6)%Z.
Proof.
  unfold week_records, records_of. rewrite !filter_In.
  rewrite andb_true_iff, N.eqb_eq, !Z.leb_le. tauto.
Qed.

Lemma least_Qmin (x y : Q) : least x y == Qmin x y.
Proof.
  unfold least. destruct (Qle_bool x y) eqn:H.
  - apply Qle_bool_iff in H. symmetry. apply Q.min_l, H.
  - assert (Hyx : y <= x).
    { destruct (Qlt_le_dec y x) as [L|L]; [apply Qlt_le_weak, L|].
      apply Qle_bool_iff in L. congruence. }
    symmetry. apply Q.min_r, Hyx.
Qed.

Lemma least_le_l (x y : Q) : least x y <= x.
Proof.
  rewrite least_Qmin. apply Q.le_min_l.
Qed.

End WeeklyFacts.

(** C2. For a trainee and its records of one week, the summary has
    [total_hours_worked] the sum of their [total_hours]; [billable_hours]
    is min(total_hours_worked, max_weekly_hours) for paid and unpaid
    interns and total_hours_worked for ojt; [gross_pay] is
    billable_hours * hourly_rate for a paid intern (NULL when the rate is
    NULL) and 0 for the other two types. *)
Theorem weekly_summary_billable_and_pay
    (db : database) (p : uuid) (w : sql_date) (t : trainee) :
  find (fun t => (t_id t =? p)%N) (trainees db) = Some t ->
  let s := calculate_weekly_summary db p w in
  total_hours_worked s == hours_sum (week_records db p w) /\
  match t_trainee_type t with
  | paid_intern =>
      billable_hours s ==
        Qmin (total_hours_worked s) (inject_Z (t_max_weekly_hours t)) /\
      gross_pay s =
        option_map (fun rate => billable_hours s * rate) (t_hourly_rate t)
  | unpaid_intern =>
      billable_hours s ==
        Qmin (total_hours_worked s) (inject_Z (t_max_weekly_hours t)) /\
      gross_pay s = Some 0
  | ojt =>
      billable_hours s == total_hours_worked s /\
      gross_pay s = Some 0
  end.
Proof.
  intros Hfind s. subst s. unfold calculate_weekly_summary.
  rewrite Hfind. cbn [total_hours_worked billable_hours gross_pay].
  split.
  - rewrite in_week_filter. apply coalesce_sum_total_hours.
  - destruct (t_trainee_type t).
    + split; [apply least_Qmin|].
      destruct (t_hourly_rate t); reflexivity.
    + split; [apply least_Qmin|reflexivity].
    + split; reflexivity.
Qed.

(** C10. Whatever the trainee and the records, the summary never bills
    more hours than were worked. *)
Theorem billable_le_total_hours_worked
    (db : database) (p : uuid) (w : sql_date) :
  billable_hours (calculate_weekly_summary db p w) <=
  total_hours_worked (calculate_weekly_summary db p w).
Proof.
  unfold calculate_weekly_summary.
  cbn [total_hours_worked billable_hours].
  destruct (find _ _) as [t|]; [|apply Qle_refl].
  destruct (t_trainee_type t);
    first [apply least_le_l | apply Qle_refl].
Qed.

Lemma weekly_summary_billable_and_pay_witness :
  let s := calculate_weekly_summary scenario_d_db 3%N 20101%Z in
  total_hours_worked s == hours_sum (week_records scenario_d_db 3%N 20101%Z) /\
  billable_hours s ==
    Qmin (total_hours_worked s) (inject_Z (t_max_weekly_hours juancho)) /\
  gross_pay s =
    option_map (fun rate => billable_hours s * rate) (t_hourly_rate juancho).
Proof.
  apply (weekly_summary_billable_and_pay scenario_d_db 3%N 20101%Z juancho).
  reflexivity.
Defined.

(** Scenario D in figures: 20 hours worked, 16 billable, pay for 16. *)
Example scenario_d_figures :
  let s := calculate_weekly_summary scenario_d_db 3%N 20101%Z in
  total_hours_worked s == 20 /\ billable_hours s == 16 /\
  days_present s = 5%Z /\
  exists pay, gross_pay s = Some pay /\ pay == 16 * (15050 # 100).
Proof.
  vm_compute. repeat split. eexists. split; reflexivity.
Qed.

(** ** The OJT Progress Calculator *)

Section OjtFacts.

(** In a list whose keys are distinct, a predicate that holds of [a]
    and only of elements with the key of [a] selects exactly [a]. *)
Lemma filter_unique {A : Type} (key : A -> uuid) (f : A -> bool)
    (l : list A) (a : A) :
  NoDup (map key l) -> In a l -> f a = true ->
  (forall x, f x = true -> key x = key a) ->
  filter f l = [a].
Proof.
  intros Hnd Hin Hfa Hkey.
  induction l as [|x l IH]; [destruct Hin|].
  cbn [map] in Hnd. inversion Hnd as [|k ks Hnotin Hnd']; subst.
  assert (Hrest : forall y, In y l -> key y <> key x).
  { intros y Hy E. apply Hnotin. rewrite <- E. apply in_map, Hy. }
  cbn [filter]. destruct Hin as [E|Hin].
  - subst x. rewrite Hfa. f_equal.
    assert (Hnone : forall y, In y l -> f y = false).
    { intros y Hy. destruct (f y) eqn:Hfy; [|reflexivity].
      exfalso. apply (Hrest y Hy), Hkey, Hfy. }
    clear -Hnone. induction l as [|y l IH]; [reflexivity|].
    cbn [filter]. rewrite (Hnone y (or_introl eq_refl)).
    apply IH. intros z Hz. apply Hnone. right. exact Hz.
  - destruct (f x) eqn:Hfx.
    + exfalso. apply (Hrest a Hin). symmetry. apply Hkey, Hfx.
    + apply IH; assumption.
Qed.

Variable db : database.
Variables (t : trainee) (u : user).

(** The keys of the schema: [id] is the primary key of [trainees] and of
    [users], and [t.user_id] refers to the user [u]. *)
Hypothesis trainees_pkey : NoDup (map t_id (trainees db)).
Hypothesis users_pkey : NoDup (map u_id (users db)).
Hypothesis t_stored : In t (trainees db).
Hypothesis u_stored : In u (users db).
Hypothesis fk_trainees_user : t_user_id t = u_id u.

Hypothesis t_is_ojt : t_trainee_type t = ojt.
Hypothesis t_is_active : t_status t = Some active.

Lemma ojt_groups_single :
  ojt_groups db (Some (t_id t)) = [(t, u)].
Proof.
  unfold ojt_groups.
  rewrite (filter_unique t_id (ojt_selected (Some (t_id t))) _ t);
    try assumption.
  - cbn [flat_map]. rewrite app_nil_r.
    rewrite (filter_unique u_id (fun u0 => (t_user_id t =? u_id u0)%N) _ u);
      try assumption.
    + reflexivity.
    + apply N.eqb_eq, fk_trainees_user.
    + intros x Hx. apply N.eqb_eq in Hx. congruence.
  - unfold ojt_selected. rewrite t_is_ojt, t_is_active. apply N.eqb_refl.
  - intros x Hx. unfold ojt_selected in Hx.
    destruct (t_trainee_type x), (t_status x) as [[| |]|];
      try discriminate Hx.
    apply N.eqb_eq, Hx.
Qed.

(** The query for this one trainee evaluates the select list once. *)
Lemma get_ojt_progress_single :
  get_ojt_progress db (Some (t_id t)) =
  (row <- ojt_progress_row db t u ;; ok [row]).
Proof.
  unfold get_ojt_progress. rewrite ojt_groups_single.
  cbn [collect fst snd]. destruct (ojt_progress_row db t u); reflexivity.
Qed.

End OjtFacts.

(** C3. For an active ojt trainee whose [total_required_hours] is
    positive, the query returns one row: [hours_rendered] is the sum of
    [total_hours] over all the trainee's records, [remaining_hours] is
    required minus rendered with no clamping (negative once rendered
    exceeds required), and [completion_percentage] is
    [ROUND(rendered / required * 100, 2)].  For a rendered total in
    hundredths that is below 10000 times the requirement, this is the
    exact ratio times 100 rounded half-up to two decimals; it is 100
    exactly when rendered equals required. *)
Theorem ojt_progress_figures
    (db : database) (t : trainee) (u : user) (n : Z) :
  NoDup (map t_id (trainees db)) ->
  NoDup (map u_id (users db)) ->
  In t (trainees db) ->
  In u (users db) ->
  t_user_id t = u_id u ->
  t_trainee_type t = ojt ->
  t_status t = Some active ->
  t_total_required_hours t = Some n ->
  (0 < n < 2147483648)%Z ->
  exists row pct,
    get_ojt_progress db (Some (t_id t)) = ok [row] /\
    hours_rendered row == hours_sum (records_of db (t_id t)) /\
    remaining_hours row = Some (inject_Z n - hours_rendered row) /\
    (inject_Z n < hours_rendered row ->
     inject_Z n - hours_rendered row < 0) /\
    completion_percentage row = Some pct /\
    pct = round_numeric
            (quotient (hours_rendered row)
                      (sum_dscale (records_of db (t_id t)))
                      (inject_Z n) 0 * 100) 2 /\
    (whole_hundredths (hours_rendered row) ->
     0 <= hours_rendered row ->
     hours_rendered row < inject_Z (10000 * n) ->
     rounds_half_up 2 (hours_rendered row / inject_Z n * 100) pct) /\
    (hours_rendered row == inject_Z n -> pct == 100).
Proof.
  intros Hpk Hupk Ht Hu Hfk Hojt Hact Hreq Hn.
  assert (Hn0 : ~ inject_Z n == 0).
  { unfold Qeq; simpl. lia. }
  assert (Hnpos : 0 < inject_Z n).
  { unfold Qlt; simpl. lia. }
  do 2 eexists. split.
  - rewrite (get_ojt_progress_single db t u) by assumption.
    unfold ojt_progress_row, completion_expr, div. rewrite Hreq.
    destruct (Qeq_bool (inject_Z n) 0) eqn:Hz.
    + apply Qeq_bool_iff in Hz. contradiction.
    + cbn [bind ok]. reflexivity.
  - cbn [hours_rendered remaining_hours completion_percentage].
    fold (records_of db (t_id t)).
    split; [apply coalesce_sum_total_hours|].
    split; [reflexivity|].
    split; [intros Hover; lra|].
    split; [reflexivity|].
    split; [reflexivity|].
    set (rows := records_of db (t_id t)).
    set (hours := coalesce (sum_total_hours rows) 0).
    split.
    + intros [k Hk] Hpos Hlt.
      assert (Hk0 : (0 <= k)%Z).
      { rewrite Hk in Hpos. unfold Qle in Hpos; cbn [Qnum Qden] in Hpos. lia. }
      destruct (select_div_scale_ratio hours (sum_dscale rows) n 0 Hpos
                  ltac:(lia) Hlt) as [s Hs].
      unfold quotient. rewrite Hs.
      assert (Hr : inject_Z n = Zpos (Z.to_pos n) # 1).
      { unfold inject_Z. rewrite Z2Pos.id by lia. reflexivity. }
      assert (Ediv : hours / inject_Z n == k # (100 * Z.to_pos n)).
      { rewrite Hk, Hr. unfold Qeq, Qdiv, Qmult, Qinv; cbn [Qnum Qden]. lia. }
      rewrite (round_numeric_comp _ _ (16 + s) Ediv).
      rewrite requantize_percent; [|exact Hk0|rewrite Z2Pos.id; lia].
      apply (rounds_half_up_comp 2 (k # Z.to_pos n)).
      * rewrite Ediv. unfold Qeq, Qmult; cbn [Qnum Qden]. lia.
      * apply round_numeric_half_up. unfold Qle; cbn [Qnum Qden]. lia.
    + intros Heq. unfold quotient.
      assert (E1 : hours / inject_Z n == 1) by (rewrite Heq; field; exact Hn0).
      rewrite (round_numeric_comp _ _ _ E1).
      assert (E2 : round_numeric 1 (select_div_scale hours (sum_dscale rows)
                                      (inject_Z n) 0) * 100 == 100)
        by (rewrite round_numeric_one; reflexivity).
      rewrite (round_numeric_comp _ _ 2 E2). reflexivity.
Qed.

Ltac distinct_keys :=
  repeat (constructor; [cbn; intuition discriminate|]); constructor.

Lemma ojt_progress_figures_witness :
  exists row pct,
    get_ojt_progress (maria_db (Some 500%Z)) (Some 5%N) = ok [row] /\
    hours_rendered row == hours_sum (records_of (maria_db (Some 500%Z)) 5%N) /\
    remaining_hours row = Some (inject_Z 500 - hours_rendered row) /\
    (inject_Z 500 < hours_rendered row ->
     inject_Z 500 - hours_rendered row < 0) /\
    completion_percentage row = Some pct /\
    pct = round_numeric
            (quotient (hours_rendered row)
                      (sum_dscale (records_of (maria_db (Some 500%Z)) 5%N))
                      (inject_Z 500) 0 * 100) 2 /\
    (whole_hundredths (hours_rendered row) ->
     0 <= hours_rendered row ->
     hours_rendered row < inject_Z (10000 * 500) ->
     rounds_half_up 2 (hours_rendered row / inject_Z 500 * 100) pct) /\
    (hours_rendered row == inject_Z 500 -> pct == 100).
Proof.
  apply (ojt_progress_figures (maria_db (Some 500%Z)) (maria (Some 500%Z))
           maria_user 500%Z).
  - distinct_keys.
  - distinct_keys.
  - right. left. reflexivity.
  - right. left. reflexivity.
  - reflexivity.
  - reflexivity.
  - reflexivity.
  - reflexivity.
  - lia.
Defined.

(** Scenario E in figures: 125 rendered, 375 remaining, 25.00 percent. *)
Example scenario_e_figures :
  exists row rem pct,
    get_ojt_progress (maria_db (Some 500%Z)) (Some 5%N) = ok [row] /\
    hours_rendered row == 125 /\
    remaining_hours row = Some rem /\ rem == 375 /\
    completion_percentage row = Some pct /\ pct == 25.
Proof.
  do 3 eexists. split; [vm_compute; reflexivity|].
  cbn [hours_rendered remaining_hours completion_percentage].
  repeat split; reflexivity.
Qed.

(** C5, as stated, fails: for an active ojt trainee whose
    [total_required_hours] is missing the query does not fail; it returns
    a row with NULL [remaining_hours] and NULL [completion_percentage].
    With a negative requirement it returns a negative percentage. *)
Lemma missing_required_hours_not_rejected :
  t_total_required_hours (maria None) = None /\
  (exists row,
     get_ojt_progress (maria_db None) (Some 5%N) = ok [row] /\
     hours_rendered row == 125 /\
     remaining_hours row = None /\
     completion_percentage row = None) /\
  (exists row pct,
     get_ojt_progress (maria_db (Some (-500)%Z)) (Some 5%N) = ok [row] /\
     completion_percentage row = Some pct /\ pct == - 25).
Proof.
  split; [reflexivity|]. split.
  - eexists. split; [vm_compute; reflexivity|].
    cbn [hours_rendered remaining_hours completion_percentage].
    repeat split; reflexivity.
  - do 2 eexists. split; [vm_compute; reflexivity|].
    cbn [completion_percentage]. split; reflexivity.
Qed.

(** ** The schemas against the typed record *)

Section ValidationFacts.
Import Validations RecordRules.

Lemma digit_digit_char (d : Z) :
  (0 <= d <= 9)%Z -> digit (digit_char d) = Some d.
Proof.
  intros Hd.
  assert (H : (d = 0 \/ d = 1 \/ d = 2 \/ d = 3 \/ d = 4 \/ d = 5
               \/ d = 6 \/ d = 7 \/ d = 8 \/ d = 9)%Z) by lia.
  repeat (destruct H as [H|H]; [subst d; reflexivity|]).
  subst d; reflexivity.
Qed.

Lemma digits_two (n : Z) :
  (0 <= n <= 99)%Z ->
  digits 0 [digit_char (n / 10); digit_char (n mod 10)] = Some n.
Proof.
  intros Hn. cbn [digits].
  rewrite !digit_digit_char by (Z.div_mod_to_equations; lia).
  f_equal. Z.div_mod_to_equations; lia.
Qed.

Lemma digits_four (y : Z) :
  (0 <= y <= 9999)%Z ->
  digits 0 [digit_char (y / 100 / 10); digit_char ((y / 100) mod 10);
            digit_char (y mod 100 / 10); digit_char ((y mod 100) mod 10)]
  = Some y.
Proof.
  intros Hy. cbn [digits].
  rewrite !digit_digit_char by (Z.div_mod_to_equations; lia).
  f_equal. Z.div_mod_to_equations; lia.
Qed.

Lemma days_in_month_le_31 (y m : Z) : (days_in_month y m <= 31)%Z.
Proof.
  unfold days_in_month.
  destruct (m =? 2)%Z; [destruct (is_leap y); lia|].
  destruct (_ || _); lia.
Qed.

(** A date input's value is read as midnight UTC of that date. *)
Lemma new_Date_iso_date (e : env) (y m d : Z) :
  (0 <= y <= 9999)%Z -> (1 <= m <= 12)%Z ->
  (1 <= d <= days_in_month y m)%Z ->
  new_Date e (iso_date y m d) = Some (days_from_civil y m d * msPerDay)%Z.
Proof.
  intros Hy Hm Hd.
  pose proof (days_in_month_le_31 y m) as H31.
  unfold new_Date, iso_date, two_digits.
  cbn [list_ascii_of_string firstn skipn parse_ymd].
  change (is_char "-" 45) with true. cbn [andb].
  rewrite (digits_four y Hy), (digits_two m), (digits_two d) by lia.
  assert (Hc : ((1 <=? m) && (m <=? 12) && (1 <=? d)
                && (d <=? days_in_month y m))%Z = true).
  { rewrite !andb_true_iff, !Z.leb_le. lia. }
  rewrite Hc. reflexivity.
Qed.

Lemma clock_date_hhmm (e : env) (h m : Z) :
  (0 <= h <= 23)%Z -> (0 <= m <= 59)%Z ->
  clock_date e (Some (hhmm h m)) =
  Some (clock_base e + (h * 60 + m) * msPerMinute)%Z.
Proof.
  intros Hh Hm.
  unfold clock_date, new_Date, hhmm, two_digits.
  cbn [append list_ascii_of_string firstn skipn].
  change (parse_ymd _) with (Some 10957%Z).
  change (is_char "T" 84) with true. cbv iota.
  unfold parse_hms.
  change (is_char ":" 58) with true. cbn [andb].
  rewrite (digits_two h), (digits_two m) by lia.
  change (digits 0 ["0"%char; "0"%char]) with (Some 0%Z).
  assert (Hc : ((h <=? 23) && (m <=? 59) && (0 <=? 59)
                || (h =? 24) && (m =? 0) && (0 =? 0))%Z = true).
  { apply orb_true_iff. left. rewrite !andb_true_iff, !Z.leb_le. lia. }
  cbv iota beta. rewrite Hc. f_equal. unfold clock_base, msPerMinute. lia.
Qed.

Lemma truthy_encoded (s : opt_string) (x : option Z) :
  encodes_time s x ->
  truthy s = match x with Some _ => true | None => false end.
Proof.
  intros H; destruct H; reflexivity.
Qed.

(** An order test of the schema on two clock fields is the order test
    on their values. *)
Lemma clock_order_test (e : env) (s1 s2 : opt_string) (x1 x2 : option Z) :
  encodes_time s1 x1 -> encodes_time s2 x2 ->
  truthy s1 && truthy s2 && date_le (clock_date e s2) (clock_date e s1)
  = not_after x1 x2.
Proof.
  intros H1 H2.
  rewrite (truthy_encoded _ _ H1), (truthy_encoded _ _ H2).
  destruct H1 as [| |h1 m1 Hh1 Hm1]; try reflexivity;
    destruct H2 as [| |h2 m2 Hh2 Hm2]; try reflexivity.
  rewrite !clock_date_hhmm by assumption.
  cbn [andb date_le not_after]. unfold msPerMinute.
  destruct (Z.leb_spec (h2 * 60 + m2) (h1 * 60 + m1));
    [apply Z.leb_le|apply Z.leb_gt]; lia.
Qed.

Lemma complete_encoded (s1 s2 : opt_string) (x1 x2 : option Z) :
  encodes_time s1 x1 -> encodes_time s2 x2 ->
  (negb (truthy s1) || negb (truthy s2)) = negb (complete x1 x2).
Proof.
  intros H1 H2.
  rewrite (truthy_encoded _ _ H1), (truthy_encoded _ _ H2).
  destruct x1, x2; reflexivity.
Qed.

(** The date test of the schema, in day numbers: midnight UTC of the
    record's date against the last local midnight. *)
Lemma future_test (e : env) (s : string) (day : Z) :
  encodes_date s day ->
  date_gt (new_Date e s) (today_midnight e)
  = (local_today e * msPerDay - tz_offset e * msPerMinute
     <? day * msPerDay)%Z.
Proof.
  intros H. destruct H as [y m d Hy Hm Hd].
  rewrite new_Date_iso_date by assumption. reflexivity.
Qed.

(** West of Greenwich and on it, the date test compares calendar
    dates. *)
Lemma future_test_west (e : env) (s : string) (day : Z) :
  encodes_date s day -> (-720 <= tz_offset e <= 0)%Z ->
  date_gt (new_Date e s) (today_midnight e) = (local_today e <? day)%Z.
Proof.
  intros H Htz. rewrite (future_test e s day H).
  unfold msPerDay, msPerMinute.
  destruct (Z.ltb_spec (local_today e) day);
    [apply Z.ltb_lt|apply Z.ltb_ge]; lia.
Qed.

(** East of Greenwich, the date test also fires on today's date. *)
Lemma future_test_east (e : env) (s : string) (day : Z) :
  encodes_date s day -> (0 < tz_offset e <= 840)%Z ->
  date_gt (new_Date e s) (today_midnight e) = (local_today e <=? day)%Z.
Proof.
  intros H Htz. rewrite (future_test e s day H).
  unfold msPerDay, msPerMinute.
  destruct (Z.leb_spec (local_today e) day);
    [apply Z.ltb_lt|apply Z.ltb_ge]; lia.
Qed.

(** The four session rules are reported one issue per violated rule, in
    one pass; the date test follows. *)
Lemma time_record_refine_rules (e : env) (data : time_record_data)
    (c : candidate) (today : Z) :
  encodes data c ->
  time_record_refine e data =
  map issue_of (filter (violated today c) session_rules)
  ++ add_if (date_gt (new_Date e (date data)) (today_midnight e))
            future_date_issue.
Proof.
  intros (Hai & Hao & Hpi & Hpo & Hst & Hd).
  unfold time_record_refine.
  rewrite (clock_order_test e _ _ _ _ Hai Hao).
  rewrite (clock_order_test e _ _ _ _ Hpi Hpo).
  rewrite (clock_order_test e _ _ _ _ Hao Hpi).
  rewrite (complete_encoded _ _ _ _ Hai Hao).
  rewrite (complete_encoded _ _ _ _ Hpi Hpo).
  rewrite Hst.
  unfold session_rules. cbn [filter violated].
  rewrite <- andb_assoc, <- negb_orb.
  destruct (not_after (c_am_in c) (c_am_out c)),
           (not_after (c_pm_in c) (c_pm_out c)),
           (not_after (c_am_out c) (c_pm_in c)),
           (is_present (c_status c)
            && negb (complete (c_am_in c) (c_am_out c)
                     || complete (c_pm_in c) (c_pm_out c)));
    reflexivity.
Qed.

(** With a local zone at or west of UTC, the refinement returns exactly
    the violated rules, and nothing when none is violated. *)
Lemma time_record_refine_west (e : env) (data : time_record_data)
    (c : candidate) :
  encodes data c -> (-720 <= tz_offset e <= 0)%Z ->
  time_record_refine e data =
  map issue_of (violated_rules (local_today e) c).
Proof.
  intros Henc Htz.
  rewrite (time_record_refine_rules e data c (local_today e) Henc).
  destruct Henc as (_ & _ & _ & _ & _ & Hd).
  rewrite (future_test_west e _ _ Hd Htz).
  unfold violated_rules, all_rules.
  rewrite filter_app, map_app. f_equal.
  cbn [filter violated]. destruct (local_today e <? c_date c)%Z; reflexivity.
Qed.

End ValidationFacts.

(** ** The trainee form *)

Section TraineeFacts.
Import Validations RecordRules.

Lemma add_if_nil (b : bool) (i : issue) : add_if b i = [] <-> b = false.
Proof.
  destruct b; cbn [add_if]; split; intros H;
    first [reflexivity | discriminate H].
Qed.

Lemma app_nil_iff {A : Type} (l1 l2 : list A) :
  l1 ++ l2 = [] <-> l1 = [] /\ l2 = [].
Proof.
  split; [apply app_eq_nil|]. intros [-> ->]. reflexivity.
Qed.

Lemma rate_min_nil (r : Q) (msg field : string) :
  number_min (Some r) 0 msg field = [] <-> 0 <= r.
Proof.
  cbn [number_min]. rewrite add_if_nil, negb_false_iff.
  apply Qle_bool_iff.
Qed.

Lemma rate_truthy (r : Q) : truthy_number (Some r) = true <-> ~ r == 0.
Proof.
  cbn [truthy_number]. rewrite negb_true_iff.
  destruct (Qeq_bool r 0) eqn:Hz.
  - apply Qeq_bool_iff in Hz. split; [discriminate|contradiction].
  - split; [|reflexivity]. intros _ E.
    apply Qeq_bool_iff in E. congruence.
Qed.

(** For a paid intern whose other fields pass, the schema accepts the
    form exactly when the hourly rate is present and strictly
    positive. *)
Lemma paid_intern_accepted_iff (e : env) (data : trainee_data)
    (x : option number) :
  trainee_type_ data = paid_intern ->
  traineeSchema e (with_hourly_rate data (Some 1)) = [] ->
  (traineeSchema e (with_hourly_rate data x) = [] <->
   exists r, x = Some r /\ 0 < r).
Proof.
  intros Hty Hother.
  unfold traineeSchema, trainee_object_issues, trainee_refine in *.
  cbn [user_id company_id hourly_rate max_weekly_hours total_required_hours
       start_date end_date trainee_type_ with_hourly_rate] in *.
  rewrite Hty in *. cbn [is_paid_intern is_ojt andb] in *.
  rewrite !app_nil_iff in Hother. rewrite !app_nil_iff.
  destruct Hother as ((Hu & Hc & _ & Hw & Ht & Hs) & _ & Ho & Hd).
  destruct x as [r|].
  - rewrite rate_min_nil, add_if_nil, negb_false_iff, rate_truthy.
    split.
    + intros ((_ & _ & Hmin & _) & Hreq & _).
      exists r. split; [reflexivity|].
      destruct (Qlt_le_dec 0 r) as [L|L]; [exact L|].
      exfalso. apply Hreq. lra.
    + intros (r' & E & Hpos). injection E as <-.
      repeat split; try assumption; lra.
  - split.
    + intros (_ & Hreq & _). discriminate Hreq.
    + intros (r & E & _). discriminate E.
Qed.

End TraineeFacts.

(** ** The schemas on concrete forms *)

Lemma scenario_a_today_encoded :
  RecordRules.encodes scenario_a_today scenario_a_candidate.
Proof.
  unfold RecordRules.encodes. cbn.
  split; [exact (RecordRules.enc_clock 8 0 ltac:(lia) ltac:(lia))|].
  split; [exact (RecordRules.enc_clock 12 0 ltac:(lia) ltac:(lia))|].
  split; [exact (RecordRules.enc_clock 13 0 ltac:(lia) ltac:(lia))|].
  split; [exact (RecordRules.enc_clock 17 0 ltac:(lia) ltac:(lia))|].
  split; [reflexivity|].
  apply (RecordRules.enc_date 2025 1 15); vm_compute; split; discriminate.
Qed.

(** C7 at a failing input. In Manila a record dated today that violates
    none of the five rules is returned with one issue, the future-date
    one: the returned set is not the set of violated rules. *)
Theorem valid_record_of_today_gets_issue :
  RecordRules.encodes scenario_a_today scenario_a_candidate /\
  RecordRules.c_date scenario_a_candidate
  = RecordRules.local_today manila_evening /\
  RecordRules.violated_rules (RecordRules.local_today manila_evening)
                             scenario_a_candidate = [] /\
  Validations.timeRecordSchema manila_evening scenario_a_today
  = [Validations.future_date_issue].
Proof.
  split; [exact scenario_a_today_encoded|].
  split; [reflexivity|]. split; reflexivity.
Qed.

(** C8 at a failing input. At 18:00 on 2025-01-15 in Manila the business
    today is 2025-01-15, and a record dated 2025-01-15 is reported with
    'Cannot enter future dates': its date is read as midnight UTC, which is
    08:00 local time and so after the local midnight it is compared
    with. *)
Theorem record_of_today_reported_future :
  RecordRules.local_today manila_evening
  = Validations.days_from_civil 2025 1 15 /\
  Validations.date scenario_a_today = RecordRules.iso_date 2025 1 15 /\
  Validations.new_Date manila_evening (Validations.date scenario_a_today)
  = Some 1736899200000%Z /\
  Validations.today_midnight manila_evening = Some 1736870400000%Z /\
  In Validations.future_date_issue
     (Validations.time_record_refine manila_evening scenario_a_today).
Proof.
  repeat split; try reflexivity.
  left. reflexivity.
Qed.

(** C9 at a failing input. A paid intern with an hourly rate of 0 and
    every other field valid passes the object schema, whose
    [hourly_rate] is [min(0)], and is then refused by the refinement
    with 'Hourly rate is required for paid interns'. *)
Theorem zero_hourly_rate_rejected :
  Validations.trainee_object_issues zero_rate_intern = [] /\
  Validations.traineeSchema manila_evening
    (RecordRules.with_hourly_rate zero_rate_intern (Some 1)) = [] /\
  Validations.traineeSchema manila_evening zero_rate_intern
  = [Validations.hourly_rate_required].
Proof.
  repeat split; reflexivity.
Qed.

(** * Further properties of the code *)

(** ** Stored rows and the key constraints *)

Section StoredRows.
Import Tables.

Lemma store_ok_checks (r : time_record_input) (row : time_record) :
  valid_times r -> store_time_record r = ok row ->
  chk_times (in_am_time_in r) (in_am_time_out r) = true /\
  chk_times (in_pm_time_in r) (in_pm_time_out r) = true /\
  row = make_row r (round_numeric (am_hours_expr r) 2)
                   (round_numeric (pm_hours_expr r) 2)
                   (round_numeric (total_hours_expr r) 2).
Proof.
  intros Hv Hs. rewrite (store_time_record_checks r Hv) in Hs.
  destruct (chk_times (in_am_time_in r) (in_am_time_out r));
    [|discriminate Hs].
  destruct (chk_times (in_pm_time_in r) (in_pm_time_out r));
    [|discriminate Hs].
  cbn in Hs. injection Hs as <-. repeat split.
Qed.

Lemma raw_session_hours_bound (ti to : option time) :
  opt_valid_time ti -> opt_valid_time to ->
  raw_session_hours ti to <= 24.
Proof.
  destruct ti as [i|], to as [o|];
    cbn [raw_session_hours opt_valid_time]; intros Hi Ho;
    try (unfold Qle; simpl; lia).
  rewrite duration_hours_frac. unfold valid_time in *.
  unfold Qle; cbn [Qnum Qden]. lia.
Qed.

(** A number of hundredths below [b + 0.01] is at most [b]. *)
Lemma hundredths_le (y : Q) (b : Z) :
  whole_hundredths y -> y < inject_Z b + (1 # 100) -> y <= inject_Z b.
Proof.
  intros [k Hk] Hlt. rewrite Hk in *.
  unfold Qlt, Qle, Qplus, inject_Z in *; cbn [Qnum Qden] in *. lia.
Qed.

Lemma rounded_whole_hundredths (x y : Q) :
  rounds_half_up 2 x y -> whole_hundredths y.
Proof. intros [Hk _]. exact Hk. Qed.

Lemma session_column_bounds (ti to : option time) :
  opt_valid_time ti -> opt_valid_time to -> chk_times ti to = true ->
  0 <= round_numeric (session_hours_expr ti to) 2 <= 24.
Proof.
  intros Hi Ho Hc.
  pose proof (session_hours_expr_nonneg _ _ Hc) as Hn.
  split; [apply round_numeric_nonneg_ge0, Hn|].
  pose proof (round_numeric_half_up _ 2 Hn) as Hr.
  pose proof (session_hours_expr_close _ _ Hi Ho Hc) as Hcl.
  apply Qabs_Qle_condition in Hcl.
  pose proof (raw_session_hours_bound _ _ Hi Ho) as Hb.
  apply (hundredths_le _ 24); [exact (rounded_whole_hundredths _ _ Hr)|].
  destruct Hr as [_ [Lo _]].
  change (2 * pow10 2)%positive with 200%positive in Lo.
  change (inject_Z 24) with 24. lra.
Qed.

End StoredRows.

Lemma total_column_bounds (r : time_record_input) :
  valid_times r ->
  chk_times (in_am_time_in r) (in_am_time_out r) = true ->
  chk_times (in_pm_time_in r) (in_pm_time_out r) = true ->
  0 <= round_numeric (total_hours_expr r) 2 <= 48.
Proof.
  intros (Vai & Vao & Vpi & Vpo) Ha Hp.
  assert (Na : 0 <= am_hours_expr r)
    by apply (session_hours_expr_nonneg _ _ Ha).
  assert (Np : 0 <= pm_hours_expr r)
    by apply (session_hours_expr_nonneg _ _ Hp).
  assert (Nt : 0 <= total_hours_expr r) by (unfold total_hours_expr; lra).
  split; [apply round_numeric_nonneg_ge0, Nt|].
  pose proof (round_numeric_half_up _ 2 Nt) as Hr.
  pose proof (session_hours_expr_close _ _ Vai Vao Ha) as Ca.
  pose proof (session_hours_expr_close _ _ Vpi Vpo Hp) as Cp.
  apply Qabs_Qle_condition in Ca. apply Qabs_Qle_condition in Cp.
  pose proof (raw_session_hours_bound _ _ Vai Vao) as Ba.
  pose proof (raw_session_hours_bound _ _ Vpi Vpo) as Bp.
  apply (hundredths_le _ 48); [exact (rounded_whole_hundredths _ _ Hr)|].
  destruct Hr as [_ [Lo _]].
  change (2 * pow10 2)%positive with 200%positive in Lo.
  change (inject_Z 48) with 48.
  unfold total_hours_expr, am_hours_expr, pm_hours_expr in *. lra.
Qed.

(** The [total_hours] of a stored row lies between 0 and 48. *)
Lemma row_stored_total (tr : time_record) :
  Tables.row_stored tr -> 0 <= total_hours tr <= 48.
Proof.
  intros (r & Hv & Hs).
  destruct (store_ok_checks r tr Hv Hs) as (Ha & Hp & ->).
  cbn [total_hours make_row]. apply total_column_bounds; assumption.
Qed.

(** X1. Whatever row the table stores for time fields of type [TIME], its
    [am_hours] and [pm_hours] lie between 0 and 24 and its [total_hours]
    between 0 and 48: no stored figure is negative, and none overflows its
    [DECIMAL(4,2)] column. *)
Theorem stored_hours_bounds (r : time_record_input) (row : time_record) :
  valid_times r ->
  store_time_record r = ok row ->
  0 <= am_hours row <= 24 /\
  0 <= pm_hours row <= 24 /\
  0 <= total_hours row <= 48.
Proof.
  intros Hv Hs.
  destruct (store_ok_checks r row Hv Hs) as (Ha & Hp & ->).
  cbn [am_hours pm_hours total_hours make_row].
  split; [apply session_column_bounds; solve [assumption | apply Hv]|].
  split; [apply session_column_bounds; solve [assumption | apply Hv]|].
  apply total_column_bounds; assumption.
Qed.

Lemma stored_hours_bounds_witness :
  exists row,
    store_time_record scenario_a_record = ok row /\
    0 <= am_hours row <= 24 /\
    0 <= pm_hours row <= 24 /\
    0 <= total_hours row <= 48.
Proof.
  eexists. split; [vm_compute; reflexivity|].
  apply (stored_hours_bounds scenario_a_record).
  - concrete_times.
  - vm_compute. reflexivity.
Defined.

(** X2. For time fields of type [TIME] the outcome of storing a row is
    decided by the two CHECK constraints alone: the row is stored exactly
    when each session that has both endpoints ends after it starts.
    Nothing else is tested; a PM session that starts before the AM
    session ends does not stop the row. *)
Theorem store_succeeds_iff_checks (r : time_record_input) :
  valid_times r ->
  ((exists row, store_time_record r = ok row) <->
   chk_times (in_am_time_in r) (in_am_time_out r) = true /\
   chk_times (in_pm_time_in r) (in_pm_time_out r) = true).
Proof.
  intros Hv. split.
  - intros [row Hs]. destruct (store_ok_checks r row Hv Hs) as (Ha & Hp & _).
    split; assumption.
  - intros [Ha Hp]. eexists. apply store_time_record_ok; assumption.
Qed.

Lemma store_succeeds_iff_checks_witness :
  (exists row, store_time_record scenario_a_record = ok row) <->
  chk_times (in_am_time_in scenario_a_record)
            (in_am_time_out scenario_a_record) = true /\
  chk_times (in_pm_time_in scenario_a_record)
            (in_pm_time_out scenario_a_record) = true.
Proof.
  apply (store_succeeds_iff_checks scenario_a_record). concrete_times.
Defined.

Section InsertFacts.
Import Tables.

Lemma same_key_spec (row tr : time_record) :
  same_key row tr = true <-> row_key tr = row_key row.
Proof.
  unfold same_key, row_key. rewrite andb_true_iff, N.eqb_eq, Z.eqb_eq.
  split; [intros [-> ->]; reflexivity|].
  intros E. injection E as E1 E2. split; assumption.
Qed.

Lemma no_same_key (row : time_record) (l : list time_record) :
  existsb (same_key row) l = false -> ~ In (row_key row) (map row_key l).
Proof.
  intros Hex Hin. apply in_map_iff in Hin. destruct Hin as (tr & Hk & Hin).
  assert (Ht : existsb (same_key row) l = true).
  { apply existsb_exists. exists tr. split; [exact Hin|].
    apply same_key_spec, Hk. }
  congruence.
Qed.

(** A successful INSERT, taken apart. *)
Lemma insert_ok_inv (db db' : database) (r : time_record_input) :
  insert_time_record db r = inr db' ->
  exists row,
    store_time_record r = ok row /\
    existsb (same_key row) (time_records db) = false /\
    references_trainee db row = true /\
    users db' = users db /\ trainees db' = trainees db /\
    time_records db' = time_records db ++ [row].
Proof.
  unfold insert_time_record. intros H.
  destruct (store_time_record r) as [e|row]; [discriminate H|].
  destruct (existsb (same_key row) (time_records db)) eqn:Hu;
    [discriminate H|].
  destruct (references_trainee db row) eqn:Hf; [|discriminate H].
  injection H as <-. exists row. repeat split; assumption.
Qed.

Lemma hours_sum_app (l1 l2 : list time_record) :
  hours_sum (l1 ++ l2) == hours_sum l1 + hours_sum l2.
Proof.
  unfold hours_sum. induction l1 as [|x l IH]; cbn [app map fold_right].
  - lra.
  - rewrite IH. lra.
Qed.

End InsertFacts.

(** X3. A successful INSERT into [time_records] keeps what the key
    constraints stand for: afterwards there is still at most one row per
    trainee and date, every row belongs to a known trainee, and every
    row, the new one included, was built from time fields that pass the
    CHECK constraints.  The new row is appended and no other table
    changes. *)
Theorem insert_keeps_table_invariants
    (db db' : database) (r : time_record_input) :
  valid_times r ->
  Tables.unique_keys db ->
  Tables.rows_reference_trainees db ->
  Tables.rows_stored db ->
  Tables.insert_time_record db r = inr db' ->
  Tables.unique_keys db' /\
  Tables.rows_reference_trainees db' /\
  Tables.rows_stored db' /\
  users db' = users db /\ trainees db' = trainees db /\
  exists row,
    store_time_record r = ok row /\
    time_records db' = time_records db ++ [row].
Proof.
  intros Hv Hu Hf Hs Hins.
  destruct (insert_ok_inv db db' r Hins)
    as (row & Hrow & Hnew & Href & Eu & Et & Er).
  unfold Tables.unique_keys, Tables.rows_reference_trainees,
    Tables.rows_stored in *.
  rewrite Er. repeat split.
  - rewrite map_app. apply NoDup_app; [exact Hu| |].
    + repeat constructor. intros [].
    + intros k Hk [E|[]]. subst k. exact (no_same_key row _ Hnew Hk).
  - apply Forall_app. split.
    + eapply Forall_impl; [|exact Hf]. intros tr Htr.
      unfold Tables.references_trainee in *. rewrite Et. exact Htr.
    + constructor; [|constructor].
      unfold Tables.references_trainee in *. rewrite Et. exact Href.
  - apply Forall_app. split; [exact Hs|].
    constructor; [|constructor]. exists r. split; assumption.
  - exact Eu.
  - exact Et.
  - exists row. split; [exact Hrow|reflexivity].
Qed.

(** X4. Once a record is stored for a trainee and a date, a second INSERT
    for the same trainee and date is refused with the violation of
    [unique_trainee_date], whatever times it carries, provided its own
    row passes the CHECK constraints. *)
Theorem second_record_of_a_day_refused
    (db db' : database) (r r' : time_record_input) :
  Tables.insert_time_record db r = inr db' ->
  in_trainee_id r' = in_trainee_id r ->
  in_date r' = in_date r ->
  valid_times r' ->
  chk_times (in_am_time_in r') (in_am_time_out r') = true ->
  chk_times (in_pm_time_in r') (in_pm_time_out r') = true ->
  Tables.insert_time_record db' r'
  = inl (Tables.key_violation Tables.unique_trainee_date).
Proof.
  intros Hins Eid Edate Hv Ha Hp.
  destruct (insert_ok_inv db db' r Hins)
    as (row & Hrow & _ & _ & _ & _ & Er).
  unfold Tables.insert_time_record.
  rewrite (store_time_record_ok r' Hv Ha Hp).
  assert (Hk : trainee_id row = in_trainee_id r /\ date row = in_date r).
  { unfold store_time_record in Hrow.
    destruct (to_decimal 4 2 (am_hours_expr r)); [discriminate Hrow|].
    destruct (to_decimal 4 2 (pm_hours_expr r)); [discriminate Hrow|].
    destruct (to_decimal 4 2 (total_hours_expr r)); [discriminate Hrow|].
    cbn [bind] in Hrow.
    destruct (check chk_am_times _); [discriminate Hrow|].
    destruct (check chk_pm_times _); [discriminate Hrow|].
    cbn [bind] in Hrow. injection Hrow as <-. split; reflexivity. }
  destruct Hk as [Kt Kd].
  unfold ok. cbv beta iota.
  set (row' := make_row r' _ _ _).
  assert (Hex : existsb (Tables.same_key row') (time_records db') = true).
  { apply existsb_exists. exists row. split.
    - rewrite Er. apply in_or_app. right. left. reflexivity.
    - unfold Tables.same_key, row'. cbn [trainee_id date make_row].
      rewrite Kt, Kd, Eid, Edate, N.eqb_refl, Z.eqb_refl. reflexivity. }
  rewrite Hex. reflexivity.
Qed.

Section InsertWitnesses.
Import Tables.

(** Rows left by INSERTs of valid time fields are stored rows. *)
Lemma stored_rows_stored (inputs : list time_record_input) :
  Forall valid_times inputs -> Forall row_stored (stored_rows inputs).
Proof.
  unfold stored_rows. induction 1 as [|r l Hr Hl IH]; cbn [flat_map].
  - constructor.
  - apply Forall_app. split; [|exact IH].
    destruct (store_time_record r) as [e|row] eqn:Hs; constructor;
      [|constructor].
    exists r. split; assumption.
Qed.

Lemma scenario_d_rows_stored : rows_stored scenario_d_db.
Proof.
  apply stored_rows_stored. repeat (constructor; [concrete_times|]).
  constructor.
Defined.

Lemma scenario_d_unique_keys : unique_keys scenario_d_db.
Proof.
  unfold unique_keys. vm_compute. distinct_keys.
Defined.

Lemma references_checked (db : database) :
  forallb (references_trainee db) (time_records db) = true ->
  rows_reference_trainees db.
Proof.
  intros H. apply Forall_forall. intros tr Htr.
  rewrite forallb_forall in H. apply H, Htr.
Defined.

Lemma scenario_d_references : rows_reference_trainees scenario_d_db.
Proof.
  apply references_checked. vm_compute. reflexivity.
Defined.

End InsertWitnesses.

Lemma insert_keeps_table_invariants_witness :
  exists db',
    Tables.insert_time_record scenario_d_db (morning 3%N 20106%Z) = inr db' /\
    Tables.unique_keys db' /\
    Tables.rows_reference_trainees db' /\
    Tables.rows_stored db' /\
    users db' = users scenario_d_db /\ trainees db' = trainees scenario_d_db /\
    exists row,
      store_time_record (morning 3%N 20106%Z) = ok row /\
      time_records db' = time_records scenario_d_db ++ [row].
Proof.
  eexists. split; [vm_compute; reflexivity|].
  apply (insert_keeps_table_invariants scenario_d_db _ (morning 3%N 20106%Z)).
  - concrete_times.
  - exact scenario_d_unique_keys.
  - exact scenario_d_references.
  - exact scenario_d_rows_stored.
  - vm_compute. reflexivity.
Defined.

Lemma second_record_of_a_day_refused_witness :
  exists db',
    Tables.insert_time_record scenario_d_db (morning 3%N 20106%Z) = inr db' /\
    Tables.insert_time_record db' (full_day 3%N 20106%Z)
    = inl (Tables.key_violation Tables.unique_trainee_date).
Proof.
  eexists. split; [vm_compute; reflexivity|].
  apply (second_record_of_a_day_refused scenario_d_db _
           (morning 3%N 20106%Z) (full_day 3%N 20106%Z)).
  - vm_compute. reflexivity.
  - reflexivity.
  - reflexivity.
  - concrete_times.
  - reflexivity.
  - reflexivity.
Defined.

(** ** More on the weekly summary *)

Section WeeklyMore.
Import Tables.

Lemma stored_row_key (r : time_record_input) (row : time_record) :
  store_time_record r = ok row ->
  trainee_id row = in_trainee_id r /\ date row = in_date r.
Proof.
  unfold store_time_record. intros Hrow.
  destruct (to_decimal 4 2 (am_hours_expr r)); [discriminate Hrow|].
  destruct (to_decimal 4 2 (pm_hours_expr r)); [discriminate Hrow|].
  destruct (to_decimal 4 2 (total_hours_expr r)); [discriminate Hrow|].
  cbn [bind] in Hrow.
  destruct (check chk_am_times _); [discriminate Hrow|].
  destruct (check chk_pm_times _); [discriminate Hrow|].
  cbn [bind] in Hrow. injection Hrow as <-. split; reflexivity.
Qed.

Lemma days_present_le_rows (db : database) (p : uuid) (w : sql_date) :
  (0 <= days_present (calculate_weekly_summary db p w)
   <= Z.of_nat (List.length (week_records db p w)))%Z.
Proof.
  unfold calculate_weekly_summary. cbn [days_present].
  rewrite in_week_filter. split; [lia|].
  apply Nat2Z.inj_le.
  induction (week_records db p w) as [|tr l IH]; cbn [filter List.length];
    [lia|].
  destruct (counts_as_present (status tr)); cbn [List.length]; lia.
Qed.

Lemma week_dates_spec (w d : sql_date) :
  (w <= d <= w + 6)%Z -> In d (week_dates w).
Proof.
  intros Hd. unfold week_dates. apply in_map_iff.
  exists (Z.to_nat (d - w)). split; [lia|].
  apply in_seq. lia.
Qed.

(** Rows with distinct keys that belong to one trainee have distinct
    dates. *)
Lemma dates_distinct (p : uuid) (l : list time_record) :
  NoDup (map row_key l) -> Forall (fun tr => trainee_id tr = p) l ->
  NoDup (map date l).
Proof.
  induction l as [|tr l IH]; cbn [map]; intros Hnd Hp; [constructor|].
  inversion Hnd as [|k ks Hnotin Hnd']; subst.
  inversion Hp as [|x xs Hx Hxs]; subst.
  constructor; [|apply IH; assumption].
  intros Hin. apply Hnotin. apply in_map_iff in Hin.
  destruct Hin as (tr' & Ed & Hin'). apply in_map_iff.
  exists tr'. split; [|exact Hin'].
  unfold row_key. rewrite Ed.
  rewrite Forall_forall in Hxs. rewrite (Hxs tr' Hin'). reflexivity.
Qed.

Lemma NoDup_map_filter {A B : Type} (f : A -> B) (g : A -> bool)
    (l : list A) :
  NoDup (map f l) -> NoDup (map f (filter g l)).
Proof.
  induction l as [|a l IH]; cbn [map filter]; intros Hnd; [constructor|].
  inversion Hnd as [|k ks Hnotin Hnd']; subst.
  destruct (g a); [|apply IH, Hnd'].
  cbn [map]. constructor; [|apply IH, Hnd'].
  intros Hin. apply Hnotin. apply in_map_iff in Hin.
  destruct Hin as (x & E & Hx). apply filter_In in Hx.
  apply in_map_iff. exists x. split; [exact E|apply Hx].
Qed.

Lemma week_records_at_most_seven (db : database) (p : uuid) (w : sql_date) :
  unique_keys db -> (List.length (week_records db p w) <= 7)%nat.
Proof.
  intros Hu.
  assert (Hnd : NoDup (map date (week_records db p w))).
  { apply (dates_distinct p).
    - unfold week_records, records_of.
      apply NoDup_map_filter, NoDup_map_filter, Hu.
    - apply Forall_forall. intros tr Htr.
      apply week_records_spec in Htr. apply Htr. }
  assert (Hincl : incl (map date (week_records db p w)) (week_dates w)).
  { intros d Hd. apply in_map_iff in Hd. destruct Hd as (tr & <- & Htr).
    apply week_records_spec in Htr. apply week_dates_spec, Htr. }
  pose proof (NoDup_incl_length Hnd Hincl) as Hlen.
  rewrite length_map in Hlen. exact Hlen.
Qed.

End WeeklyMore.

(** X5. Inserting a record changes the weekly summary of a trainee and
    week only if the record is of that trainee and dated in that week;
    then the week's [total_hours_worked] grows by exactly the record's
    [total_hours].  Every other summary is unchanged. *)
Theorem weekly_summary_after_insert
    (db db' : database) (r : time_record_input) (p : uuid) (w : sql_date) :
  Tables.insert_time_record db r = inr db' ->
  exists row,
    store_time_record r = ok row /\
    if ((in_trainee_id r =? p)%N
        && ((w <=? in_date r)%Z && (in_date r <=? w + 6)%Z))
    then total_hours_worked (calculate_weekly_summary db' p w)
         == total_hours_worked (calculate_weekly_summary db p w)
            + total_hours row
    else calculate_weekly_summary db' p w = calculate_weekly_summary db p w.
Proof.
  intros Hins.
  destruct (insert_ok_inv db db' r Hins)
    as (row & Hrow & _ & _ & _ & Et & Er).
  exists row. split; [exact Hrow|].
  destruct (stored_row_key r row Hrow) as [Kt Kd].
  unfold calculate_weekly_summary. rewrite Et, Er, filter_app.
  cbn [filter].
  assert (Ew : in_week p w row
               = ((in_trainee_id r =? p)%N
                  && ((w <=? in_date r)%Z && (in_date r <=? w + 6)%Z))).
  { unfold in_week. rewrite Kt, Kd. reflexivity. }
  rewrite Ew.
  destruct ((in_trainee_id r =? p)%N
            && ((w <=? in_date r)%Z && (in_date r <=? w + 6)%Z)).
  - cbn [total_hours_worked].
    rewrite !coalesce_sum_total_hours, hours_sum_app.
    unfold hours_sum at 2. cbn [map fold_right]. lra.
  - rewrite app_nil_r. reflexivity.
Qed.

Lemma weekly_summary_after_insert_witness :
  exists db',
    Tables.insert_time_record scenario_d_db (morning 3%N 20106%Z) = inr db' /\
    exists row,
      store_time_record (morning 3%N 20106%Z) = ok row /\
      if ((in_trainee_id (morning 3%N 20106%Z) =? 3)%N
          && ((20101 <=? in_date (morning 3%N 20106%Z))%Z
              && (in_date (morning 3%N 20106%Z) <=? 20101 + 6)%Z))
      then total_hours_worked (calculate_weekly_summary db' 3%N 20101%Z)
           == total_hours_worked
                (calculate_weekly_summary scenario_d_db 3%N 20101%Z)
              + total_hours row
      else calculate_weekly_summary db' 3%N 20101%Z
           = calculate_weekly_summary scenario_d_db 3%N 20101%Z.
Proof.
  eexists. split; [vm_compute; reflexivity|].
  apply (weekly_summary_after_insert scenario_d_db _
           (morning 3%N 20106%Z) 3%N 20101%Z).
  vm_compute. reflexivity.
Defined.

Section WeeklyBounds.
Import Tables.

Lemma week_records_stored (db : database) (p : uuid) (w : sql_date) :
  rows_stored db -> Forall row_stored (week_records db p w).
Proof.
  intros Hs. apply Forall_forall. intros tr Htr.
  apply week_records_spec in Htr. unfold rows_stored in Hs.
  rewrite Forall_forall in Hs. apply Hs, Htr.
Qed.

Lemma hours_sum_bounds (l : list time_record) :
  Forall row_stored l ->
  0 <= hours_sum l <= 48 * inject_Z (Z.of_nat (List.length l)).
Proof.
  unfold hours_sum.
  induction 1 as [|tr l Htr Hl IH]; cbn [map fold_right List.length].
  - change (inject_Z (Z.of_nat 0)) with 0. lra.
  - pose proof (row_stored_total tr Htr) as Hb.
    rewrite Nat2Z.inj_succ. unfold Z.succ. rewrite inject_Z_plus.
    change (inject_Z 1) with 1. lra.
Qed.

Lemma total_hours_worked_sum (db : database) (p : uuid) (w : sql_date) :
  total_hours_worked (calculate_weekly_summary db p w)
  == hours_sum (week_records db p w).
Proof.
  unfold calculate_weekly_summary. cbn [total_hours_worked].
  rewrite coalesce_sum_total_hours, in_week_filter. reflexivity.
Qed.

Lemma least_ge (x y b : Q) : b <= x -> b <= y -> b <= least x y.
Proof.
  intros Hx Hy. unfold least. destruct (Qle_bool x y); assumption.
Qed.

Lemma least_le_r (x y : Q) : least x y <= y.
Proof.
  rewrite least_Qmin. apply Q.le_min_r.
Qed.

End WeeklyBounds.

(** X6. When no two rows of [time_records] share a trainee and a date (the
    UNIQUE constraint), a weekly summary counts at most seven days
    present. *)
Theorem days_present_at_most_seven
    (db : database) (p : uuid) (w : sql_date) :
  Tables.unique_keys db ->
  (0 <= days_present (calculate_weekly_summary db p w) <= 7)%Z.
Proof.
  intros Hu.
  pose proof (days_present_le_rows db p w) as [H0 Hle].
  pose proof (week_records_at_most_seven db p w Hu) as H7.
  split; [exact H0|]. lia.
Qed.

Lemma days_present_at_most_seven_witness :
  (0 <= days_present (calculate_weekly_summary scenario_d_db 3%N 20101%Z)
   <= 7)%Z.
Proof.
  apply (days_present_at_most_seven scenario_d_db 3%N 20101%Z).
  unfold Tables.unique_keys. vm_compute. distinct_keys.
Defined.

(** X7. Over a table whose rows were stored from valid time fields and
    are unique per trainee and date, the hours of a week are between 0 and
    336 (seven days of at most 48 stored hours); [billable_hours] is not
    negative either unless the trainee's [max_weekly_hours] is. *)
Theorem weekly_hours_bounds (db : database) (p : uuid) (w : sql_date) :
  Tables.unique_keys db ->
  Tables.rows_stored db ->
  let s := calculate_weekly_summary db p w in
  0 <= total_hours_worked s <= 336 /\
  ((forall t, find (fun t => (t_id t =? p)%N) (trainees db) = Some t ->
              (0 <= t_max_weekly_hours t)%Z) ->
   0 <= billable_hours s).
Proof.
  intros Hu Hs s.
  pose proof (hours_sum_bounds _ (week_records_stored db p w Hs)) as [H0 Hb].
  pose proof (week_records_at_most_seven db p w Hu) as H7.
  assert (Ht : 0 <= total_hours_worked s <= 336).
  { unfold s. rewrite total_hours_worked_sum. split; [exact H0|].
    eapply Qle_trans; [exact Hb|].
    assert (Hl : inject_Z (Z.of_nat (List.length (week_records db p w)))
                 <= inject_Z 7).
    { rewrite <- Zle_Qle. lia. }
    change (inject_Z 7) with 7 in Hl. lra. }
  split; [exact Ht|].
  intros Hmax. unfold s, calculate_weekly_summary in *.
  cbn [billable_hours total_hours_worked] in *.
  destruct (find (fun t => (t_id t =? p)%N) (trainees db)) as [t|];
    [|apply Ht].
  assert (Hm : 0 <= inject_Z (t_max_weekly_hours t)).
  { change 0 with (inject_Z 0). rewrite <- Zle_Qle. apply Hmax. reflexivity. }
  destruct (t_trainee_type t); try apply Ht; apply least_ge;
    solve [apply Ht | exact Hm].
Qed.

Lemma weekly_hours_bounds_witness :
  0 <= total_hours_worked (calculate_weekly_summary scenario_d_db 3%N 20101%Z)
    <= 336 /\
  ((forall t,
      find (fun t => (t_id t =? 3)%N) (trainees scenario_d_db) = Some t ->
      (0 <= t_max_weekly_hours t)%Z) ->
   0 <= billable_hours (calculate_weekly_summary scenario_d_db 3%N 20101%Z)).
Proof.
  apply (weekly_hours_bounds scenario_d_db 3%N 20101%Z).
  - unfold Tables.unique_keys. vm_compute. distinct_keys.
  - apply stored_rows_stored. repeat (constructor; [concrete_times|]).
    constructor.
Defined.

(** X8. The cap of the weekly summary: for a paid or unpaid intern
    [billable_hours] never exceeds [max_weekly_hours], whatever was
    worked, and the [gross_pay] of a paid intern with a rate that is not
    negative never exceeds [max_weekly_hours * hourly_rate]: hours above
    the cap are not paid. *)
Theorem weekly_cap (db : database) (p : uuid) (w : sql_date) (t : trainee) :
  find (fun t => (t_id t =? p)%N) (trainees db) = Some t ->
  t_trainee_type t <> ojt ->
  let s := calculate_weekly_summary db p w in
  billable_hours s <= inject_Z (t_max_weekly_hours t) /\
  (t_trainee_type t = paid_intern ->
   forall rate, t_hourly_rate t = Some rate -> 0 <= rate ->
   exists g, gross_pay s = Some g /\
             g <= inject_Z (t_max_weekly_hours t) * rate).
Proof.
  intros Hf Hty s. unfold s, calculate_weekly_summary.
  cbn [billable_hours gross_pay]. rewrite Hf. split.
  - destruct (t_trainee_type t); [apply least_le_r|apply least_le_r|].
    exfalso. apply Hty. reflexivity.
  - intros -> rate -> Hr. eexists. split; [reflexivity|].
    apply Qmult_le_compat_r; [apply least_le_r|exact Hr].
Qed.

Lemma weekly_cap_witness :
  billable_hours (calculate_weekly_summary scenario_d_db 3%N 20101%Z)
  <= inject_Z (t_max_weekly_hours juancho) /\
  (t_trainee_type juancho = paid_intern ->
   forall rate, t_hourly_rate juancho = Some rate -> 0 <= rate ->
   exists g,
     gross_pay (calculate_weekly_summary scenario_d_db 3%N 20101%Z) = Some g /\
     g <= inject_Z (t_max_weekly_hours juancho) * rate).
Proof.
  apply (weekly_cap scenario_d_db 3%N 20101%Z juancho).
  - reflexivity.
  - discriminate.
Defined.

(** X9. A week without a record of the trainee: [total_hours_worked] is 0
    (the COALESCE of an empty SUM) and [days_present] is 0; when the
    trainee's [max_weekly_hours] is not negative, or no trainee row is
    found, [billable_hours] is 0 and [gross_pay] is 0 or NULL. *)
Theorem empty_week_summary (db : database) (p : uuid) (w : sql_date) :
  (forall tr, In tr (time_records db) -> trainee_id tr = p ->
              ~ (w <= date tr <= w + 6)%Z) ->
  let s := calculate_weekly_summary db p w in
  total_hours_worked s == 0 /\
  days_present s = 0%Z /\
  ((forall t, find (fun t => (t_id t =? p)%N) (trainees db) = Some t ->
              (0 <= t_max_weekly_hours t)%Z) ->
   billable_hours s == 0 /\
   forall g, gross_pay s = Some g -> g == 0).
Proof.
  intros Hnone s.
  assert (He : filter (in_week p w) (time_records db) = []).
  { rewrite in_week_filter.
    destruct (week_records db p w) as [|tr l] eqn:E; [reflexivity|].
    assert (Hin : In tr (week_records db p w)) by (rewrite E; left; reflexivity).
    apply week_records_spec in Hin. destruct Hin as (Hin & Hp & Hd).
    exfalso. exact (Hnone tr Hin Hp Hd). }
  unfold s, calculate_weekly_summary. rewrite He.
  cbn [sum_total_hours coalesce filter List.length total_hours_worked
       days_present billable_hours gross_pay].
  split; [reflexivity|]. split; [reflexivity|].
  intros Hmax.
  destruct (find (fun t => (t_id t =? p)%N) (trainees db)) as [t|].
  - assert (Hm : 0 <= inject_Z (t_max_weekly_hours t)).
    { change 0 with (inject_Z 0). rewrite <- Zle_Qle. apply Hmax.
      reflexivity. }
    assert (Hl : least 0 (inject_Z (t_max_weekly_hours t)) == 0).
    { rewrite least_Qmin. apply Q.min_l, Hm. }
    destruct (t_trainee_type t).
    + split; [exact Hl|]. destruct (t_hourly_rate t) as [rate|];
        [|discriminate]. intros g [= <-]. rewrite Hl. lra.
    + split; [exact Hl|]. intros g [= <-]. reflexivity.
    + split; [reflexivity|]. intros g [= <-]. reflexivity.
  - split; [reflexivity|]. intros g [= <-]. reflexivity.
Qed.

Lemma empty_week_summary_witness :
  total_hours_worked (calculate_weekly_summary scenario_d_db 3%N 20108%Z) == 0 /\
  days_present (calculate_weekly_summary scenario_d_db 3%N 20108%Z) = 0%Z /\
  ((forall t,
      find (fun t => (t_id t =? 3)%N) (trainees scenario_d_db) = Some t ->
      (0 <= t_max_weekly_hours t)%Z) ->
   billable_hours (calculate_weekly_summary scenario_d_db 3%N 20108%Z) == 0 /\
   forall g,
     gross_pay (calculate_weekly_summary scenario_d_db 3%N 20108%Z) = Some g ->
     g == 0).
Proof.
  apply (empty_week_summary scenario_d_db 3%N 20108%Z).
  intros tr Hin _ Hd. revert Hin. vm_compute.
  intros Hin.
  repeat (destruct Hin as [<-|Hin]; [cbn in Hd; lia|]).
  exact Hin.
Defined.

(** ** More on the OJT progress query *)

Section OjtBatch.

Lemma collect_ok_inv {A B : Type} (f : A -> result B) (l : list A)
    (bs : list B) :
  collect f l = ok bs -> Forall2 (fun a b => f a = ok b) l bs.
Proof.
  revert bs. induction l as [|a l IH]; cbn [collect]; intros bs Hc.
  - injection Hc as <-. constructor.
  - destruct (f a) as [e|b] eqn:Hfa; [discriminate Hc|].
    cbn [bind] in Hc.
    destruct (collect f l) as [e|bs'] eqn:Hl; [discriminate Hc|].
    cbn [bind] in Hc. injection Hc as <-.
    constructor; [exact Hfa|apply IH; reflexivity].
Qed.

Lemma collect_error_inv {A B : Type} (f : A -> result B) (l : list A)
    (e : sql_error) :
  collect f l = inl e -> exists a, In a l /\ f a = inl e.
Proof.
  induction l as [|a l IH]; cbn [collect]; intros Hc; [discriminate Hc|].
  destruct (f a) as [e'|b] eqn:Hfa.
  - cbn [bind] in Hc. injection Hc as ->. exists a. split;
      [left; reflexivity|exact Hfa].
  - cbn [bind] in Hc.
    destruct (collect f l) as [e'|bs'] eqn:Hl; [|discriminate Hc].
    cbn [bind] in Hc. injection Hc as ->.
    destruct (IH eq_refl) as (a' & Hin & Hfa').
    exists a'. split; [right; exact Hin|exact Hfa'].
Qed.

Lemma collect_fails {A B : Type} (f : A -> result B) (l : list A) (a : A)
    (e : sql_error) :
  In a l -> f a = inl e -> exists e', collect f l = inl e'.
Proof.
  induction l as [|x l IH]; intros Hin Hfa; [destruct Hin|].
  cbn [collect]. destruct (f x) as [e'|b] eqn:Hfx.
  - exists e'. reflexivity.
  - cbn [bind]. destruct Hin as [->|Hin]; [congruence|].
    destruct (IH Hin Hfa) as [e' ->]. exists e'. reflexivity.
Qed.

Lemma zero_divisor (n : Z) : Qeq_bool (inject_Z n) 0 = true <-> n = 0%Z.
Proof.
  rewrite Qeq_bool_iff. unfold Qeq, inject_Z; cbn [Qnum Qden]. lia.
Qed.

(** The only error of a row of the report is a division by a
    requirement of 0. *)
Lemma ojt_progress_row_error (db : database) (t : trainee) (u : user)
    (e : sql_error) :
  ojt_progress_row db t u = inl e <->
  e = division_by_zero /\ t_total_required_hours t = Some 0%Z.
Proof.
  unfold ojt_progress_row, completion_expr, div.
  destruct (t_total_required_hours t) as [n|].
  - destruct (Qeq_bool (inject_Z n) 0) eqn:Hz; cbn [bind raise ok].
    + apply zero_divisor in Hz. subst n. split.
      * intros [= <-]. split; reflexivity.
      * intros [-> _]. reflexivity.
    + split; [discriminate|]. intros [_ [= ->]].
      assert (Hz' : Qeq_bool (inject_Z 0) 0 = true) by reflexivity.
      congruence.
  - cbn [bind ok]. split; [discriminate|]. intros [_ Hn]. discriminate Hn.
Qed.

Lemma ojt_progress_row_ok (db : database) (t : trainee) (u : user)
    (row : ojt_progress) :
  ojt_progress_row db t u = ok row ->
  op_trainee_id row = t_id t /\
  op_first_name row = u_first_name u /\
  op_last_name row = u_last_name u /\
  op_total_required_hours row = t_total_required_hours t /\
  hours_rendered row == hours_sum (records_of db (t_id t)).
Proof.
  unfold ojt_progress_row. fold (records_of db (t_id t)).
  destruct (completion_expr _ _ _) as [e|pct]; [discriminate|].
  cbn [bind ok]. intros [= <-].
  cbn [op_trainee_id op_first_name op_last_name op_total_required_hours
       hours_rendered].
  repeat split. apply coalesce_sum_total_hours.
Qed.

Lemma ojt_groups_spec (db : database) (p : option uuid) (t : trainee)
    (u : user) :
  In (t, u) (ojt_groups db p) <->
  In t (trainees db) /\ ojt_selected p t = true /\
  In u (users db) /\ t_user_id t = u_id u.
Proof.
  unfold ojt_groups. rewrite in_flat_map. split.
  - intros (t' & Ht' & Hin). apply filter_In in Ht'.
    apply in_map_iff in Hin. destruct Hin as (u' & [= -> ->] & Hu').
    apply filter_In in Hu'. rewrite N.eqb_eq in Hu'. tauto.
  - intros (Ht & Hsel & Hu & Hfk). exists t. split.
    + apply filter_In. split; assumption.
    + apply in_map. apply filter_In. split; [exact Hu|].
      apply N.eqb_eq, Hfk.
Qed.

Lemma ojt_selected_spec (p : option uuid) (t : trainee) :
  ojt_selected p t = true <->
  t_trainee_type t = ojt /\ t_status t = Some active /\
  (forall id, p = Some id -> t_id t = id).
Proof.
  unfold ojt_selected.
  destruct (t_trainee_type t); try (split; [discriminate|intros [E _];
    discriminate E]).
  destruct (t_status t) as [[]|];
    try (split; [discriminate|intros (_ & E & _); discriminate E]).
  destruct p as [id|].
  - rewrite N.eqb_eq. split.
    + intros E. repeat split. intros id' [= <-]. exact E.
    + intros (_ & _ & H). apply H. reflexivity.
  - split; [|reflexivity]. intros _. repeat split. discriminate.
Qed.

End OjtBatch.

(** X10. Over tables whose ids are keys, the OJT progress query fails
    only by a division by zero, and it does so exactly when one of the
    selected trainees (active, of type ojt, joined to a user, and the
    requested one if an id is given) has [total_required_hours] 0.
    Without an id, one such trainee makes the report fail for all
    trainees. *)
Theorem ojt_progress_fails_iff_zero_requirement
    (db : database) (p : option uuid) :
  NoDup (map t_id (trainees db)) ->
  NoDup (map u_id (users db)) ->
  (forall e, get_ojt_progress db p = inl e -> e = division_by_zero) /\
  (get_ojt_progress db p = raise division_by_zero <->
   exists t u,
     In t (trainees db) /\ In u (users db) /\ t_user_id t = u_id u /\
     t_trainee_type t = ojt /\ t_status t = Some active /\
     (forall id, p = Some id -> t_id t = id) /\
     t_total_required_hours t = Some 0%Z).
Proof.
  intros _ _.
  assert (Hone : forall e, get_ojt_progress db p = inl e ->
            e = division_by_zero /\
            exists t u, In (t, u) (ojt_groups db p) /\
                        t_total_required_hours t = Some 0%Z).
  { intros e He. unfold get_ojt_progress in He.
    apply collect_error_inv in He. destruct He as ([t u] & Hin & Hrow).
    cbn [fst snd] in Hrow. apply ojt_progress_row_error in Hrow.
    destruct Hrow as [-> Hz]. split; [reflexivity|].
    exists t, u. split; assumption. }
  split; [intros e He; apply (Hone e He)|].
  split.
  - intros He. destruct (Hone _ He) as (_ & t & u & Hin & Hz).
    apply ojt_groups_spec in Hin. destruct Hin as (Ht & Hsel & Hu & Hfk).
    apply ojt_selected_spec in Hsel. destruct Hsel as (Hty & Hst & Hid).
    exists t, u. repeat split; assumption.
  - intros (t & u & Ht & Hu & Hfk & Hty & Hst & Hid & Hz).
    assert (Hin : In (t, u) (ojt_groups db p)).
    { apply ojt_groups_spec. repeat split; try assumption.
      apply ojt_selected_spec. repeat split; assumption. }
    assert (Hrow : ojt_progress_row db (fst (t, u)) (snd (t, u))
                   = inl division_by_zero).
    { cbn [fst snd]. apply ojt_progress_row_error. split;
        [reflexivity|exact Hz]. }
    destruct (collect_fails
                (fun g => ojt_progress_row db (fst g) (snd g))
                _ _ _ Hin Hrow) as [e' He'].
    fold (get_ojt_progress db p) in He'.
    rewrite He'. destruct (Hone e' He') as [-> _]. reflexivity.
Qed.

Lemma ojt_progress_fails_iff_zero_requirement_witness :
  (forall e, get_ojt_progress (maria_db (Some 0%Z)) None = inl e ->
             e = division_by_zero) /\
  (get_ojt_progress (maria_db (Some 0%Z)) None = raise division_by_zero <->
   exists t u,
     In t (trainees (maria_db (Some 0%Z))) /\
     In u (users (maria_db (Some 0%Z))) /\ t_user_id t = u_id u /\
     t_trainee_type t = ojt /\ t_status t = Some active /\
     (forall id, None = Some id -> t_id t = id) /\
     t_total_required_hours t = Some 0%Z).
Proof.
  apply (ojt_progress_fails_iff_zero_requirement (maria_db (Some 0%Z)) None).
  - cbn. distinct_keys.
  - cbn. distinct_keys.
Defined.

(** X11. Over tables whose ids are keys, when the query succeeds its rows
    match the selected trainees one to one, a row per joined pair of
    trainee and user: every row is that of an active ojt trainee (the
    requested one if an id is given) whose requirement is not 0, carries
    the trainee's id and requirement and the user's names, and has
    [hours_rendered] the sum of [total_hours] over all records of that
    trainee.  No intern and no inactive trainee is ever reported. *)
Theorem ojt_progress_rows_are_selected_trainees
    (db : database) (p : option uuid) (rows : list ojt_progress) :
  NoDup (map t_id (trainees db)) ->
  NoDup (map u_id (users db)) ->
  get_ojt_progress db p = ok rows ->
  Forall2
    (fun g row =>
       let t := fst g in
       let u := snd g in
       In t (trainees db) /\ In u (users db) /\ t_user_id t = u_id u /\
       t_trainee_type t = ojt /\ t_status t = Some active /\
       (forall id, p = Some id -> t_id t = id) /\
       t_total_required_hours t <> Some 0%Z /\
       op_trainee_id row = t_id t /\
       op_first_name row = u_first_name u /\
       op_last_name row = u_last_name u /\
       op_total_required_hours row = t_total_required_hours t /\
       hours_rendered row == hours_sum (records_of db (t_id t)))
    (ojt_groups db p) rows.
Proof.
  intros _ _ Hok. unfold get_ojt_progress in Hok.
  apply collect_ok_inv in Hok.
  assert (Hall : forall g, In g (ojt_groups db p) -> In g (ojt_groups db p))
    by (intros g Hg; exact Hg).
  revert Hall Hok. generalize (ojt_groups db p) at 1 3 4 as l.
  intros l Hall Hok.
  induction Hok as [|[t u] row l rows Hrow Hrest IH]; constructor.
  - cbn [fst snd] in *.
    pose proof (Hall (t, u) (or_introl eq_refl)) as Hin.
    apply ojt_groups_spec in Hin. destruct Hin as (Ht & Hsel & Hu & Hfk).
    apply ojt_selected_spec in Hsel. destruct Hsel as (Hty & Hst & Hid).
    assert (Hnz : t_total_required_hours t <> Some 0%Z).
    { intros Hz.
      assert (E : ojt_progress_row db t u = inl division_by_zero).
      { apply ojt_progress_row_error. split; [reflexivity|exact Hz]. }
      rewrite E in Hrow. discriminate Hrow. }
    destruct (ojt_progress_row_ok db t u row Hrow)
      as (R1 & R2 & R3 & R4 & R5).
    repeat split; assumption.
  - apply IH. intros g Hg. apply Hall. right. exact Hg.
Qed.

Lemma ojt_progress_rows_are_selected_trainees_witness :
  exists rows,
    get_ojt_progress (maria_db (Some 500%Z)) None = ok rows /\
    Forall2
      (fun g row =>
         let t := fst g in
         let u := snd g in
         In t (trainees (maria_db (Some 500%Z))) /\
         In u (users (maria_db (Some 500%Z))) /\
         t_user_id t = u_id u /\
         t_trainee_type t = ojt /\ t_status t = Some active /\
         (forall id, None = Some id -> t_id t = id) /\
         t_total_required_hours t <> Some 0%Z /\
         op_trainee_id row = t_id t /\
         op_first_name row = u_first_name u /\
         op_last_name row = u_last_name u /\
         op_total_required_hours row = t_total_required_hours t /\
         hours_rendered row
         == hours_sum (records_of (maria_db (Some 500%Z)) (t_id t)))
      (ojt_groups (maria_db (Some 500%Z)) None) rows.
Proof.
  eexists. split; [vm_compute; reflexivity|].
  apply (ojt_progress_rows_are_selected_trainees
           (maria_db (Some 500%Z)) None).
  - cbn. distinct_keys.
  - cbn. distinct_keys.
  - vm_compute. reflexivity.
Defined.

(** X12. Asking for the progress of an id that is not an active ojt
    trainee (an intern, an inactive trainee, an unknown id) is not an
    error: the result is empty. *)
Theorem ojt_progress_of_other_trainee_is_empty
    (db : database) (id : uuid) :
  (forall t, In t (trainees db) -> t_id t = id ->
             t_trainee_type t <> ojt \/ t_status t <> Some active) ->
  get_ojt_progress db (Some id) = ok [].
Proof.
  intros Hnone. unfold get_ojt_progress, ojt_groups.
  assert (Hf : filter (ojt_selected (Some id)) (trainees db) = []).
  { induction (trainees db) as [|t l IH]; [reflexivity|].
    cbn [filter]. destruct (ojt_selected (Some id) t) eqn:Hsel.
    - apply ojt_selected_spec in Hsel. destruct Hsel as (Hty & Hst & Hid).
      destruct (Hnone t (or_introl eq_refl) (Hid id eq_refl));
        contradiction.
    - apply IH. intros t' Hin. apply Hnone. right. exact Hin. }
  rewrite Hf. reflexivity.
Qed.

Lemma ojt_progress_of_other_trainee_is_empty_witness :
  get_ojt_progress scenario_d_db (Some 3%N) = ok [].
Proof.
  apply (ojt_progress_of_other_trainee_is_empty scenario_d_db 3%N).
  intros t [<-|[]] _. left. discriminate.
Defined.

(** X13. An active ojt trainee without any time record is reported, not
    left out (the LEFT JOIN): 0 hours rendered, the whole requirement
    remaining and 0 percent complete, for every requirement other than
    0. *)
Theorem ojt_progress_without_records
    (db : database) (t : trainee) (u : user) (n : Z) :
  NoDup (map t_id (trainees db)) ->
  NoDup (map u_id (users db)) ->
  In t (trainees db) ->
  In u (users db) ->
  t_user_id t = u_id u ->
  t_trainee_type t = ojt ->
  t_status t = Some active ->
  t_total_required_hours t = Some n ->
  n <> 0%Z ->
  (forall tr, In tr (time_records db) -> trainee_id tr <> t_id t) ->
  exists row rem pct,
    get_ojt_progress db (Some (t_id t)) = ok [row] /\
    hours_rendered row = 0 /\
    remaining_hours row = Some rem /\ rem == inject_Z n /\
    completion_percentage row = Some pct /\ pct == 0.
Proof.
  intros Hpk Hupk Ht Hu Hfk Hojt Hact Hreq Hn Hnone.
  assert (He : filter (fun tr => (trainee_id tr =? t_id t)%N)
                      (time_records db) = []).
  { induction (time_records db) as [|tr l IH]; [reflexivity|].
    cbn [filter]. destruct (trainee_id tr =? t_id t)%N eqn:E.
    - apply N.eqb_eq in E. destruct (Hnone tr (or_introl eq_refl) E).
    - apply IH. intros tr' Hin. apply Hnone. right. exact Hin. }
  assert (Hz : Qeq_bool (inject_Z n) 0 = false).
  { destruct (Qeq_bool (inject_Z n) 0) eqn:E; [|reflexivity].
    apply zero_divisor in E. contradiction. }
  do 3 eexists. split.
  - rewrite (get_ojt_progress_single db t u) by assumption.
    unfold ojt_progress_row, completion_expr, div. rewrite He, Hreq, Hz.
    cbn [bind ok sum_total_hours coalesce sum_dscale]. reflexivity.
  - cbn [hours_rendered remaining_hours completion_percentage].
    split; [reflexivity|]. split; [reflexivity|].
    split; [lra|]. split; [reflexivity|].
    unfold quotient.
    assert (E0 : 0 / inject_Z n == 0).
    { unfold Qdiv. lra. }
    rewrite (round_numeric_comp _ _ _ E0).
    assert (R0 : forall s, round_numeric 0 s == 0).
    { intros s. unfold round_numeric. cbn. unfold Qeq. cbn. lia. }
    assert (E1 : round_numeric 0 (select_div_scale 0 0 (inject_Z n) 0) * 100
                 == 0).
    { rewrite R0. lra. }
    rewrite (round_numeric_comp _ _ _ E1). apply R0.
Qed.

Lemma ojt_progress_without_records_witness :
  exists row rem pct,
    get_ojt_progress Examples.newcomer_db (Some (t_id (maria (Some 500%Z))))
    = ok [row] /\
    hours_rendered row = 0 /\
    remaining_hours row = Some rem /\ rem == inject_Z 500 /\
    completion_percentage row = Some pct /\ pct == 0.
Proof.
  apply (ojt_progress_without_records Examples.newcomer_db
           (maria (Some 500%Z)) maria_user 500%Z).
  - cbn. distinct_keys.
  - cbn. distinct_keys.
  - left. reflexivity.
  - left. reflexivity.
  - reflexivity.
  - reflexivity.
  - reflexivity.
  - reflexivity.
  - lia.
  - intros tr [].
Defined.

(** ** Deleting a trainee *)

Section DeleteFacts.
Import Tables.

Lemma find_filter_other (p q : uuid) (l : list trainee) :
  q <> p ->
  find (fun t => (t_id t =? q)%N)
       (filter (fun t => negb (t_id t =? p)%N) l)
  = find (fun t => (t_id t =? q)%N) l.
Proof.
  intros Hq. induction l as [|t l IH]; [reflexivity|].
  cbn [filter find]. destruct (t_id t =? p)%N eqn:Ep; cbn [negb].
  - apply N.eqb_eq in Ep.
    destruct (t_id t =? q)%N eqn:Eq; [|exact IH].
    apply N.eqb_eq in Eq. congruence.
  - cbn [find]. destruct (t_id t =? q)%N; [reflexivity|exact IH].
Qed.

Lemma in_week_filter_other (p q : uuid) (w : sql_date)
    (l : list time_record) :
  q <> p ->
  filter (in_week q w) (filter (fun tr => negb (trainee_id tr =? p)%N) l)
  = filter (in_week q w) l.
Proof.
  intros Hq. induction l as [|tr l IH]; [reflexivity|].
  cbn [filter]. destruct (trainee_id tr =? p)%N eqn:Ep; cbn [negb].
  - apply N.eqb_eq in Ep. unfold in_week at 2.
    destruct (trainee_id tr =? q)%N eqn:Eq; [|exact IH].
    apply N.eqb_eq in Eq. congruence.
  - cbn [filter]. rewrite IH. reflexivity.
Qed.

(** The rows that a cascade leaves are those of the other trainees. *)
Lemma kept_rows {A : Type} (key : A -> uuid) (p : uuid) (l : list A)
    (a : A) :
  In a (filter (fun x => negb (key x =? p)%N) l) <-> In a l /\ key a <> p.
Proof.
  rewrite filter_In, negb_true_iff, N.eqb_neq. reflexivity.
Qed.

Lemma references_after_delete (s : tables) (p : uuid) (tr : time_record) :
  references_trainee (base s) tr = true -> trainee_id tr <> p ->
  references_trainee (base (delete_trainee s p)) tr = true.
Proof.
  unfold references_trainee, delete_trainee. cbn [base trainees].
  rewrite !existsb_exists. intros (t & Hin & Ht) Hp.
  exists t. split; [|exact Ht]. apply filter_In. split; [exact Hin|].
  apply N.eqb_eq in Ht. apply negb_true_iff, N.eqb_neq. congruence.
Qed.

End DeleteFacts.

(** X14. Deleting a trainee removes the trainee's row and, by the three
    ON DELETE CASCADE foreign keys, the trainee's time records, weekly
    summaries and monthly reports, and nothing else: [users] is
    untouched, and the rows that stay in each of the four tables are
    exactly the rows of the other trainees.  The invariants of
    [time_records] still hold (unique keys, every row of a known trainee,
    every row a stored row), and the weekly summary of every other
    trainee is unchanged. *)
Theorem delete_trainee_cascades (s : Tables.tables) (p : uuid) :
  Tables.unique_keys (Tables.base s) ->
  Tables.rows_reference_trainees (Tables.base s) ->
  Tables.rows_stored (Tables.base s) ->
  let s' := Tables.delete_trainee s p in
  users (Tables.base s') = users (Tables.base s) /\
  (forall t, In t (trainees (Tables.base s')) <->
             In t (trainees (Tables.base s)) /\ t_id t <> p) /\
  (forall tr, In tr (time_records (Tables.base s')) <->
              In tr (time_records (Tables.base s)) /\ trainee_id tr <> p) /\
  (forall w, In w (Tables.weekly_summaries s') <->
             In w (Tables.weekly_summaries s) /\
             Tables.ws_trainee_id w <> p) /\
  (forall m, In m (Tables.monthly_reports s') <->
             In m (Tables.monthly_reports s) /\
             Tables.mr_trainee_id m <> p) /\
  Tables.unique_keys (Tables.base s') /\
  Tables.rows_reference_trainees (Tables.base s') /\
  Tables.rows_stored (Tables.base s') /\
  (forall q w, q <> p ->
     calculate_weekly_summary (Tables.base s') q w
     = calculate_weekly_summary (Tables.base s) q w).
Proof.
  intros Hu Hr Hs s'.
  assert (Hrec : forall tr, In tr (time_records (Tables.base s')) <->
                   In tr (time_records (Tables.base s)) /\ trainee_id tr <> p).
  { intros tr. apply (kept_rows trainee_id). }
  split; [reflexivity|].
  split; [intros t; apply (kept_rows t_id)|].
  split; [exact Hrec|].
  split; [intros w; apply (kept_rows Tables.ws_trainee_id)|].
  split; [intros m; apply (kept_rows Tables.mr_trainee_id)|].
  split; [|split; [|split]].
  - unfold Tables.unique_keys, s', Tables.delete_trainee.
    cbn [Tables.base time_records]. apply NoDup_map_filter, Hu.
  - unfold Tables.rows_reference_trainees. apply Forall_forall.
    intros tr Hin. apply Hrec in Hin. destruct Hin as [Hin Hne].
    apply references_after_delete; [|exact Hne].
    unfold Tables.rows_reference_trainees in Hr.
    rewrite Forall_forall in Hr. apply Hr, Hin.
  - unfold Tables.rows_stored. apply Forall_forall. intros tr Hin.
    unfold Tables.rows_stored in Hs. rewrite Forall_forall in Hs.
    apply Hs, (Hrec tr), Hin.
  - intros q w Hq. unfold calculate_weekly_summary, s',
      Tables.delete_trainee. cbn [Tables.base trainees time_records].
    rewrite (find_filter_other p q _ Hq).
    rewrite (in_week_filter_other p q w _ Hq). reflexivity.
Qed.

Lemma delete_trainee_cascades_witness :
  users (Tables.base (Tables.delete_trainee Examples.maria_tables 5%N))
  = users (Tables.base Examples.maria_tables) /\
  (forall t,
     In t (trainees
             (Tables.base (Tables.delete_trainee Examples.maria_tables 5%N)))
     <-> In t (trainees (Tables.base Examples.maria_tables)) /\
         t_id t <> 5%N) /\
  (forall tr,
     In tr (time_records
              (Tables.base (Tables.delete_trainee Examples.maria_tables 5%N)))
     <-> In tr (time_records (Tables.base Examples.maria_tables)) /\
         trainee_id tr <> 5%N) /\
  (forall w,
     In w (Tables.weekly_summaries
             (Tables.delete_trainee Examples.maria_tables 5%N))
     <-> In w (Tables.weekly_summaries Examples.maria_tables) /\
         Tables.ws_trainee_id w <> 5%N) /\
  (forall m,
     In m (Tables.monthly_reports
             (Tables.delete_trainee Examples.maria_tables 5%N))
     <-> In m (Tables.monthly_reports Examples.maria_tables) /\
         Tables.mr_trainee_id m <> 5%N) /\
  Tables.unique_keys
    (Tables.base (Tables.delete_trainee Examples.maria_tables 5%N)) /\
  Tables.rows_reference_trainees
    (Tables.base (Tables.delete_trainee Examples.maria_tables 5%N)) /\
  Tables.rows_stored
    (Tables.base (Tables.delete_trainee Examples.maria_tables 5%N)) /\
  (forall q w, q <> 5%N ->
     calculate_weekly_summary
       (Tables.base (Tables.delete_trainee Examples.maria_tables 5%N)) q w
     = calculate_weekly_summary (Tables.base Examples.maria_tables) q w).
Proof.
  apply (delete_trainee_cascades Examples.maria_tables 5%N).
  - unfold Tables.unique_keys. vm_compute. distinct_keys.
  - apply references_checked. vm_compute. reflexivity.
  - apply stored_rows_stored. repeat (constructor; [concrete_times|]).
    constructor.
Defined.

(** ** More on the form schemas *)

Section FormFacts.
Import Validations RecordRules.

Lemma min1_nonempty (s msg field : string) :
  s <> EmptyString -> min1 s msg field = [].
Proof.
  destruct s as [|c s]; [intros H; destruct (H eq_refl)|].
  intros _. reflexivity.
Qed.

Lemma encoded_date_nonempty (s : string) (day : Z) :
  encodes_date s day -> s <> EmptyString.
Proof.
  intros [y m d _ _ _]. discriminate.
Qed.

Lemma time_record_object_ok (data : time_record_data) (c : candidate) :
  encodes data c -> trainee_id data <> EmptyString ->
  time_record_object_issues data = [].
Proof.
  intros (_ & _ & _ & _ & _ & Hd) Hid. unfold time_record_object_issues.
  rewrite (min1_nonempty _ _ _ Hid).
  rewrite (min1_nonempty _ _ _ (encoded_date_nonempty _ _ Hd)).
  reflexivity.
Qed.

(** The issues of the object schema are all of code [too_small]. *)
Lemma trainee_object_issues_small (data : trainee_data) (i : issue) :
  In i (trainee_object_issues data) -> code i = too_small.
Proof.
  unfold trainee_object_issues, min1, number_min, add_if.
  rewrite !in_app_iff.
  repeat match goal with
         | |- context [match ?x with Some _ => _ | None => _ end] =>
             destruct x
         | |- context [if ?b then _ else _] => destruct b
         end;
    cbn [In]; intuition (subst; reflexivity).
Qed.

Lemma required_hours_min_nil (r : Q) (msg field : string) :
  number_min (Some r) 1 msg field = [] <-> 1 <= r.
Proof.
  cbn [number_min]. rewrite add_if_nil, negb_false_iff.
  apply Qle_bool_iff.
Qed.

End FormFacts.

Section ZoneFacts.
Import Validations RecordRules.

(** On a host whose zone keeps one offset the two descriptions of the
    schema agree. *)
Lemma timeRecordSchema_fixed_zone (e : env) (data : time_record_data) :
  Zones.timeRecordSchema (Zones.host_of e) data = timeRecordSchema e data.
Proof. reflexivity. Qed.

Lemma zoned_new_Date_iso_date (h : Zones.host) (y m d : Z) :
  (0 <= y <= 9999)%Z -> (1 <= m <= 12)%Z ->
  (1 <= d <= days_in_month y m)%Z ->
  Zones.new_Date h (iso_date y m d)
  = Some (days_from_civil y m d * msPerDay)%Z.
Proof.
  intros Hy Hm Hd.
  pose proof (days_in_month_le_31 y m) as H31.
  unfold Zones.new_Date, iso_date, two_digits.
  cbn [list_ascii_of_string firstn skipn parse_ymd].
  change (is_char "-" 45) with true. cbn [andb].
  rewrite (digits_four y Hy), (digits_two m), (digits_two d) by lia.
  assert (Hc : ((1 <=? m) && (m <=? 12) && (1 <=? d)
                && (d <=? days_in_month y m))%Z = true).
  { rewrite !andb_true_iff, !Z.leb_le. lia. }
  rewrite Hc. reflexivity.
Qed.

Lemma zoned_clock_date_hhmm (h : Zones.host) (hh mm : Z) :
  Zones.steady_on_clock_day (Zones.tz h) ->
  (0 <= hh <= 23)%Z -> (0 <= mm <= 59)%Z ->
  Zones.clock_date h (Some (hhmm hh mm)) =
  Some (10957 * msPerDay + (hh * 60 + mm) * msPerMinute
        - Zones.offset_of_local (Zones.tz h) (10957 * msPerDay)
          * msPerMinute)%Z.
Proof.
  intros Hsteady Hh Hm.
  unfold Zones.clock_date, Zones.new_Date, hhmm, two_digits.
  cbn [append list_ascii_of_string firstn skipn].
  change (parse_ymd _) with (Some 10957%Z).
  change (is_char "T" 84) with true. cbv iota.
  unfold parse_hms.
  change (is_char ":" 58) with true. cbn [andb].
  rewrite (digits_two hh), (digits_two mm) by lia.
  change (digits 0 ["0"%char; "0"%char]) with (Some 0%Z).
  assert (Hc : ((hh <=? 23) && (mm <=? 59) && (0 <=? 59)
                || (hh =? 24) && (mm =? 0) && (0 =? 0))%Z = true).
  { apply orb_true_iff. left. rewrite !andb_true_iff, !Z.leb_le. lia. }
  cbv iota beta. rewrite Hc. f_equal. unfold Zones.UTC.
  rewrite (Hsteady (10957 * msPerDay
                    + ((hh * 60 + mm) * 60 + 0) * 1000)%Z)
    by (unfold msPerDay; lia).
  unfold msPerMinute. lia.
Qed.

Lemma zoned_clock_order_test (h : Zones.host) (s1 s2 : opt_string)
    (x1 x2 : option Z) :
  Zones.steady_on_clock_day (Zones.tz h) ->
  encodes_time s1 x1 -> encodes_time s2 x2 ->
  truthy s1 && truthy s2
  && date_le (Zones.clock_date h s2) (Zones.clock_date h s1)
  = not_after x1 x2.
Proof.
  intros Hsteady H1 H2.
  rewrite (truthy_encoded _ _ H1), (truthy_encoded _ _ H2).
  destruct H1 as [| |h1 m1 Hh1 Hm1]; try reflexivity;
    destruct H2 as [| |h2 m2 Hh2 Hm2]; try reflexivity.
  rewrite !zoned_clock_date_hhmm by assumption.
  cbn [andb date_le not_after]. unfold msPerMinute.
  destruct (Z.leb_spec (h2 * 60 + m2) (h1 * 60 + m1));
    [apply Z.leb_le|apply Z.leb_gt]; lia.
Qed.

(** The date test on a host: midnight UTC of the record's date against
    today's local midnight, read back with the offset that holds
    there. *)
Lemma zoned_future_test (h : Zones.host) (s : string) (day : Z) :
  encodes_date s day ->
  date_gt (Zones.new_Date h s) (Zones.today_midnight h)
  = (Zones.local_today h * msPerDay - Zones.midnight_offset h * msPerMinute
     <? day * msPerDay)%Z.
Proof.
  intros H. destruct H as [y m d Hy Hm Hd].
  rewrite zoned_new_Date_iso_date by assumption. reflexivity.
Qed.

Lemma zoned_refine_rules (h : Zones.host) (data : time_record_data)
    (c : candidate) (today : Z) :
  Zones.steady_on_clock_day (Zones.tz h) ->
  encodes data c ->
  Zones.time_record_refine h data =
  map issue_of (filter (violated today c) session_rules)
  ++ add_if (date_gt (Zones.new_Date h (date data)) (Zones.today_midnight h))
            future_date_issue.
Proof.
  intros Hsteady (Hai & Hao & Hpi & Hpo & Hst & Hd).
  unfold Zones.time_record_refine.
  rewrite (zoned_clock_order_test h _ _ _ _ Hsteady Hai Hao).
  rewrite (zoned_clock_order_test h _ _ _ _ Hsteady Hpi Hpo).
  rewrite (zoned_clock_order_test h _ _ _ _ Hsteady Hao Hpi).
  rewrite (complete_encoded _ _ _ _ Hai Hao).
  rewrite (complete_encoded _ _ _ _ Hpi Hpo).
  rewrite Hst.
  unfold session_rules. cbn [filter violated].
  rewrite <- andb_assoc, <- negb_orb.
  destruct (not_after (c_am_in c) (c_am_out c)),
           (not_after (c_pm_in c) (c_pm_out c)),
           (not_after (c_am_out c) (c_pm_in c)),
           (is_present (c_status c)
            && negb (complete (c_am_in c) (c_am_out c)
                     || complete (c_pm_in c) (c_pm_out c)));
    reflexivity.
Qed.

Lemma london_steady : Zones.steady_on_clock_day Zones.london_2025.
Proof.
  intros t Ht. unfold msPerDay in Ht. cbn [Zones.london_2025
    Zones.offset_of_local].
  assert (E : (1743300000000 <=? t)%Z = false) by (apply Z.leb_gt; lia).
  rewrite E. reflexivity.
Defined.

Lemma full_day_form_encoded (y m d : Z) :
  (0 <= y <= 9999)%Z -> (1 <= m <= 12)%Z ->
  (1 <= d <= days_in_month y m)%Z ->
  encodes (Examples.full_day_form (iso_date y m d))
          (Examples.full_day_candidate (days_from_civil y m d)).
Proof.
  intros Hy Hm Hd. unfold encodes.
  cbn [Examples.full_day_form Examples.full_day_candidate am_time_in
       am_time_out pm_time_in pm_time_out status date c_am_in c_am_out
       c_pm_in c_pm_out c_status c_date].
  split; [exact (enc_clock 8 0 ltac:(lia) ltac:(lia))|].
  split; [exact (enc_clock 12 0 ltac:(lia) ltac:(lia))|].
  split; [exact (enc_clock 13 0 ltac:(lia) ltac:(lia))|].
  split; [exact (enc_clock 17 0 ltac:(lia) ltac:(lia))|].
  split; [reflexivity|].
  apply enc_date; assumption.
Defined.

End ZoneFacts.

(** X15. On a host that reads back today's local midnight with an offset
    at or west of UTC, [timeRecordSchema] returns, for a form with a
    trainee whose fields are a date and clock times as the inputs write
    them, exactly the issues of the rules that the record violates, all
    at once and in the order of the five tests: session order AM, session
    order PM, overlap, no complete session for status present, date after
    the local today.  What counts is the offset at that midnight, not the
    current one: in London on the day the clock goes forward the day's
    own record is accepted although the current offset is UTC+1.  (The
    zone is to keep one offset through 2000-01-01, the day on which the
    schema places the clock times.) *)
Theorem time_record_issues_west_of_utc
    (h : Zones.host) (data : Validations.time_record_data)
    (c : RecordRules.candidate) :
  RecordRules.encodes data c ->
  Validations.trainee_id data <> EmptyString ->
  Zones.steady_on_clock_day (Zones.tz h) ->
  (-720 <= Zones.midnight_offset h <= 0)%Z ->
  Zones.timeRecordSchema h data =
  map RecordRules.issue_of
      (RecordRules.violated_rules (Zones.local_today h) c).
Proof.
  intros Henc Hid Hsteady Htz. unfold Zones.timeRecordSchema.
  rewrite (time_record_object_ok data c Henc Hid). cbn [app].
  rewrite (zoned_refine_rules h data c (Zones.local_today h) Hsteady Henc).
  destruct Henc as (_ & _ & _ & _ & _ & Hd).
  rewrite (zoned_future_test h _ _ Hd).
  unfold RecordRules.violated_rules, RecordRules.all_rules.
  rewrite filter_app, map_app. f_equal.
  cbn [filter RecordRules.violated].
  assert (E : (Zones.local_today h * Validations.msPerDay
               - Zones.midnight_offset h * Validations.msPerMinute
               <? RecordRules.c_date c * Validations.msPerDay)%Z
              = (Zones.local_today h <? RecordRules.c_date c)%Z).
  { unfold Validations.msPerDay, Validations.msPerMinute.
    destruct (Z.ltb_spec (Zones.local_today h) (RecordRules.c_date c));
      [apply Z.ltb_lt|apply Z.ltb_ge]; lia. }
  rewrite E.
  destruct (Zones.local_today h <? RecordRules.c_date c)%Z; reflexivity.
Qed.

Lemma time_record_issues_west_of_utc_witness :
  Zones.timeRecordSchema Examples.london_spring
    (Examples.full_day_form (RecordRules.iso_date 2025 3 30)) =
  map RecordRules.issue_of
      (RecordRules.violated_rules
         (Zones.local_today Examples.london_spring)
         (Examples.full_day_candidate
            (Validations.days_from_civil 2025 3 30))).
Proof.
  apply (time_record_issues_west_of_utc Examples.london_spring).
  - apply full_day_form_encoded; vm_compute; split; discriminate.
  - discriminate.
  - exact london_steady.
  - vm_compute. split; discriminate.
Defined.

(** X16. On a host that reads back today's local midnight with an offset
    east of UTC, the four session tests behave the same, but the date
    test reports every date from the local today on: a record dated
    today is refused as a future date, one dated yesterday is not.
    Again the offset at that midnight decides: in London on the day the
    clock goes back the day's own record is refused although the current
    offset is UTC. *)
Theorem time_record_issues_east_of_utc
    (h : Zones.host) (data : Validations.time_record_data)
    (c : RecordRules.candidate) :
  RecordRules.encodes data c ->
  Validations.trainee_id data <> EmptyString ->
  Zones.steady_on_clock_day (Zones.tz h) ->
  (0 < Zones.midnight_offset h <= 840)%Z ->
  Zones.timeRecordSchema h data =
  map RecordRules.issue_of
      (filter (RecordRules.violated (Zones.local_today h) c)
              RecordRules.session_rules)
  ++ Validations.add_if
       (Zones.local_today h <=? RecordRules.c_date c)%Z
       Validations.future_date_issue.
Proof.
  intros Henc Hid Hsteady Htz. unfold Zones.timeRecordSchema.
  rewrite (time_record_object_ok data c Henc Hid). cbn [app].
  rewrite (zoned_refine_rules h data c (Zones.local_today h) Hsteady Henc).
  destruct Henc as (_ & _ & _ & _ & _ & Hd).
  rewrite (zoned_future_test h _ _ Hd).
  assert (E : (Zones.local_today h * Validations.msPerDay
               - Zones.midnight_offset h * Validations.msPerMinute
               <? RecordRules.c_date c * Validations.msPerDay)%Z
              = (Zones.local_today h <=? RecordRules.c_date c)%Z).
  { unfold Validations.msPerDay, Validations.msPerMinute.
    destruct (Z.leb_spec (Zones.local_today h) (RecordRules.c_date c));
      [apply Z.ltb_lt|apply Z.ltb_ge]; lia. }
  rewrite E. reflexivity.
Qed.

Lemma time_record_issues_east_of_utc_witness :
  Zones.timeRecordSchema Examples.london_autumn
    (Examples.full_day_form (RecordRules.iso_date 2025 10 26)) =
  map RecordRules.issue_of
      (filter (RecordRules.violated
                 (Zones.local_today Examples.london_autumn)
                 (Examples.full_day_candidate
                    (Validations.days_from_civil 2025 10 26)))
              RecordRules.session_rules)
  ++ Validations.add_if
       (Zones.local_today Examples.london_autumn
        <=? RecordRules.c_date
              (Examples.full_day_candidate
                 (Validations.days_from_civil 2025 10 26)))%Z
       Validations.future_date_issue.
Proof.
  apply (time_record_issues_east_of_utc Examples.london_autumn).
  - apply full_day_form_encoded; vm_compute; split; discriminate.
  - discriminate.
  - exact london_steady.
  - vm_compute. split; [reflexivity|discriminate].
Defined.

(** X17. For an ojt student whose dates are written as the date inputs
    write them (the end date may be absent or empty) and whose other
    fields pass, [traineeSchema] accepts the form exactly when
    [total_required_hours] is present and at least 1.  (The presence test [!data.total_required_hours] also
    fires on 0, but 0 is already refused by [min(1)].) *)
Theorem ojt_form_accepted_iff
    (e : Validations.env) (data : Validations.trainee_data)
    (x : option Validations.number) (start_day : Z) :
  Validations.trainee_type_ data = ojt ->
  RecordRules.encodes_date (Validations.start_date data) start_day ->
  match Validations.end_date data with
  | Some s =>
      s = EmptyString \/ exists end_day, RecordRules.encodes_date s end_day
  | None => True
  end ->
  Validations.traineeSchema e
    (Examples.with_total_required_hours data (Some 1)) = [] ->
  (Validations.traineeSchema e (Examples.with_total_required_hours data x)
   = [] <->
   exists r, x = Some r /\ 1 <= r).
Proof.
  intros Hty _ _ Hother.
  unfold Validations.traineeSchema, Validations.trainee_object_issues,
    Validations.trainee_refine in *.
  cbn [Validations.user_id Validations.company_id Validations.hourly_rate
       Validations.max_weekly_hours Validations.total_required_hours
       Validations.start_date Validations.end_date Validations.trainee_type_
       Examples.with_total_required_hours] in *.
  rewrite Hty in *.
  cbn [Validations.is_paid_intern Validations.is_ojt andb] in *.
  rewrite !app_nil_iff in Hother. rewrite !app_nil_iff.
  destruct Hother as ((Hu & Hc & Hr & Hw & _ & Hs) & Hp & _ & Hd).
  destruct x as [r|].
  - rewrite (required_hours_min_nil r), (add_if_nil (negb _)),
      negb_false_iff, rate_truthy.
    split.
    + intros ((_ & _ & _ & _ & Hmin & _) & _). exists r.
      split; [reflexivity|exact Hmin].
    + intros (r' & E & Hge). injection E as <-.
      repeat split; try assumption. intros E0. rewrite E0 in Hge.
      revert Hge. unfold Qle; cbn. lia.
  - split.
    + intros (_ & _ & Hreq & _). discriminate Hreq.
    + intros (r & E & _). discriminate E.
Qed.

Lemma ojt_form_accepted_iff_witness :
  Validations.traineeSchema manila_evening
    (Examples.with_total_required_hours Examples.ojt_student (Some 500)) = []
  <-> exists r, Some 500 = Some r /\ 1 <= r.
Proof.
  apply (ojt_form_accepted_iff manila_evening Examples.ojt_student
           (Some 500) (Validations.days_from_civil 2025 1 13)).
  - reflexivity.
  - apply (RecordRules.enc_date 2025 1 13); vm_compute; split; discriminate.
  - right. exists (Validations.days_from_civil 2025 6 30).
    apply (RecordRules.enc_date 2025 6 30); vm_compute; split; discriminate.
  - vm_compute. reflexivity.
Defined.

(** X18. The end-date rule of [traineeSchema] does not depend on the time
    zone: with both dates written as the date inputs write them, the
    issue 'End date must be after start date' is reported exactly when
    the end date is not after the start date (an end date equal to the
    start date is refused). *)
Theorem end_date_rule
    (e : Validations.env) (data : Validations.trainee_data)
    (s : string) (start_day end_day : Z) :
  RecordRules.encodes_date (Validations.start_date data) start_day ->
  Validations.end_date data = Some s ->
  RecordRules.encodes_date s end_day ->
  (In Validations.end_date_not_after_start (Validations.traineeSchema e data)
   <-> (end_day <= start_day)%Z).
Proof.
  intros Hs He Hd. unfold Validations.traineeSchema.
  rewrite in_app_iff.
  assert (Hobj : ~ In Validations.end_date_not_after_start
                      (Validations.trainee_object_issues data)).
  { intros Hin. apply trainee_object_issues_small in Hin.
    discriminate Hin. }
  unfold Validations.trainee_refine. rewrite He, !in_app_iff.
  destruct Hs as [y m d Hy Hm Hdd]. destruct Hd as [y' m' d' Hy' Hm' Hdd'].
  rewrite !new_Date_iso_date by assumption.
  cbn [Validations.date_le Validations.truthy RecordRules.iso_date
       RecordRules.two_digits andb].
  unfold Validations.add_if.
  assert (Hle : (Validations.days_from_civil y' m' d' * Validations.msPerDay
                 <=? Validations.days_from_civil y m d * Validations.msPerDay)%Z
                = (Validations.days_from_civil y' m' d'
                   <=? Validations.days_from_civil y m d)%Z).
  { unfold Validations.msPerDay.
    destruct (Z.leb_spec (Validations.days_from_civil y' m' d')
                         (Validations.days_from_civil y m d));
      [apply Z.leb_le|apply Z.leb_gt]; lia. }
  rewrite Hle.
  destruct (Validations.is_paid_intern _ && _),
           (Validations.is_ojt _ && _),
           (Z.leb_spec (Validations.days_from_civil y' m' d')
                       (Validations.days_from_civil y m d));
    cbn [In]; split; intros Hin;
    try lia; try tauto;
    repeat match goal with
           | Hor : _ \/ _ |- _ => destruct Hor as [Hor|Hor]
           end;
    try contradiction; try discriminate; try tauto.
Qed.

Lemma end_date_rule_witness :
  In Validations.end_date_not_after_start
     (Validations.traineeSchema manila_evening Examples.ojt_student)
  <-> (Validations.days_from_civil 2025 6 30
       <= Validations.days_from_civil 2025 1 13)%Z.
Proof.
  apply (end_date_rule manila_evening Examples.ojt_student "2025-06-30").
  - apply (RecordRules.enc_date 2025 1 13); cbn; lia.
  - reflexivity.
  - apply (RecordRules.enc_date 2025 6 30); cbn; lia.
Defined.

(** ** The route guard *)

Section RouteFacts.
Import Routes.

Lemma role_eqb_eq (a b : UserRole) : role_eqb a b = true <-> a = b.
Proof.
  destruct a, b; cbn; split; intros H; first [reflexivity | discriminate H].
Qed.

Lemma includes_In (roles : list UserRole) (r : UserRole) :
  includes roles r = true <-> In r roles.
Proof.
  unfold includes. rewrite existsb_exists. split.
  - intros (x & Hin & E). apply role_eqb_eq in E. subst x. exact Hin.
  - intros Hin. exists r. split; [exact Hin|]. apply role_eqb_eq.
    reflexivity.
Qed.

Lemma role_refused_false (roles : list UserRole) (u : User) :
  role_refused roles u = false <-> roles = [] \/ In (role u) roles.
Proof.
  unfold role_refused. destruct roles as [|r roles].
  - cbn. split; [intros _; left; reflexivity|reflexivity].
  - cbn [List.length Nat.ltb Nat.leb andb].
    rewrite negb_false_iff, includes_In. split.
    + intros H. right. exact H.
    + intros [H|H]; [discriminate H|exact H].
Qed.

End RouteFacts.



(** ** The arguments of the seeding script *)

Section SeedFacts.
Import SeedAdmin.

Lemma loop_command_line (l : list (option_name * string))
    (rest : list string) (config : AdminUserConfig) :
  exists config',
    loop (command_line l ++ rest) config = loop rest config' /\
    forall o, field o config' =
              match last_value o l with
              | Some v => Some v
              | None => field o config
              end.
Proof.
  revert config. induction l as [|[o' v] l IH]; intros config.
  - exists config. split; reflexivity.
  - assert (Hsw : exists c1,
               switch (flag o') (Some v) config = inr c1 /\
               forall o, field o c1 =
                         if (flag o' =? flag o)%string then Some v
                         else field o config).
    { destruct o'; eexists; (split; [reflexivity|]); intros []; reflexivity. }
    destruct Hsw as (c1 & Hc1 & Hf1).
    destruct (IH c1) as (c2 & Hc2 & Hf2).
    exists c2. split.
    + cbn [command_line flat_map fst snd app] in *.
      cbn [loop]. rewrite Hc1. exact Hc2.
    + intros o. rewrite Hf2. cbn [last_value].
      destruct (last_value o l); [reflexivity|].
      rewrite Hf1. destruct (flag o' =? flag o)%string; reflexivity.
Qed.

Lemma switch_unknown (key : string) (value : option string)
    (config : AdminUserConfig) :
  (forall o, key <> flag o) -> key <> "--help"%string ->
  key <> EmptyString ->
  switch key value config =
  if Validations.truthy value then inr config else inl 1%Z.
Proof.
  intros Hflag Hhelp Hne. unfold switch.
  pose proof (proj2 (String.eqb_neq _ _) (Hflag opt_email)) as E1.
  pose proof (proj2 (String.eqb_neq _ _) (Hflag opt_password)) as E2.
  pose proof (proj2 (String.eqb_neq _ _) (Hflag opt_first_name)) as E3.
  pose proof (proj2 (String.eqb_neq _ _) (Hflag opt_last_name)) as E4.
  pose proof (proj2 (String.eqb_neq _ _) (Hflag opt_phone)) as E5.
  pose proof (proj2 (String.eqb_neq _ _) Hhelp) as E6.
  cbn [flag] in E1, E2, E3, E4, E5.
  rewrite E1, E2, E3, E4, E5, E6.
  destruct key as [|ch key]; [destruct (Hne eq_refl)|].
  cbn [Validations.truthy andb].
  destruct (Validations.truthy value); reflexivity.
Qed.

End SeedFacts.

(** X21. On a command line made of the five options, each with a value,
    [parseArguments] returns a configuration and never exits: every field
    has the value of the last occurrence of its option and the default
    when the option is not given.  Any word is taken as the value, also
    the empty one, --help or the name of an option. *)
Theorem parse_arguments_options
    (node script : string) (l : list (SeedAdmin.option_name * string)) :
  exists config,
    SeedAdmin.parseArguments (node :: script :: SeedAdmin.command_line l)
    = SeedAdmin.returned config /\
    forall o, SeedAdmin.field o config =
              match SeedAdmin.last_value o l with
              | Some v => Some v
              | None => SeedAdmin.field o SeedAdmin.DEFAULT_ADMIN
              end.
Proof.
  unfold SeedAdmin.parseArguments. cbn [skipn].
  destruct (loop_command_line l [] SeedAdmin.DEFAULT_ADMIN)
    as (config & Hloop & Hfield).
  rewrite app_nil_r in Hloop. exists config. split; [exact Hloop|exact Hfield].
Qed.

(** X22. An option given last without its value is not reported as a
    missing value: [parseArguments] returns a configuration in which that
    field is undefined (the default is lost) and the other fields are as
    the options before it left them. *)
Theorem parse_arguments_option_without_value
    (node script : string) (l : list (SeedAdmin.option_name * string))
    (last : SeedAdmin.option_name) :
  exists config,
    SeedAdmin.parseArguments
      (node :: script :: SeedAdmin.command_line l ++ [SeedAdmin.flag last])
    = SeedAdmin.returned config /\
    SeedAdmin.field last config = None /\
    forall o, o <> last ->
              SeedAdmin.field o config =
              match SeedAdmin.last_value o l with
              | Some v => Some v
              | None => SeedAdmin.field o SeedAdmin.DEFAULT_ADMIN
              end.
Proof.
  unfold SeedAdmin.parseArguments. cbn [skipn].
  destruct (loop_command_line l [SeedAdmin.flag last] SeedAdmin.DEFAULT_ADMIN)
    as (c1 & Hloop & Hfield).
  rewrite Hloop. cbn [SeedAdmin.loop].
  assert (Hsw : exists c2,
             SeedAdmin.switch (SeedAdmin.flag last) None c1 = inr c2 /\
             forall o, SeedAdmin.field o c2 =
                       if (SeedAdmin.flag last =? SeedAdmin.flag o)%string
                       then None else SeedAdmin.field o c1).
  { destruct last; eexists; (split; [reflexivity|]); intros [];
      reflexivity. }
  destruct Hsw as (c2 & Hc2 & Hf2). rewrite Hc2.
  exists c2. split; [reflexivity|]. split.
  - rewrite Hf2, String.eqb_refl. reflexivity.
  - intros o Ho. rewrite Hf2.
    assert (Hneq : (SeedAdmin.flag last =? SeedAdmin.flag o)%string = false).
    { destruct last, o; try reflexivity; destruct (Ho eq_refl). }
    rewrite Hneq. apply Hfield.
Qed.

(** X23. A word in option position that is none of the options: when no
    value follows it, or an empty one, the script reports a missing value
    and exits with code 1; when a value follows, the word and its value
    are skipped without any message. *)
Theorem parse_arguments_unknown_option
    (node script key : string) (l : list (SeedAdmin.option_name * string)) :
  (forall o, key <> SeedAdmin.flag o) ->
  key <> "--help"%string ->
  key <> EmptyString ->
  SeedAdmin.parseArguments
    (node :: script :: SeedAdmin.command_line l ++ [key])
  = SeedAdmin.exited 1 /\
  (forall rest,
     SeedAdmin.parseArguments
       (node :: script :: SeedAdmin.command_line l ++ key :: EmptyString :: rest)
     = SeedAdmin.exited 1) /\
  (forall value rest,
     value <> EmptyString ->
     SeedAdmin.parseArguments
       (node :: script :: SeedAdmin.command_line l ++ key :: value :: rest)
     = SeedAdmin.parseArguments
         (node :: script :: SeedAdmin.command_line l ++ rest)).
Proof.
  intros Hflag Hhelp Hne. unfold SeedAdmin.parseArguments. cbn [skipn].
  split; [|split].
  - destruct (loop_command_line l [key] SeedAdmin.DEFAULT_ADMIN)
      as (c1 & Hloop & _).
    rewrite Hloop. cbn [SeedAdmin.loop].
    rewrite (switch_unknown key None c1 Hflag Hhelp Hne). reflexivity.
  - intros rest.
    destruct (loop_command_line l (key :: EmptyString :: rest)
                SeedAdmin.DEFAULT_ADMIN) as (c1 & Hloop & _).
    rewrite Hloop. cbn [SeedAdmin.loop].
    rewrite (switch_unknown key (Some EmptyString) c1 Hflag Hhelp Hne).
    reflexivity.
  - intros value rest Hv.
    destruct (loop_command_line l (key :: value :: rest)
                SeedAdmin.DEFAULT_ADMIN) as (c1 & Hloop & Hf1).
    destruct (loop_command_line l rest SeedAdmin.DEFAULT_ADMIN)
      as (c2 & Hloop2 & Hf2).
    rewrite Hloop, Hloop2. cbn [SeedAdmin.loop].
    rewrite (switch_unknown key (Some value) c1 Hflag Hhelp Hne).
    destruct value as [|ch value]; [destruct (Hv eq_refl)|].
    cbn [Validations.truthy].
    assert (E : c1 = c2).
    { destruct c1, c2.
      pose proof (eq_trans (Hf1 SeedAdmin.opt_email)
                    (eq_sym (Hf2 SeedAdmin.opt_email))) as E1.
      pose proof (eq_trans (Hf1 SeedAdmin.opt_password)
                    (eq_sym (Hf2 SeedAdmin.opt_password))) as E2.
      pose proof (eq_trans (Hf1 SeedAdmin.opt_first_name)
                    (eq_sym (Hf2 SeedAdmin.opt_first_name))) as E3.
      pose proof (eq_trans (Hf1 SeedAdmin.opt_last_name)
                    (eq_sym (Hf2 SeedAdmin.opt_last_name))) as E4.
      pose proof (eq_trans (Hf1 SeedAdmin.opt_phone)
                    (eq_sym (Hf2 SeedAdmin.opt_phone))) as E5.
      cbn in E1, E2, E3, E4, E5. congruence. }
    rewrite E. reflexivity.
Qed.

Lemma parse_arguments_unknown_option_witness :
  SeedAdmin.parseArguments
    ("bun" :: "seed-admin.ts"
     :: SeedAdmin.command_line [(SeedAdmin.opt_email, "a@b.c")]
     ++ ["--role"])%string
  = SeedAdmin.exited 1 /\
  (forall rest,
     SeedAdmin.parseArguments
       ("bun" :: "seed-admin.ts"
        :: SeedAdmin.command_line [(SeedAdmin.opt_email, "a@b.c")]
        ++ "--role" :: EmptyString :: rest)%string
     = SeedAdmin.exited 1) /\
  (forall value rest,
     value <> EmptyString ->
     SeedAdmin.parseArguments
       ("bun" :: "seed-admin.ts"
        :: SeedAdmin.command_line [(SeedAdmin.opt_email, "a@b.c")]
        ++ "--role" :: value :: rest)%string
     = SeedAdmin.parseArguments
         ("bun" :: "seed-admin.ts"
          :: SeedAdmin.command_line [(SeedAdmin.opt_email, "a@b.c")]
          ++ rest)%string).
Proof.
  apply (parse_arguments_unknown_option "bun" "seed-admin.ts" "--role"
           [(SeedAdmin.opt_email, "a@b.c"%string)]).
  - intros []; discriminate.
  - discriminate.
  - discriminate.
Defined.

(** X24. Over a table of stored rows, the progress figures of an active
    ojt trainee with a positive requirement stay on the right side of 0:
    the hours rendered and the completion percentage are not negative,
    and the remaining hours never exceed the requirement. *)
Theorem ojt_progress_figures_nonneg
    (db : database) (t : trainee) (u : user) (n : Z) :
  NoDup (map t_id (trainees db)) ->
  NoDup (map u_id (users db)) ->
  In t (trainees db) ->
  In u (users db) ->
  t_user_id t = u_id u ->
  t_trainee_type t = ojt ->
  t_status t = Some active ->
  t_total_required_hours t = Some n ->
  (0 < n)%Z ->
  Tables.rows_stored db ->
  exists row rem pct,
    get_ojt_progress db (Some (t_id t)) = ok [row] /\
    0 <= hours_rendered row /\
    remaining_hours row = Some rem /\ rem <= inject_Z n /\
    completion_percentage row = Some pct /\ 0 <= pct.
Proof.
  intros Hpk Hupk Ht Hu Hfk Hojt Hact Hreq Hn Hs.
  assert (Hz : Qeq_bool (inject_Z n) 0 = false).
  { destruct (Qeq_bool (inject_Z n) 0) eqn:E; [|reflexivity].
    apply zero_divisor in E. lia. }
  assert (Hnpos : 0 < inject_Z n).
  { unfold Qlt; cbn. lia. }
  set (rows := filter (fun tr => (trainee_id tr =? t_id t)%N)
                      (time_records db)).
  assert (Hh : 0 <= coalesce (sum_total_hours rows) 0).
  { rewrite coalesce_sum_total_hours.
    apply hours_sum_bounds. apply Forall_forall. intros tr Hin.
    unfold rows in Hin. apply filter_In in Hin.
    unfold Tables.rows_stored in Hs. rewrite Forall_forall in Hs.
    apply Hs, Hin. }
  do 3 eexists. split.
  - rewrite (get_ojt_progress_single db t u) by assumption.
    unfold ojt_progress_row, completion_expr, div. rewrite Hreq, Hz.
    cbn [bind ok]. reflexivity.
  - cbn [hours_rendered remaining_hours completion_percentage].
    fold rows.
    split; [exact Hh|]. split; [reflexivity|]. split; [lra|].
    split; [reflexivity|].
    apply round_numeric_nonneg_ge0.
    assert (Hq : 0 <= quotient (coalesce (sum_total_hours rows) 0)
                          (sum_dscale rows) (inject_Z n) 0).
    { unfold quotient. apply round_numeric_nonneg_ge0.
      apply Qle_shift_div_l; [exact Hnpos|]. lra. }
    lra.
Qed.

Lemma ojt_progress_figures_nonneg_witness :
  exists row rem pct,
    get_ojt_progress (maria_db (Some 500%Z))
                     (Some (t_id (maria (Some 500%Z)))) = ok [row] /\
    0 <= hours_rendered row /\
    remaining_hours row = Some rem /\ rem <= inject_Z 500 /\
    completion_percentage row = Some pct /\ 0 <= pct.
Proof.
  apply (ojt_progress_figures_nonneg (maria_db (Some 500%Z))
           (maria (Some 500%Z)) maria_user 500%Z).
  - cbn. distinct_keys.
  - cbn. distinct_keys.
  - right. left. reflexivity.
  - right. left. reflexivity.
  - reflexivity.
  - reflexivity.
  - reflexivity.
  - reflexivity.
  - lia.
  - apply stored_rows_stored. repeat (constructor; [concrete_times|]).
    constructor.
Defined.

(** ** The progress query on every requirement *)

Section RequirementFacts.

Lemma round_numeric_nonpos (x : Q) (s : nat) :
  x <= 0 -> round_numeric x s <= 0.
Proof.
  intros Hx. destruct (Qle_bool 0 x) eqn:E.
  - apply Qle_bool_iff in E.
    assert (E0 : x == 0) by lra.
    rewrite (round_numeric_comp x 0 s E0).
    unfold round_numeric. cbn. unfold Qle. cbn. lia.
  - unfold round_numeric. rewrite E.
    assert (Hm : (0 <= Qfloor (Qabs x * inject_Z (Zpos (pow10 s))
                               + (1 # 2)))%Z).
    { change 0%Z with (Qfloor 0). apply Qfloor_resp_le.
      pose proof (Qabs_nonneg x) as Ha.
      assert (Hp : 0 <= inject_Z (Zpos (pow10 s)))
        by (unfold Qle; cbn; lia).
      pose proof (Qmult_le_0_compat _ _ Ha Hp). lra. }
    unfold Qle; cbn [Qnum Qden]. lia.
Qed.

Lemma quotient_by_negative (x : Q) (dx dy : nat) (n : positive) :
  0 <= x -> quotient x dx (inject_Z (Zneg n)) dy <= 0.
Proof.
  intros Hx. unfold quotient. apply round_numeric_nonpos.
  destruct x as [a b]. unfold Qle, Qdiv, Qmult, Qinv in *.
  cbn in *. lia.
Qed.

End RequirementFacts.

(** C5, amended. For an active ojt trainee: when [total_required_hours]
    is 0 the query fails with a division-by-zero error and yields no
    figures; when it is missing the query returns the row with NULL
    [remaining_hours] and NULL [completion_percentage]; when it is any
    other number, negative ones included, the query returns the literal
    subtraction and the rounded quotient.  For a negative requirement
    over rows that the table stored (their hours are never negative),
    the remaining hours are negative and the percentage is not
    positive. *)
Theorem ojt_progress_required_hours_cases
    (db : database) (t : trainee) (u : user) :
  NoDup (map t_id (trainees db)) ->
  NoDup (map u_id (users db)) ->
  In t (trainees db) ->
  In u (users db) ->
  t_user_id t = u_id u ->
  t_trainee_type t = ojt ->
  t_status t = Some active ->
  match t_total_required_hours t with
  | Some 0%Z =>
      get_ojt_progress db (Some (t_id t)) = raise division_by_zero
  | Some n =>
      exists row,
        get_ojt_progress db (Some (t_id t)) = ok [row] /\
        remaining_hours row = Some (inject_Z n - hours_rendered row) /\
        completion_percentage row =
          Some (round_numeric
                  (quotient (hours_rendered row)
                            (sum_dscale (records_of db (t_id t)))
                            (inject_Z n) 0 * 100) 2) /\
        (Tables.rows_stored db -> (n < 0)%Z ->
         inject_Z n - hours_rendered row < 0 /\
         exists pct, completion_percentage row = Some pct /\ pct <= 0)
  | None =>
      exists row,
        get_ojt_progress db (Some (t_id t)) = ok [row] /\
        remaining_hours row = None /\
        completion_percentage row = None
  end.
Proof.
  intros Hpk Hupk Ht Hu Hfk Hojt Hact.
  rewrite (get_ojt_progress_single db t u) by assumption.
  unfold ojt_progress_row, completion_expr, div.
  destruct (t_total_required_hours t) as [[|n|n]|].
  - reflexivity.
  - eexists. split; [reflexivity|]. split; [reflexivity|].
    split; [reflexivity|]. intros _ Hneg. lia.
  - eexists. split; [reflexivity|]. split; [reflexivity|].
    split; [reflexivity|]. intros Hs _.
    cbn [hours_rendered completion_percentage].
    set (rows := filter (fun tr => (trainee_id tr =? t_id t)%N)
                        (time_records db)).
    assert (Hh : 0 <= coalesce (sum_total_hours rows) 0).
    { rewrite coalesce_sum_total_hours.
      apply hours_sum_bounds. apply Forall_forall. intros tr Hin.
      unfold rows in Hin. apply filter_In in Hin.
      unfold Tables.rows_stored in Hs. rewrite Forall_forall in Hs.
      apply Hs, Hin. }
    split.
    + assert (Hn : inject_Z (Z.neg n) < 0) by (unfold Qlt; cbn; lia).
      lra.
    + eexists. split; [reflexivity|].
      apply round_numeric_nonpos.
      pose proof (quotient_by_negative _ (sum_dscale rows) 0 n Hh) as Hq.
      lra.
  - eexists. split; [reflexivity|]. split; reflexivity.
Qed.

Lemma ojt_progress_required_hours_cases_witness :
  get_ojt_progress (maria_db (Some 0%Z)) (Some 5%N) = raise division_by_zero.
Proof.
  apply (ojt_progress_required_hours_cases (maria_db (Some 0%Z))
           (maria (Some 0%Z)) maria_user).
  - distinct_keys.
  - distinct_keys.
  - right. left. reflexivity.
  - right. left. reflexivity.
  - reflexivity.
  - reflexivity.
  - reflexivity.
Defined.
